(** * trackmymoney-backend: the sharded storage manager and its ledgers

    A shallow embedding of the class [DatabaseManager]
    ([database/DatabaseManager.js], the second module of
    [src/middleware/auth.js]), of the category router
    ([src/routes/categories.js]) and of the transaction router
    ([routes/transactions.js], the second module of [src/routes/auth.js]).

    - JavaScript values that reach the storage layer are numbers (IEEE
      754 doubles, the whole ones kept as integers), [NaN] or strings;
      template literals are string concatenation.
    - The directory of database files is a finite map from file names to
      file contents; a file is either an SQLite database or something that
      SQLite refuses to read.
    - The sqlite3 callbacks are run to completion in program order: a
      statement handed to [db.exec], [db.get], [db.all] or [db.run] has
      finished before the next one starts.
    - [CURRENT_TIMESTAMP] and [Date.now()] are arguments of the operations
      that read them. [new Date(date).getFullYear()] and SQLite's [strftime]
      are parameters of the definitions that call them; the first is
      given for dates of the form YYYY-MM-DD ([Js.Date_getFullYear]), with
      the time zone of the process as its parameter.
    - The request body of a transaction carries its amount as a JSON
      number and its date as a JSON string. The columns [amount] and
      [date] have NUMERIC affinity: a row keeps the number and the text
      that were bound, and [Sqlite.stored_integer] and
      [Sqlite.numeric_literal] tell what the column holds for them. How
      SQLite rounds a sum of REAL values and how it orders two numeric
      literals are parameters too.
    - The [console.error] lines of the route handlers, [getUserYears] and
      [GET /range] are left out: no statement below depends on them. *)

From Stdlib Require Import ZArith List Ascii String Lia Sorted Permutation.
From Stdlib Require Import DecimalString DecimalZ.
From Stdlib Require PrimFloat FloatOps SpecFloat.
From stdpp Require Import gmap strings list fin_maps.

Local Open Scope Z_scope.

(* ===================================================================== *)
(** ** JavaScript values and string conversion *)
(* ===================================================================== *)

Module Js.

(** [Number.prototype.toString] on an integer: decimal digits with a
    leading minus sign for negative numbers. (From 10^21 on JavaScript
    writes an exponent; the ids and years of the application are far
    below.) *)
Definition show_Z (z : Z) : string := NilZero.string_of_int (Z.to_int z).

(** The values that are interpolated into a shard key: a number (user
    ids, [getFullYear()]), [NaN] (the year of an invalid date) or a
    string (a [year] query parameter). *)
Inductive value :=
| VNum (n : Z)
| VNaN
| VStr (s : string).

(** [`${v}`] *)
Definition to_string (v : value) : string :=
  match v with
  | VNum n => show_Z n
  | VNaN => "NaN"
  | VStr s => s
  end.

(** [!!s] for a possibly undefined string: the empty string is falsy. *)
Definition truthy_str (o : option string) : bool :=
  match o with
  | Some s => negb (String.eqb s "")
  | None => false
  end.

(** A JavaScript number is an IEEE 754 double. A double that is a whole
    number is written [Int n]; [Real x] is any other double, the
    infinities and [NaN] included. *)
Inductive number :=
| Int (n : Z)
| Real (x : PrimFloat.float).

Coercion Int : Z >-> number.

(** The double nearest to an integer, ties to even. *)
Definition double_of_Z (n : Z) : PrimFloat.float :=
  FloatOps.SF2Prim
    (SpecFloat.binary_normalize FloatOps.prec FloatOps.emax n 0 false).

(** The integer a double is, if it is one. *)
Definition Z_of_double (x : PrimFloat.float) : option Z :=
  match FloatOps.Prim2SF x with
  | SpecFloat.S754_zero _ => Some 0
  | SpecFloat.S754_finite sign m e =>
      let magnitude :=
        if 0 <=? e then Some (Z.pos m * 2 ^ e)
        else if Z.pos m mod 2 ^ (- e) =? 0 then Some (Z.pos m / 2 ^ (- e))
        else None in
      option_map (fun n => if sign then - n else n) magnitude
  | _ => None
  end.

Definition to_double (a : number) : PrimFloat.float :=
  match a with
  | Int n => double_of_Z n
  | Real x => x
  end.

Definition of_double (x : PrimFloat.float) : number :=
  match Z_of_double x with
  | Some n => Int n
  | None => Real x
  end.

(** The integers up to 2^53 in magnitude are doubles, and a sum or
    difference of doubles that is one of them is computed exactly. *)
Definition exact_integer (n : Z) : bool := Z.abs n <=? 2 ^ 53.

(** [a - b] *)
Definition subtract (a b : number) : number :=
  match a, b with
  | Int x, Int y =>
      if exact_integer x && exact_integer y && exact_integer (x - y)
      then Int (x - y)
      else of_double (PrimFloat.sub (double_of_Z x) (double_of_Z y))
  | _, _ => of_double (PrimFloat.sub (to_double a) (to_double b))
  end.

(** [!!a] for a possibly undefined number: 0, -0 and [NaN] are falsy. *)
Definition truthy_num (o : option number) : bool :=
  match o with
  | Some (Int n) => negb (n =? 0)
  | Some (Real x) =>
      negb (PrimFloat.eqb x PrimFloat.zero || PrimFloat.is_nan x)
  | None => false
  end.

(** [!!n] for a possibly undefined whole number, such as an id. *)
Definition truthy_id (o : option Z) : bool :=
  match o with
  | Some n => negb (n =? 0)
  | None => false
  end.

(** The number JavaScript is handed for a column value, and which
    [parseFloat] reads back: a 64-bit integer becomes the nearest
    double. *)
Definition js_number (a : number) : number :=
  match a with
  | Int n => if exact_integer n then Int n else of_double (double_of_Z n)
  | Real x => of_double x
  end.

(** The number a decimal with two fraction digits stands for in a
    request, given in hundredths ([cents 1250] is [12.50]): the double
    nearest to it. *)
Definition cents (c : Z) : number :=
  of_double (PrimFloat.div (double_of_Z c) (double_of_Z 100)).

(** [parseFloat(a) <= 0] for a number [a]: [parseFloat] reads back the
    number it is given, and no comparison holds of [NaN]. *)
Definition not_positive (a : number) : bool :=
  match a with
  | Int n => n <=? 0
  | Real x => PrimFloat.leb x PrimFloat.zero
  end.

(** [a || b] where [a] is the outcome of [parseInt] ([None] is [NaN]). *)
Definition or_default (a : option Z) (b : Z) : Z :=
  match a with
  | Some n => if n =? 0 then b else n
  | None => b
  end.

(** [Math.ceil(a / b)] on integers, [b] not zero. *)
Definition ceil_div (a b : Z) : Z := - ((- a) / b).

(** [path.join(dir, name)] as the entry [name] of the directory [dir].
    Node answers the path normalised (["./databases"] and
    ["user_1_2024.db"] give ["databases/user_1_2024.db"]); the text
    below names the same file. It is the path Node means for a [name]
    without a separator only: Node resolves a name such as
    ["/../user_2_2031.db"] to an entry of another directory, so what is
    said below about two shards keeping to two files is said of years
    whose text has no separator. *)
Definition path_join (dir name : string) : string := dir +:+ "/" +:+ name.

(** The characters of a string. *)
Fixpoint chars (s : string) : list ascii :=
  match s with
  | EmptyString => []
  | String c s' => c :: chars s'
  end.

(** The characters [show_Z] writes. *)
Definition is_digit_or_minus (c : ascii) : bool :=
  match c with
  | "0" | "1" | "2" | "3" | "4" | "5" | "6" | "7" | "8" | "9" | "-" => true
  | _ => false
  end%char.

(** *** [new Date(date).getFullYear()] *)

Definition digit_value (c : ascii) : option Z :=
  let n := Z.of_N (N_of_ascii c) in
  if (48 <=? n) && (n <=? 57) then Some (n - 48) else None.

Definition leap_year (y : Z) : bool :=
  (y mod 4 =? 0) && (negb (y mod 100 =? 0) || (y mod 400 =? 0)).

Definition days_in_month (y m : Z) : Z :=
  if m =? 2 then (if leap_year y then 29 else 28)
  else if (m =? 4) || (m =? 6) || (m =? 9) || (m =? 11) then 30
  else 31.

(** The date-only form [YYYY-MM-DD] of the date-time string format,
    naming a day of the calendar: its year, month and day. *)
Definition date_only (date : string) : option (Z * Z * Z) :=
  match date with
  | String y1 (String y2 (String y3 (String y4 (String "-"
      (String m1 (String m2 (String "-" (String d1 (String d2 EmptyString))))))))) =>
      match digit_value y1, digit_value y2, digit_value y3, digit_value y4,
            digit_value m1, digit_value m2, digit_value d1, digit_value d2 with
      | Some a, Some b, Some c, Some d, Some e, Some f, Some g, Some h =>
          let y := 1000 * a + 100 * b + 10 * c + d in
          let m := 10 * e + f in
          let day := 10 * g + h in
          if (1 <=? m) && (m <=? 12) && (1 <=? day) && (day <=? days_in_month y m)
          then Some (y, m, day) else None
      | _, _, _, _, _, _, _, _ => None
      end
  | _ => None
  end.

Section Date.

(** The time zone of the process: whether local time is behind UTC at
    the start (in UTC) of 1 January of a year. *)
Variable behind_utc : Z -> bool.

(** The year [new Date(date).getFullYear()] answers for a text of
    another form; [None] is the [NaN] of an invalid date. *)
Variable other_formats : string -> option Z.

(** [new Date(date).getFullYear()]: the date-only form is read as
    midnight UTC of that day, and [getFullYear] answers the year local
    time is in at that instant. *)
Definition Date_getFullYear (date : string) : option Z :=
  match date_only date with
  | Some (y, m, d) =>
      Some (if (m =? 1) && (d =? 1) && behind_utc y then y - 1 else y)
  | None => other_formats date
  end.

End Date.

End Js.

(* ===================================================================== *)
(** ** The SQLite store of one shard *)
(* ===================================================================== *)

Module Sqlite.
Import Js.

(** A row of [categories]. [is_default] holds the integer the schema
    stores (0 or 1); the timestamps are the text that
    [CURRENT_TIMESTAMP] produced. *)
Record category_row := {
  cat_id : Z;
  cat_name : string;
  cat_type : string;
  cat_is_default : Z;
  cat_created_at : string;
  cat_updated_at : string
}.

(** A row of [transactions]. [tx_amount] is the number that was bound
    to the statement: the column (DECIMAL(10,2), hence of NUMERIC
    affinity) holds it as an INTEGER when it is a whole number of the
    64-bit range, and as a REAL otherwise. [tx_date] is the text that
    was bound: the column (DATETIME, of NUMERIC affinity too) holds a
    number when that text reads as a numeric literal
    ([numeric_literal] below), and the row then stands for that number
    by the text it was read from. *)
Record transaction_row := {
  tx_id : Z;
  tx_amount : number;
  tx_date : string;
  tx_type : string;
  tx_category_id : Z;
  tx_description : string;
  tx_created_at : string;
  tx_updated_at : string
}.

(** One database file: each table is absent until it is created;
    [seq_*] is the table's entry of [sqlite_sequence] (AUTOINCREMENT). *)
Record database := {
  categories : option (list category_row);
  transactions : option (list transaction_row);
  seq_categories : Z;
  seq_transactions : Z;
  indexes : gset string
}.

(** What a path of the database directory holds. *)
Inductive file :=
| NotADatabase
| Db (d : database).

(** The outcome handed to an sqlite3 callback: [err] or the result. *)
Inductive sql (A : Type) :=
| Failed (err : string)
| Done (a : A).
Arguments Failed {A} err.
Arguments Done {A} a.

(** The texts a column of NUMERIC affinity turns into a number: white
    space, a sign, digits with at most one point and one digit at least,
    an exponent with a digit at least, white space, all but the digits
    optional. *)
Definition is_space (c : ascii) : bool :=
  let n := N_of_ascii c in ((9 <=? n) && (n <=? 13) || (n =? 32))%N.

Definition is_digit (c : ascii) : bool :=
  let n := N_of_ascii c in ((48 <=? n) && (n <=? 57))%N.

Fixpoint skip (p : ascii -> bool) (s : string) : string :=
  match s with
  | String c rest => if p c then skip p rest else s
  | EmptyString => s
  end.

Definition skip_sign (s : string) : string :=
  match s with
  | String c rest => if Ascii.eqb c "+" || Ascii.eqb c "-" then rest else s
  | EmptyString => s
  end.

Definition starts_with_digit (s : string) : bool :=
  match s with
  | String c _ => is_digit c
  | EmptyString => false
  end.

Definition numeric_literal (s : string) : bool :=
  let mantissa := skip_sign (skip is_space s) in
  let after_whole := skip is_digit mantissa in
  let fraction :=
    match after_whole with
    | String c rest => if Ascii.eqb c "." then Some rest else None
    | EmptyString => None
    end in
  let after_mantissa :=
    match fraction with
    | Some rest => skip is_digit rest
    | None => after_whole
    end in
  let has_digit :=
    starts_with_digit mantissa
    || match fraction with Some rest => starts_with_digit rest | None => false end in
  let after_exponent :=
    match after_mantissa with
    | String c rest =>
        if Ascii.eqb c "e" || Ascii.eqb c "E" then
          if starts_with_digit (skip_sign rest)
          then Some (skip is_digit (skip_sign rest))
          else None
        else Some after_mantissa
    | EmptyString => Some after_mantissa
    end in
  has_digit &&
  match after_exponent with
  | Some rest => String.eqb (skip is_space rest) ""
  | None => false
  end.

(** The integer a column of NUMERIC affinity holds for a number: a
    whole number strictly inside the 64-bit range; [None] when the
    column holds a REAL. *)
Definition stored_integer (a : number) : option Z :=
  match (match a with Int n => Some n | Real x => Z_of_double x end) with
  | Some n => if (- (2 ^ 63) <? n) && (n <? 2 ^ 63) then Some n else None
  | None => None
  end.

Definition empty_database : database :=
  {| categories := None; transactions := None;
     seq_categories := 0; seq_transactions := 0; indexes := ∅ |}.

Definition with_categories (d : database) (rows : list category_row) (seq : Z) : database :=
  {| categories := Some rows; transactions := transactions d;
     seq_categories := seq; seq_transactions := seq_transactions d;
     indexes := indexes d |}.

Definition with_transactions (d : database) (rows : list transaction_row) (seq : Z) : database :=
  {| categories := categories d; transactions := Some rows;
     seq_categories := seq_categories d; seq_transactions := seq;
     indexes := indexes d |}.

Definition with_indexes (d : database) (ix : gset string) : database :=
  {| categories := categories d; transactions := transactions d;
     seq_categories := seq_categories d; seq_transactions := seq_transactions d;
     indexes := ix |}.

(** [SELECT ... FROM categories WHERE id = ?] handed to [db.get]. *)
Definition find_category (rows : list category_row) (id : Z) : option category_row :=
  List.find (fun c => cat_id c =? id) rows.

(** The largest rowid of a table (0 when empty). *)
Definition max_id {A} (id : A -> Z) (rows : list A) : Z :=
  fold_right (fun r m => Z.max (id r) m) 0 rows.

(** The rowid AUTOINCREMENT assigns: one more than the largest rowid
    ever used. *)
Definition next_id {A} (id : A -> Z) (rows : list A) (seq : Z) : Z :=
  Z.max (max_id id rows) seq + 1.

(** *** The schema script of [initializeSchema] *)

(** [CREATE TABLE IF NOT EXISTS categories (...)] *)
Definition create_categories (d : database) : database :=
  match categories d with
  | Some _ => d
  | None => with_categories d [] (seq_categories d)
  end.

(** [CREATE TABLE IF NOT EXISTS transactions (...)] *)
Definition create_transactions (d : database) : database :=
  match transactions d with
  | Some _ => d
  | None => with_transactions d [] (seq_transactions d)
  end.

(** The [VALUES] list of the seed statement: (id, name, type). *)
Definition default_categories : list (Z * string * string) :=
  [ (1, "Monthly Fund", "income");
    (2, "Special Fund", "income");
    (3, "Donation", "income");
    (4, "Personal Money", "income");
    (5, "Bank Loan", "income");
    (6, "Borrowed Money", "income");
    (7, "Others", "income");
    (8, "Employee Salary", "expense");
    (9, "Foods & Treats", "expense");
    (10, "Conveyances", "expense");
    (11, "Purchase", "expense");
    (12, "Rents", "expense");
    (13, "Utility Bills", "expense");
    (14, "Others", "expense") ]%string.

(** One row of [INSERT OR IGNORE INTO categories (id, name, type,
    is_default)]: a row whose id is taken is skipped. *)
Definition insert_or_ignore (now : string) (rows : list category_row)
    (v : Z * string * string) : list category_row :=
  let '(id, name, type) := v in
  match find_category rows id with
  | Some _ => rows
  | None =>
      rows ++ [ {| cat_id := id; cat_name := name; cat_type := type;
                   cat_is_default := 1;
                   cat_created_at := now; cat_updated_at := now |} ]
  end.

Definition seed_categories (now : string) (d : database) : sql database :=
  match categories d with
  | None => Failed "no such table: categories"
  | Some rows =>
      let rows' := fold_left (insert_or_ignore now) default_categories rows in
      Done (with_categories d rows'
              (Z.max (seq_categories d) (max_id cat_id rows')))
  end.

(** The category rows once the seed statement has run over [d]. *)
Definition seeded_rows (now : string) (d : database) : list category_row :=
  fold_left (insert_or_ignore now) default_categories (default [] (categories d)).

(** The four [CREATE INDEX IF NOT EXISTS] statements. *)
Definition schema_indexes : gset string :=
  {[ "idx_transactions_date"; "idx_transactions_type";
     "idx_transactions_category"; "idx_categories_type" ]}%string.

Definition create_indexes (d : database) : database :=
  with_indexes d (indexes d ∪ schema_indexes).

(** [db.exec(schema, cb)]: the statements in order; the first error
    stops the script and is handed to the callback. *)
Definition exec_schema (now : string) (f : file) : sql database :=
  match f with
  | NotADatabase => Failed "SQLITE_NOTADB: file is not a database"
  | Db d =>
      match seed_categories now (create_transactions (create_categories d)) with
      | Failed e => Failed e
      | Done d' => Done (create_indexes d')
      end
  end.

End Sqlite.

(* ===================================================================== *)
(** ** [DatabaseManager]: the connection registry *)
(* ===================================================================== *)

Module DatabaseManager.
Import Js Sqlite.

(** An [sqlite3.Database] object: its identity (the objects are numbered
    in the order in which they are constructed) and the file it is
    bound to. *)
Record handle := { h_id : nat; h_file : string }.

(** The singleton manager together with the world it acts on: the
    [connections] map, the database directory, what was written with
    [console.error], and the number of handles constructed so far. *)
Record manager := {
  dbPath : string;
  connections : gmap string handle;
  fs : gmap string file;
  console : list string;
  constructed : nat
}.

(** [new DatabaseManager(dbPath)] over a given directory content. *)
Definition new_manager (path : string) (dir : gmap string file) : manager :=
  {| dbPath := path; connections := ∅; fs := dir;
     console := []; constructed := 0 |}.

Definition set_connections (m : manager) (c : gmap string handle) : manager :=
  {| dbPath := dbPath m; connections := c; fs := fs m;
     console := console m; constructed := constructed m |}.

Definition set_fs (m : manager) (d : gmap string file) : manager :=
  {| dbPath := dbPath m; connections := connections m; fs := d;
     console := console m; constructed := constructed m |}.

Definition console_error (m : manager) (line : string) : manager :=
  {| dbPath := dbPath m; connections := connections m; fs := fs m;
     console := console m ++ [line]; constructed := constructed m |}.

(** [`user_${userId}_${year}.db`] *)
Definition getDbFileName (userId : Z) (year : value) : string :=
  "user_" +:+ show_Z userId +:+ "_" +:+ to_string year +:+ ".db".

(** [`${userId}_${year}`] *)
Definition shard_key (userId : Z) (year : value) : string :=
  show_Z userId +:+ "_" +:+ to_string year.

Definition dbFile (m : manager) (userId : Z) (year : value) : string :=
  path_join (dbPath m) (getDbFileName userId year).

(** [new sqlite3.Database(dbFile)]: a fresh object; a missing file is
    created as an empty database. *)
Definition open_database (m : manager) (name : string) : handle * manager :=
  let db := {| h_id := constructed m; h_file := name |} in
  let dir := match fs m !! name with
             | Some _ => fs m
             | None => <[name := Db empty_database]> (fs m)
             end in
  (db, {| dbPath := dbPath m; connections := connections m; fs := dir;
          console := console m; constructed := S (constructed m) |}).

(** What a handle reads: the content of its file. *)
Definition content (m : manager) (db : handle) : file :=
  match fs m !! h_file db with
  | Some f => f
  | None => Db empty_database
  end.

(** [initializeSchema(db)]: an error of [db.exec] is written to the
    console and nothing else happens. *)
Definition initializeSchema (now : string) (m : manager) (db : handle) : manager :=
  match exec_schema now (content m db) with
  | Failed err =>
      console_error m ("Error initializing database schema: " +:+ err)
  | Done d => set_fs m (<[h_file db := Db d]> (fs m))
  end.

(** [getConnection(userId, year)] *)
Definition getConnection (now : string) (m : manager) (userId : Z) (year : value)
    : handle * manager :=
  let key := shard_key userId year in
  match connections m !! key with
  | Some db => (db, m)
  | None =>
      let '(db, m1) := open_database m (dbFile m userId year) in
      let m2 := set_connections m1 (<[key := db]> (connections m1)) in
      (db, initializeSchema now m2 db)
  end.

(** [closeConnection(userId, year)] *)
Definition closeConnection (m : manager) (userId : Z) (year : value) : manager :=
  let key := shard_key userId year in
  match connections m !! key with
  | Some _ => set_connections m (delete key (connections m))
  | None => m
  end.

(** [closeAllConnections()] *)
Definition closeAllConnections (m : manager) : manager :=
  set_connections m ∅.

(** [backupDatabase(userId, year)], with the reading of [Date.now()]. *)
Definition backupFile (m : manager) (userId : Z) (year : value) (date_now : Z) : string :=
  path_join (dbPath m)
    ("backup_" +:+ getDbFileName userId year +:+ "_" +:+ show_Z date_now).

Definition backupDatabase (date_now : Z) (m : manager) (userId : Z) (year : value)
    : option string * manager :=
  let source := dbFile m userId year in
  let target := backupFile m userId year date_now in
  match fs m !! source with
  | Some f => (Some target, set_fs m (<[target := f]> (fs m)))
  | None => (None, m)
  end.

(** The schema is in place in a file: both tables exist, each of the
    ids 1 to 14 has a category row, and the four indexes on
    transactions(date), transactions(type), transactions(category_id) and
    categories(type) exist. *)
Definition schema_present (f : file) : Prop :=
  match f with
  | NotADatabase => False
  | Db d =>
      (exists rows, categories d = Some rows /\
         forall id, 1 <= id <= 14 -> exists c, find_category rows id = Some c) /\
      (exists txs, transactions d = Some txs) /\
      (forall index,
         In index [ "idx_transactions_date"; "idx_transactions_type";
                    "idx_transactions_category"; "idx_categories_type" ]%string ->
         index ∈ indexes d)
  end.

(** Every cached handle is an object that has been constructed. *)
Definition handles_constructed (m : manager) : Prop :=
  map_Forall (fun _ db => (h_id db < constructed m)%nat) (connections m).

(** The columns of the category table that the seed statement fixes. *)
Definition seed_columns (c : category_row) : Z * string * Z :=
  (cat_id c, cat_type c, cat_is_default c).

End DatabaseManager.

(* ===================================================================== *)
(** ** HTTP responses *)
(* ===================================================================== *)

Module Http.
Import Js.

(** The JSON a category is answered with. *)
Record category_json := {
  cj_id : Z;
  cj_name : string;
  cj_type : string;
  cj_isDefault : bool;
  cj_createdAt : string;
  cj_updatedAt : string
}.

(** The JSON a transaction is answered with; [tj_categoryName] is
    [null] when the LEFT JOIN finds no category. [tj_date] is the value
    of the column as the row has it: a date the column holds as a number
    is written as the text it was stored from. *)
Record transaction_json := {
  tj_id : Z;
  tj_amount : number;
  tj_date : string;
  tj_type : string;
  tj_categoryId : Z;
  tj_categoryName : option string;
  tj_description : string;
  tj_createdAt : string;
  tj_updatedAt : string
}.

Record pagination := {
  currentPage : Z;
  totalPages : Z;
  totalCount : Z;
  hasNextPage : bool;
  hasPrevPage : bool
}.

Record month_stats := { income : number; expenses : number }.

Record stats_json := {
  totalIncome : number;
  totalExpenses : number;
  transactionCount : Z;
  netBalance : number;
  monthlyStats : gmap string month_stats
}.

Inductive payload :=
| Message (text : string)
| Category (c : category_json)
| Categories (l : list category_json)
| Transaction (t : transaction_json)
| Transactions (l : list transaction_json) (p : pagination)
| Stats (s : stats_json).

(** [res.status(code).json({success, ...})] *)
Record response := { status : Z; success : bool; body : payload }.

Definition failure (code : Z) (text : string) : response :=
  {| status := code; success := false; body := Message text |}.

Definition ok (code : Z) (p : payload) : response :=
  {| status := code; success := true; body := p |}.

(** The transactions of a list answer. *)
Definition listed (r : response) : list transaction_json :=
  match body r with
  | Transactions l _ => l
  | _ => []
  end.

End Http.

(* ===================================================================== *)
(** ** Queries shared by the routes *)
(* ===================================================================== *)

Module Query.
Import Js Sqlite.

(** The rows of a table as a statement sees them; a file that is not
    a database, or a missing table, fails the statement. *)
Definition category_table (f : file) : sql (list category_row) :=
  match f with
  | NotADatabase => Failed "SQLITE_NOTADB: file is not a database"
  | Db d =>
      match categories d with
      | Some rows => Done rows
      | None => Failed "no such table: categories"
      end
  end.

Definition transaction_table (f : file) : sql (list transaction_row) :=
  match f with
  | NotADatabase => Failed "SQLITE_NOTADB: file is not a database"
  | Db d =>
      match transactions d with
      | Some rows => Done rows
      | None => Failed "no such table: transactions"
      end
  end.

(** [db.get('SELECT ... FROM categories WHERE id = ?', [id], cb)] *)
Definition get_category (f : file) (id : Z) : sql (option category_row) :=
  match category_table f with
  | Failed e => Failed e
  | Done rows => Done (find_category rows id)
  end.

(** Stable insertion sort, the order of [ORDER BY]. *)
Fixpoint insert_by {A} (le : A -> A -> bool) (x : A) (l : list A) : list A :=
  match l with
  | [] => [x]
  | y :: l' => if le x y then x :: l else y :: insert_by le x l'
  end.

Definition sort_by {A} (le : A -> A -> bool) (l : list A) : list A :=
  fold_right (insert_by le) [] l.

(** Text columns compare byte by byte (the BINARY collation). *)
Definition text_compare : string -> string -> comparison :=
  Stdlib.Strings.String.compare.

(** The [type] values the CHECK constraints of both tables accept. *)
Definition check_type (type : string) : bool :=
  String.eqb type "income" || String.eqb type "expense".

End Query.

(* ===================================================================== *)
(** ** [routes/categories.js] *)
(* ===================================================================== *)

Module Categories.
Import Js Sqlite Http Query DatabaseManager.

Definition category_json_of (cat : category_row) : category_json :=
  {| cj_id := cat_id cat;
     cj_name := cat_name cat;
     cj_type := cat_type cat;
     cj_isDefault := cat_is_default cat =? 1;
     cj_createdAt := cat_created_at cat;
     cj_updatedAt := cat_updated_at cat |}.

(** [ORDER BY type, name] *)
Definition by_type_name (a b : category_row) : bool :=
  match text_compare (cat_type a) (cat_type b) with
  | Lt => true
  | Gt => false
  | Eq => match text_compare (cat_name a) (cat_name b) with
          | Gt => false
          | _ => true
          end
  end.

(** GET /: the handler once the connection is there. *)
Definition list_categories (f : file) : response :=
  match category_table f with
  | Failed _ => failure 500 "Failed to fetch categories"
  | Done rows =>
      ok 200 (Categories (map category_json_of (sort_by by_type_name rows)))
  end.

(** [INSERT INTO categories (name, type, is_default) VALUES (?, ?, 0)];
    answers [this.lastID]. *)
Definition insert_category (now : string) (f : file) (name type : string)
    : sql (Z * file) :=
  match f with
  | NotADatabase => Failed "SQLITE_NOTADB: file is not a database"
  | Db d =>
      match categories d with
      | None => Failed "no such table: categories"
      | Some rows =>
          if check_type type then
            let id := next_id cat_id rows (seq_categories d) in
            let row := {| cat_id := id; cat_name := name; cat_type := type;
                          cat_is_default := 0;
                          cat_created_at := now; cat_updated_at := now |} in
            Done (id, Db (with_categories d (rows ++ [row]) id))
          else Failed "CHECK constraint failed: categories"
      end
  end.

(** POST /: [name] and [type] are the fields of the request body. The
    re-read after a successful insert always finds the row; the branch for
    a missing row stands for the exception the handler would raise. *)
Definition create_category (now : string) (f : file) (name type : option string)
    : response * file :=
  if negb (truthy_str name) || negb (truthy_str type) then
    (failure 400 "Name and type are required", f)
  else if negb (check_type (default "" type)) then
    (failure 400 "Type must be income or expense", f)
  else
    match insert_category now f (default "" name) (default "" type) with
    | Failed _ => (failure 500 "Failed to create category", f)
    | Done (lastID, f') =>
        match get_category f' lastID with
        | Failed _ =>
            (failure 500 "Category created but failed to fetch", f')
        | Done (Some category) =>
            (ok 201 (Category (category_json_of category)), f')
        | Done None =>
            (failure 500 "Category created but failed to fetch", f')
        end
    end.

(** [UPDATE categories SET name = ?, updated_at = CURRENT_TIMESTAMP
    WHERE id = ?]; answers [this.changes]. *)
Definition rename_row (now name : string) (id : Z) (c : category_row) : category_row :=
  if cat_id c =? id then
    {| cat_id := cat_id c; cat_name := name; cat_type := cat_type c;
       cat_is_default := cat_is_default c;
       cat_created_at := cat_created_at c; cat_updated_at := now |}
  else c.

Definition update_category_name (now : string) (f : file) (name : string) (id : Z)
    : sql (Z * file) :=
  match f with
  | NotADatabase => Failed "SQLITE_NOTADB: file is not a database"
  | Db d =>
      match categories d with
      | None => Failed "no such table: categories"
      | Some rows =>
          let changes := Z.of_nat (length (List.filter (fun c => cat_id c =? id) rows)) in
          Done (changes,
                Db (with_categories d (map (rename_row now name id) rows)
                      (seq_categories d)))
      end
  end.

(** PUT /:id *)
Definition rename_category (now : string) (f : file) (categoryId : Z)
    (name : option string) : response * file :=
  if negb (truthy_str name) then (failure 400 "Name is required", f)
  else
    match update_category_name now f (default "" name) categoryId with
    | Failed _ => (failure 500 "Failed to update category", f)
    | Done (changes, f') =>
        if changes =? 0 then (failure 404 "Category not found", f')
        else
          match get_category f' categoryId with
          | Failed _ =>
              (failure 500 "Category updated but failed to fetch", f')
          | Done (Some category) =>
              (ok 200 (Category (category_json_of category)), f')
          | Done None =>
              (failure 500 "Category updated but failed to fetch", f')
          end
    end.

(** [SELECT COUNT( * ) as count FROM transactions WHERE category_id = ?] *)
Definition count_usage (f : file) (id : Z) : sql Z :=
  match transaction_table f with
  | Failed e => Failed e
  | Done txs =>
      Done (Z.of_nat (length (List.filter (fun t => tx_category_id t =? id) txs)))
  end.

(** [DELETE FROM categories WHERE id = ?] *)
Definition delete_category_row (f : file) (id : Z) : sql file :=
  match f with
  | NotADatabase => Failed "SQLITE_NOTADB: file is not a database"
  | Db d =>
      match categories d with
      | None => Failed "no such table: categories"
      | Some rows =>
          Done (Db (with_categories d
                      (List.filter (fun c => negb (cat_id c =? id)) rows)
                      (seq_categories d)))
      end
  end.

(** DELETE /:id *)
Definition delete_category (f : file) (categoryId : Z) : response * file :=
  match get_category f categoryId with
  | Failed _ => (failure 500 "Failed to check category", f)
  | Done None => (failure 404 "Category not found", f)
  | Done (Some category) =>
      if cat_is_default category =? 1 then
        (failure 400 "Cannot delete default categories", f)
      else
        match count_usage f categoryId with
        | Failed _ => (failure 500 "Failed to check category usage", f)
        | Done count =>
            if 0 <? count then
              (failure 400 ("Cannot delete category. It is used in "
                            +:+ show_Z count +:+ " transaction(s)"), f)
            else
              match delete_category_row f categoryId with
              | Failed _ => (failure 500 "Failed to delete category", f)
              | Done f' => (ok 200 (Message "Category deleted successfully"), f')
              end
        end
  end.

End Categories.

(* ===================================================================== *)
(** ** Running a route against the shard of a request *)
(* ===================================================================== *)

Module Route.
Import Js Sqlite Http DatabaseManager.

(** [req.query.year || new Date().getFullYear()] *)
Definition year_param (query_year : option string) (current_year : Z) : value :=
  if truthy_str query_year then VStr (default "" query_year)
  else VNum current_year.

(** What the statements of a handler leave in the file of its handle. *)
Definition commit (m : manager) (db : handle) (f : file) : manager :=
  set_fs m (<[h_file db := f]> (fs m)).

(** [const db = DatabaseManager.getConnection(userId, year)] followed by
    the statements of the handler, all against [db]. *)
Definition on_shard (now : string) (m : manager) (userId : Z) (year : value)
    (handler : file -> response * file) : response * manager :=
  let '(db, m1) := getConnection now m userId year in
  let '(r, f') := handler (content m1 db) in
  (r, commit m1 db f').

(** POST / of the category router: the body is checked before the
    connection is asked for, and the statements run after. *)
Definition post_category (now : string) (m : manager) (userId : Z) (year : value)
    (name type : option string) : response * manager :=
  if negb (truthy_str name) || negb (truthy_str type) then
    (failure 400 "Name and type are required", m)
  else if negb (Query.check_type (default "" type)) then
    (failure 400 "Type must be income or expense", m)
  else
    on_shard now m userId year
      (fun f => Categories.create_category now f name type).

(** PUT /:id of the category router: likewise. *)
Definition put_category (now : string) (m : manager) (userId : Z) (year : value)
    (categoryId : Z) (name : option string) : response * manager :=
  if negb (truthy_str name) then (failure 400 "Name is required", m)
  else
    on_shard now m userId year
      (fun f => Categories.rename_category now f categoryId name).

(** The file a route works on once its connection is there. *)
Definition shard_after_open (now : string) (m : manager) (userId : Z)
    (year : value) : file :=
  let '(db, m1) := getConnection now m userId year in content m1 db.

(** The transaction rows of a file, and of a path of the directory. *)
Definition file_rows (f : file) : list transaction_row :=
  match f with
  | Db d => default [] (transactions d)
  | NotADatabase => []
  end.

Definition rows_at (m : manager) (name : string) : list transaction_row :=
  match fs m !! name with
  | Some f => file_rows f
  | None => []
  end.

End Route.

(* ===================================================================== *)
(** ** [routes/transactions.js] *)
(* ===================================================================== *)

Module Transactions.
Import Js Sqlite Http Query DatabaseManager Route.

(** The fields of the request body of POST / and PUT /:id; [None] is
    an absent field. *)
Record transaction_body := {
  b_amount : option number;
  b_date : option string;
  b_type : option string;
  b_categoryId : option Z;
  b_description : option string
}.

(** A row of [transactions t LEFT JOIN categories c ON t.category_id = c.id]. *)
Definition joined_row : Type := transaction_row * option category_row.

Definition left_join (cats : list category_row) (t : transaction_row) : joined_row :=
  (t, find_category cats (tx_category_id t)).

Definition transaction_json_of (r : joined_row) : transaction_json :=
  let t := fst r in
  {| tj_id := tx_id t;
     tj_amount := tx_amount t;
     tj_date := tx_date t;
     tj_type := tx_type t;
     tj_categoryId := tx_category_id t;
     tj_categoryName := option_map cat_name (snd r);
     tj_description := tx_description t;
     tj_createdAt := tx_created_at t;
     tj_updatedAt := tx_updated_at t |}.

(** [SELECT t.*, c.name, c.type FROM transactions t LEFT JOIN categories c ...] *)
Definition select_joined (f : file) : sql (list joined_row) :=
  match transaction_table f with
  | Failed e => Failed e
  | Done txs =>
      match category_table f with
      | Failed e => Failed e
      | Done cats => Done (map (left_join cats) txs)
      end
  end.

(** [... WHERE t.id = ?] handed to [db.get] *)
Definition get_joined (f : file) (id : Z) : sql (option joined_row) :=
  match select_joined f with
  | Failed e => Failed e
  | Done rows => Done (List.find (fun r => tx_id (fst r) =? id) rows)
  end.

Section Order.

(** The order of the numbers two numeric literals are stored as. *)
Variable numeric_order : string -> string -> comparison.

(** The order of the values of the [date] column: a number comes before
    every text, numbers go by their value and texts byte by byte. *)
Definition date_compare (a b : string) : comparison :=
  match numeric_literal a, numeric_literal b with
  | true, true => numeric_order a b
  | true, false => Lt
  | false, true => Gt
  | false, false => text_compare a b
  end.

(** [ORDER BY t.date DESC, t.id DESC] *)
Definition by_date_id_desc (a b : transaction_row) : bool :=
  match date_compare (tx_date a) (tx_date b) with
  | Gt => true
  | Lt => false
  | Eq => tx_id b <=? tx_id a
  end.

Definition joined_desc (a b : joined_row) : bool :=
  by_date_id_desc (fst a) (fst b).

(** [LIMIT ? OFFSET ?]: a negative limit is no limit, a negative offset
    is no offset. *)
Definition limit_offset {A} (limit offset : Z) (l : list A) : list A :=
  let rest := skipn (Z.to_nat offset) l in
  if limit <? 0 then rest else firstn (Z.to_nat limit) rest.

(** GET /: [page] and [limit] are [parseInt(req.query.page)] and
    [parseInt(req.query.limit)], [None] standing for [NaN]. *)
Definition list_transactions (f : file) (page_param limit_param : option Z)
    : response :=
  let page := or_default page_param 1 in
  let limit := or_default limit_param 50 in
  let offset := (page - 1) * limit in
  match transaction_table f with
  | Failed _ => failure 500 "Failed to count transactions"
  | Done counted =>
      let totalCount := Z.of_nat (length counted) in
      let totalPages := ceil_div totalCount limit in
      match select_joined f with
      | Failed _ => failure 500 "Failed to fetch transactions"
      | Done rows =>
          ok 200
            (Transactions
               (map transaction_json_of
                  (limit_offset limit offset (sort_by joined_desc rows)))
               {| currentPage := page;
                  totalPages := totalPages;
                  totalCount := totalCount;
                  hasNextPage := page <? totalPages;
                  hasPrevPage := 1 <? page |})
      end
  end.

End Order.

(** [INSERT INTO transactions (amount, date, type, category_id,
    description) VALUES (?, ?, ?, ?, ?)]; answers [this.lastID]. *)
Definition insert_transaction (now : string) (f : file) (amount : number)
    (date type : string) (categoryId : Z) (description : string)
    : sql (Z * file) :=
  match f with
  | NotADatabase => Failed "SQLITE_NOTADB: file is not a database"
  | Db d =>
      match transactions d with
      | None => Failed "no such table: transactions"
      | Some rows =>
          if check_type type then
            let id := next_id tx_id rows (seq_transactions d) in
            let row := {| tx_id := id; tx_amount := amount; tx_date := date;
                          tx_type := type; tx_category_id := categoryId;
                          tx_description := description;
                          tx_created_at := now; tx_updated_at := now |} in
            Done (id, Db (with_transactions d (rows ++ [row]) id))
          else Failed "CHECK constraint failed: transactions"
      end
  end.

(** The callbacks of POST / from [db.get('SELECT id FROM categories
    WHERE id = ?')] on. *)
Definition create_in_shard (now : string) (f : file) (amount : number)
    (date type : string) (categoryId : Z) (description : string)
    : response * file :=
  match get_category f categoryId with
  | Failed _ => (failure 500 "Failed to verify category", f)
  | Done None => (failure 400 "Invalid category", f)
  | Done (Some _) =>
      match insert_transaction now f amount date type categoryId description with
      | Failed _ => (failure 500 "Failed to create transaction", f)
      | Done (lastID, f') =>
          match get_joined f' lastID with
          | Done (Some transaction) =>
              (ok 201 (Transaction (transaction_json_of transaction)), f')
          | _ => (failure 500 "Transaction created but failed to fetch", f')
          end
      end
  end.

(** [UPDATE transactions SET amount = ?, date = ?, type = ?,
    category_id = ?, description = ?, updated_at = CURRENT_TIMESTAMP
    WHERE id = ?]; answers [this.changes]. The CHECK constraint is
    evaluated on the rows that are updated. *)
Definition update_row (now : string) (amount : number) (date type : string)
    (categoryId : Z) (description : string) (id : Z) (t : transaction_row)
    : transaction_row :=
  if tx_id t =? id then
    {| tx_id := tx_id t; tx_amount := amount; tx_date := date;
       tx_type := type; tx_category_id := categoryId;
       tx_description := description;
       tx_created_at := tx_created_at t; tx_updated_at := now |}
  else t.

Definition update_transaction_row (now : string) (f : file) (amount : number)
    (date type : string) (categoryId : Z) (description : string) (id : Z)
    : sql (Z * file) :=
  match f with
  | NotADatabase => Failed "SQLITE_NOTADB: file is not a database"
  | Db d =>
      match transactions d with
      | None => Failed "no such table: transactions"
      | Some rows =>
          let changes := Z.of_nat (length (List.filter (fun t => tx_id t =? id) rows)) in
          if (changes =? 0) || check_type type then
            Done (changes,
                  Db (with_transactions d
                        (map (update_row now amount date type categoryId
                                description id) rows)
                        (seq_transactions d)))
          else Failed "CHECK constraint failed: transactions"
      end
  end.

(** The callbacks of PUT /:id from the category check on. *)
Definition update_in_shard (now : string) (f : file) (transactionId : Z)
    (amount : number) (date type : string) (categoryId : Z) (description : string)
    : response * file :=
  match get_category f categoryId with
  | Failed _ => (failure 500 "Failed to verify category", f)
  | Done None => (failure 400 "Invalid category", f)
  | Done (Some _) =>
      match update_transaction_row now f amount date type categoryId
              description transactionId with
      | Failed _ => (failure 500 "Failed to update transaction", f)
      | Done (changes, f') =>
          if changes =? 0 then (failure 404 "Transaction not found", f')
          else
            match get_joined f' transactionId with
            | Done (Some transaction) =>
                (ok 200 (Transaction (transaction_json_of transaction)), f')
            | _ => (failure 500 "Transaction updated but failed to fetch", f')
            end
      end
  end.

(** DELETE /:id: [DELETE FROM transactions WHERE id = ?] *)
Definition delete_transaction (f : file) (transactionId : Z) : response * file :=
  match f with
  | NotADatabase => (failure 500 "Failed to delete transaction", f)
  | Db d =>
      match transactions d with
      | None => (failure 500 "Failed to delete transaction", f)
      | Some rows =>
          let changes :=
            Z.of_nat (length (List.filter (fun t => tx_id t =? transactionId) rows)) in
          if changes =? 0 then (failure 404 "Transaction not found", f)
          else
            (ok 200 (Message "Transaction deleted successfully"),
             Db (with_transactions d
                   (List.filter (fun t => negb (tx_id t =? transactionId)) rows)
                   (seq_transactions d)))
      end
  end.

Section Builtins.

(** [new Date(date).getFullYear()], the year of a date in the time
    zone of the process; [None] is the [NaN] of an invalid date. *)
Variable getFullYear : string -> option Z.

(** SQLite's [strftime(format, timestring)]; [None] is [NULL]. *)
Variable strftime : string -> string -> option string.

Definition transactionYear (date : string) : value :=
  match getFullYear date with
  | Some y => VNum y
  | None => VNaN
  end.

(** The three validation steps of POST /, in the order of the code;
    [None] when the body passes. *)
Definition validate_create (b : transaction_body) : option response :=
  if negb (truthy_num (b_amount b)) || negb (truthy_str (b_date b))
     || negb (truthy_str (b_type b)) || negb (truthy_id (b_categoryId b))
  then Some (failure 400 "Amount, date, type, and category are required")
  else if negb (check_type (default "" (b_type b)))
  then Some (failure 400 "Type must be income or expense")
  else if not_positive (default (Int 0) (b_amount b))
  then Some (failure 400 "Amount must be greater than 0")
  else None.

(** POST / *)
Definition create_transaction (now : string) (m : manager) (userId : Z)
    (b : transaction_body) : response * manager :=
  match validate_create b with
  | Some r => (r, m)
  | None =>
      let date := default "" (b_date b) in
      on_shard now m userId (transactionYear date)
        (fun f => create_in_shard now f (default (Int 0) (b_amount b)) date
                    (default "" (b_type b)) (default 0 (b_categoryId b))
                    (default "" (b_description b)))
  end.

(** The validation of PUT /:id: the type is not checked here. *)
Definition validate_update (b : transaction_body) : option response :=
  if negb (truthy_num (b_amount b)) || negb (truthy_str (b_date b))
     || negb (truthy_str (b_type b)) || negb (truthy_id (b_categoryId b))
  then Some (failure 400 "Amount, date, type, and category are required")
  else if not_positive (default (Int 0) (b_amount b))
  then Some (failure 400 "Amount must be greater than 0")
  else None.

(** PUT /:id *)
Definition update_transaction (now : string) (m : manager) (userId : Z)
    (transactionId : Z) (b : transaction_body) : response * manager :=
  match validate_update b with
  | Some r => (r, m)
  | None =>
      let date := default "" (b_date b) in
      on_shard now m userId (transactionYear date)
        (fun f => update_in_shard now f transactionId
                    (default (Int 0) (b_amount b)) date
                    (default "" (b_type b)) (default 0 (b_categoryId b))
                    (default "" (b_description b)))
  end.

(** *** GET /stats *)

(** SQLite's [SUM] over values of which one at least is a REAL: a
    floating point approximation of their sum, or the error of an
    integer overflow met before the first REAL. How the approximation
    is rounded depends on the release of SQLite. *)
Variable real_sum : list number -> sql PrimFloat.float.

(** The integer additions of [SUM]: leaving the 64-bit range is an
    error. *)
Fixpoint add_integers (total : Z) (l : list Z) : sql Z :=
  match l with
  | [] => Done total
  | n :: rest =>
      if (- (2 ^ 63) <=? total + n) && (total + n <? 2 ^ 63)
      then add_integers (total + n) rest
      else Failed "integer overflow"
  end.

(** [SUM(amount)]: [NULL] over no row, an INTEGER when every value is
    one, a REAL otherwise. *)
Definition sql_sum (l : list number) : sql (option number) :=
  match l with
  | [] => Done None
  | _ :: _ =>
      match mapM stored_integer l with
      | Some integers =>
          match add_integers 0 integers with
          | Done total => Done (Some (Int total))
          | Failed e => Failed e
          end
      | None =>
          match real_sum l with
          | Done x => Done (Some (Real x))
          | Failed e => Failed e
          end
      end
  end.

(** [parseFloat(result.total)]; [parseFloat(null)] is [NaN]. *)
Definition parse_total (total : option number) : number :=
  match total with
  | Some a => js_number a
  | None => Real PrimFloat.nan
  end.

(** [SELECT COALESCE(SUM(amount), 0) as total ...] over the selected
    rows, read through [parseFloat]. *)
Definition coalesce_sum (rows : list transaction_row) : sql number :=
  match sql_sum (map tx_amount rows) with
  | Done total => Done (js_number (default (Int 0) total))
  | Failed e => Failed e
  end.

Definition of_type (type : string) (rows : list transaction_row)
    : list transaction_row :=
  List.filter (fun t => String.eqb (tx_type t) type) rows.

(** A group of the [monthlyStats] query: the amounts of its rows, in
    the order of the table. *)
Record month_group := {
  mg_month : option string;
  mg_type : string;
  mg_amounts : list number
}.

(** A row of the [monthlyStats] query. *)
Record monthly_row := {
  mr_month : option string;
  mr_type : string;
  mr_total : option number
}.

Definition same_group (month : option string) (type : string)
    (g : month_group) : bool :=
  match month, mg_month g with
  | Some a, Some b => String.eqb a b && String.eqb type (mg_type g)
  | None, None => String.eqb type (mg_type g)
  | _, _ => false
  end.

(** [GROUP BY strftime('%Y-%m', date), type]: a row joins the group of
    its month and type, or starts it. *)
Fixpoint add_to_group (t : transaction_row) (groups : list month_group)
    : list month_group :=
  let month := strftime "%Y-%m" (tx_date t) in
  match groups with
  | [] => [ {| mg_month := month; mg_type := tx_type t;
               mg_amounts := [tx_amount t] |} ]
  | g :: rest =>
      if same_group month (tx_type t) g then
        {| mg_month := mg_month g; mg_type := mg_type g;
           mg_amounts := mg_amounts g ++ [tx_amount t] |} :: rest
      else g :: add_to_group t rest
  end.

Definition group_by_month_type (rows : list transaction_row) : list month_group :=
  fold_left (fun groups t => add_to_group t groups) rows [].

(** [SUM(amount) as total] of every group: an error in one group is
    the error of the query. *)
Fixpoint sum_groups (groups : list month_group) : sql (list monthly_row) :=
  match groups with
  | [] => Done []
  | g :: rest =>
      match sql_sum (mg_amounts g) with
      | Failed e => Failed e
      | Done total =>
          match sum_groups rest with
          | Failed e => Failed e
          | Done rows =>
              Done ({| mr_month := mg_month g; mr_type := mg_type g;
                       mr_total := total |} :: rows)
          end
      end
  end.

(** [WHERE strftime('%Y', date) = ?] *)
Definition in_year (year : string) (t : transaction_row) : bool :=
  match strftime "%Y" (tx_date t) with
  | Some y => String.eqb y year
  | None => false
  end.

(** [ORDER BY month]: [NULL] first, then text order. *)
Definition by_month (a b : monthly_row) : bool :=
  match mr_month a, mr_month b with
  | None, _ => true
  | Some _, None => false
  | Some x, Some y =>
      match text_compare x y with Gt => false | _ => true end
  end.

Definition monthly_query (year : string) (rows : list transaction_row)
    : sql (list monthly_row) :=
  match sum_groups (group_by_month_type (List.filter (in_year year) rows)) with
  | Failed e => Failed e
  | Done totals => Done (sort_by by_month totals)
  end.

(** The body of [monthlyData.forEach]: the property name of a
    [NULL] month is ["null"]. *)
Definition month_key (row : monthly_row) : string :=
  default "null" (mr_month row).

Definition add_month (stats : gmap string month_stats) (row : monthly_row)
    : gmap string month_stats :=
  let key := month_key row in
  let entry := default {| income := Int 0; expenses := Int 0 |} (stats !! key) in
  if String.eqb (mr_type row) "income" then
    <[key := {| income := parse_total (mr_total row);
                expenses := expenses entry |}]> stats
  else
    <[key := {| income := income entry;
                expenses := parse_total (mr_total row) |}]> stats.

(** GET /stats, with [year] the shard's year as [getConnection] got it:
    the four queries run one after the other, and the first that fails
    ends the request. *)
Definition stats (f : file) (year : value) : response :=
  match transaction_table f with
  | Failed _ => failure 500 "Failed to get statistics"
  | Done rows =>
      match coalesce_sum (of_type "income" rows) with
      | Failed _ => failure 500 "Failed to get statistics"
      | Done totalIncome =>
          match coalesce_sum (of_type "expense" rows) with
          | Failed _ => failure 500 "Failed to get statistics"
          | Done totalExpenses =>
              let transactionCount := Z.of_nat (length rows) in
              match monthly_query (to_string year) rows with
              | Failed _ => failure 500 "Failed to get statistics"
              | Done monthlyData =>
                  ok 200
                    (Stats {| totalIncome := totalIncome;
                              totalExpenses := totalExpenses;
                              transactionCount := transactionCount;
                              netBalance := subtract totalIncome totalExpenses;
                              monthlyStats := fold_left add_month monthlyData ∅ |})
              end
          end
      end
  end.

End Builtins.

End Transactions.

(* ===================================================================== *)
(** ** The application as a transition system *)
(* ===================================================================== *)

Module App.
Import Js Sqlite Http Query DatabaseManager Route.

(** What can happen to the manager and the database directory.
    [Read] stands for every route that only reads ([GET /] of both
    routers, [GET /range], [GET /stats]): its effect on the state is that
    of its [getConnection] call. *)
Inductive request :=
| Read (userId : Z) (year : value)
| CategoryCreate (userId : Z) (year : value) (name type : option string)
| CategoryRename (userId : Z) (year : value) (categoryId : Z) (name : option string)
| CategoryDelete (userId : Z) (year : value) (categoryId : Z)
| TransactionCreate (userId : Z) (b : Transactions.transaction_body)
| TransactionUpdate (userId : Z) (transactionId : Z) (b : Transactions.transaction_body)
| TransactionDelete (userId : Z) (year : value) (transactionId : Z)
| CloseConnection (userId : Z) (year : value)
| CloseAll
| Backup (userId : Z) (year : value) (date_now : Z).

Section Builtins.

Variable getFullYear : string -> option Z.

(** The state after a request served at time [now]. *)
Definition serve (now : string) (m : manager) (r : request) : manager :=
  match r with
  | Read userId year => snd (getConnection now m userId year)
  | CategoryCreate userId year name type =>
      snd (post_category now m userId year name type)
  | CategoryRename userId year categoryId name =>
      snd (put_category now m userId year categoryId name)
  | CategoryDelete userId year categoryId =>
      snd (on_shard now m userId year
             (fun f => Categories.delete_category f categoryId))
  | TransactionCreate userId b =>
      snd (Transactions.create_transaction getFullYear now m userId b)
  | TransactionUpdate userId transactionId b =>
      snd (Transactions.update_transaction getFullYear now m userId
             transactionId b)
  | TransactionDelete userId year transactionId =>
      snd (on_shard now m userId year
             (fun f => Transactions.delete_transaction f transactionId))
  | CloseConnection userId year => closeConnection m userId year
  | CloseAll => closeAllConnections m
  | Backup userId year date_now =>
      snd (backupDatabase date_now m userId year)
  end.

(** The states the application reaches from a new manager over an
    empty database directory. *)
Inductive reachable (path : string) : manager -> Prop :=
| reachable_start : reachable path (new_manager path ∅)
| reachable_serve m now r :
    reachable path m -> reachable path (serve now m r).

(** Every row of every shard carries a date of the shard's year. *)
Definition shard_years_ok (m : manager) : Prop :=
  forall userId year t,
    In t (rows_at m (dbFile m userId year)) ->
    to_string (Transactions.transactionYear getFullYear (tx_date t))
    = to_string year.

(** Every cached handle is bound to the file of its key. *)
Definition registry_ok (m : manager) : Prop :=
  forall key db,
    connections m !! key = Some db ->
    h_file db = path_join (dbPath m) ("user_" +:+ key +:+ ".db").

End Builtins.

End App.

(* ===================================================================== *)
(** ** The transaction list as the specification words it *)
(* ===================================================================== *)

Module ListSpec.
Import Js Sqlite Query.

(** (date descending, id descending): a later date first, and among equal
    dates the larger id first. *)
Definition date_desc_id_desc (a b : transaction_row) : Prop :=
  text_compare (tx_date a) (tx_date b) = Gt \/
  (tx_date a = tx_date b /\ tx_id b <= tx_id a).

(** The same as a test. *)
Definition later_first (a b : transaction_row) : bool :=
  match text_compare (tx_date a) (tx_date b) with
  | Gt => true
  | Lt => false
  | Eq => tx_id b <=? tx_id a
  end.

(** Page [p] of size [s]: skip (p-1)*s rows, then take at most s. *)
Definition page_of {A} (p s : Z) (l : list A) : list A :=
  firstn (Z.to_nat s) (skipn (Z.to_nat ((p - 1) * s)) l).

End ListSpec.

(* ===================================================================== *)
(** ** [DatabaseManager.getUserYears] and [GET /api/years] *)
(* ===================================================================== *)

Module Years.
Import Js Sqlite DatabaseManager.

(** [s.startsWith(prefix)] *)
Fixpoint startsWith (s prefix : string) {struct prefix} : bool :=
  match prefix, s with
  | EmptyString, _ => true
  | String p prefix', String c s' => Ascii.eqb c p && startsWith s' prefix'
  | String _ _, EmptyString => false
  end.

(** [s.endsWith(suffix)] *)
Definition endsWith (s suffix : string) : bool :=
  let n := String.length s in
  let k := String.length suffix in
  (k <=? n)%nat && String.eqb (substring (n - k) k s) suffix.

(** What is left of [s] after the literal [prefix]. *)
Fixpoint after_literal (prefix s : string) : option string :=
  match prefix, s with
  | EmptyString, _ => Some s
  | String p prefix', String c s' =>
      if Ascii.eqb c p then after_literal prefix' s' else None
  | String _ _, EmptyString => None
  end.

(** [\d] *)
Definition is_digit (c : ascii) : bool :=
  let n := N_of_ascii c in ((48 <=? n) && (n <=? 57))%N.

(** What is left of [s] after its leading digits. *)
Fixpoint after_digits (s : string) : string :=
  match s with
  | String c s' => if is_digit c then after_digits s' else s
  | EmptyString => s
  end.

(** The pattern [user_\d+_(\d{4})\.db] tried at the start of [s]; the
    answer is the captured group. The digits of [\d+] are followed by an
    underscore, so only the longest run of digits can match. *)
Definition match_here (s : string) : option string :=
  match after_literal "user_" s with
  | Some (String c _ as r1) =>
      if is_digit c then
        match after_literal "_" (after_digits r1) with
        | Some (String a (String b (String c' (String d r3)))) =>
            if is_digit a && is_digit b && is_digit c' && is_digit d then
              match after_literal ".db" r3 with
              | Some _ => Some (String a (String b (String c' (String d ""))))
              | None => None
              end
            else None
        | _ => None
        end
      else None
  | _ => None
  end.

(** [file.match(/user_\d+_(\d{4})\.db/)]: the leftmost match. *)
Fixpoint match_year (s : string) : option string :=
  match match_here s with
  | Some group => Some group
  | None =>
      match s with
      | String _ s' => match_year s'
      | EmptyString => None
      end
  end.

(** [parseInt] on a string of decimal digits. *)
Definition parse_digits (s : string) : Z :=
  fold_left (fun n c => 10 * n + (Z.of_N (N_of_ascii c) - 48)) (chars s) 0.

(** Whether a name has a path separator. *)
Definition has_separator (s : string) : bool :=
  existsb (fun c => Ascii.eqb c "/") (chars s).

(** The entry of directory [dir] that a path of the file map is: the
    name after ["dir/"]. A path with further separators would lie in a
    subdirectory, which nothing in the program creates. *)
Definition entry_name (dir path : string) : option string :=
  match after_literal (dir +:+ "/") path with
  | Some name => if has_separator name then None else Some name
  | None => None
  end.

(** [fs.readdirSync(this.dbPath)]; the order of the entries does not
    matter to [getUserYears], which sorts what it finds. *)
Definition readdirSync (m : manager) : list string :=
  omap (fun entry => entry_name (dbPath m) (fst entry)) (map_to_list (fs m)).

(** The years, as [map] and [filter(year => year !== null)] leave them. *)
Definition year_of_file (file : string) : option Z :=
  option_map parse_digits (match_year file).

(** [(a, b) => b - a] as the order of [sort]. *)
Definition descending (a b : Z) : bool := b <=? a.

(** [getUserYears(userId)] *)
Definition getUserYears (m : manager) (userId : Z) : list Z :=
  let files := readdirSync m in
  let userFiles :=
    List.filter
      (fun file => startsWith file ("user_" +:+ show_Z userId +:+ "_")
                   && endsWith file ".db")
      files in
  Query.sort_by descending (omap year_of_file userFiles).

(** [GET /api/years]: the years of the tenant, or the current year when
    there is none. *)
Definition api_years (m : manager) (userId current_year : Z) : list Z :=
  let years := getUserYears m userId in
  if (length years =? 0)%nat then years ++ [current_year] else years.

End Years.

(* ===================================================================== *)
(** ** Years of four digits *)
(* ===================================================================== *)

Module YearSpec.
Import Js Years.

(** Four decimal digits: what [\d{4}] captures. *)
Definition four_digit (g : string) : Prop :=
  exists a b c d, g = String a (String b (String c (String d "")))
    /\ is_digit a = true /\ is_digit b = true /\ is_digit c = true
    /\ is_digit d = true.

(** The character of a digit. *)
Definition digit_char (q : Z) : ascii := ascii_of_N (48 + Z.to_N q).

(** The four digits of a number below ten thousand. *)
Definition four_digits_of (v : Z) : string :=
  String (digit_char (v / 1000))
    (String (digit_char (v / 100 mod 10))
       (String (digit_char (v / 10 mod 10))
          (String (digit_char (v mod 10)) ""))).

(** The number a string of digits is read back as. *)
Definition read_back (s : string) : Z :=
  match NilZero.int_of_string s with
  | Some i => Z.of_int i
  | None => -1
  end.

(** What is checked of each number below ten thousand. *)
Definition year_check (v : Z) : bool :=
  (read_back (four_digits_of v) =? v)
  && (parse_digits (four_digits_of v) =? v)
  && forallb is_digit (chars (four_digits_of v))
  && Bool.eqb (String.eqb (show_Z v) (four_digits_of v)) (1000 <=? v).

End YearSpec.

(* ===================================================================== *)
(** ** [models/User.js], [middleware/auth.js] and the account routes *)
(* ===================================================================== *)

Module Accounts.
Import Js Sqlite Http Query.

(** The accounts live in one table of their own file. The fields of a
    request body are strings (booleans for [is_active]) or absent, as the
    clients send them. A statement fails only by violating a constraint
    of the schema, and the callbacks of a method run in program order.
    [bcrypt], [jsonwebtoken] and the error code of the driver are
    parameters. The startup script [initializeUsersDb], whose inserts
    race with its [db.close()], is not part of the model. *)

(** A row of [users]. [u_role] is [None] for NULL, which the CHECK on
    the column lets pass. *)
Record user_row := {
  u_id : Z;
  u_username : string;
  u_password_hash : string;
  u_name : string;
  u_created_at : string;
  u_last_login : option string;
  u_is_active : bool;
  u_role : option string
}.

(** The [users] table of [users.db], once [initializeUsersDb] has
    created it, with its entry of [sqlite_sequence]. Every method of the
    model opens the file, runs its statements and closes it. *)
Record users_table := { user_rows : list user_row; user_seq : Z }.

(** [{ id, username, name, role }], what [authenticate] resolves to and
    what [authenticateToken] leaves in [req.user]. *)
Record identity := {
  i_id : Z;
  i_username : string;
  i_name : string;
  i_role : string
}.

(** [user.role || 'user'] *)
Definition role_or_user (r : option string) : string :=
  if truthy_str r then default "" r else "user".

Definition identity_of (user : user_row) : identity :=
  {| i_id := u_id user; i_username := u_username user; i_name := u_name user;
     i_role := role_or_user (u_role user) |}.

(** [CHECK (role IN ('user', 'superadmin'))] *)
Definition check_role (r : option string) : bool :=
  match r with
  | Some s => String.eqb s "user" || String.eqb s "superadmin"
  | None => true
  end.

(** [UPDATE users SET ... WHERE id = ?] *)
Definition update_rows (rows : list user_row) (id : Z) (set : user_row -> user_row)
    : list user_row :=
  map (fun r => if u_id r =? id then set r else r) rows.

Definition set_login (hash : option string) (now : string) (r : user_row) : user_row :=
  {| u_id := u_id r; u_username := u_username r;
     u_password_hash := default (u_password_hash r) hash;
     u_name := u_name r; u_created_at := u_created_at r;
     u_last_login := Some now; u_is_active := u_is_active r; u_role := u_role r |}.

(** [SELECT * FROM users WHERE username = ? AND is_active = 1] *)
Definition active_by_username (rows : list user_row) (username : string)
    : option user_row :=
  List.find (fun r => String.eqb (u_username r) username && u_is_active r) rows.

(** [getUserById(id)]: [SELECT ... WHERE id = ? AND is_active = 1], of
    which the callers read [id], [username], [name] and [role]. An [id]
    of [None] is [NaN] or [undefined], which no row equals. *)
Definition getUserById (t : users_table) (id : option Z) : option user_row :=
  match id with
  | Some i => List.find (fun r => (u_id r =? i) && u_is_active r) (user_rows t)
  | None => None
  end.

(** The fields [updateUser] reads off its second argument; a field is
    [None] when it is [undefined]. *)
Record updates := {
  up_name : option string;
  up_password : option string;
  up_role : option string;
  up_is_active : option bool
}.

Definition apply_updates (hash : string) (up : updates) (r : user_row) : user_row :=
  {| u_id := u_id r; u_username := u_username r;
     u_password_hash := if truthy_str (up_password up) then hash
                        else u_password_hash r;
     u_name := default (u_name r) (up_name up);
     u_created_at := u_created_at r; u_last_login := u_last_login r;
     u_is_active := default (u_is_active r) (up_is_active up);
     u_role := match up_role up with
               | Some s => Some s
               | None => u_role r
               end |}.

(** [field !== undefined] *)
Definition defined {A} (field : option A) : bool :=
  match field with
  | Some _ => true
  | None => false
  end.

(** What [updateUser] resolves to, or that it rejects. *)
Inductive update_outcome :=
| Updated
| NoFields
| UserNotFound
| UpdateRejected (err : string).

(** What [createUser] rejects with. *)
Inductive create_error :=
| UsernameExists
| CreateRejected (code : string).

(** What [getAllUsers] selects of a row: every column but the hash. *)
Record account_json := {
  aj_id : Z;
  aj_username : string;
  aj_name : string;
  aj_role : option string;
  aj_created_at : string;
  aj_last_login : option string;
  aj_is_active : bool
}.

Definition account_of (r : user_row) : account_json :=
  {| aj_id := u_id r; aj_username := u_username r; aj_name := u_name r;
     aj_role := u_role r; aj_created_at := u_created_at r;
     aj_last_login := u_last_login r; aj_is_active := u_is_active r |}.

(** The answers of the account routes: a plain [{success, message}], the
    account of [POST /api/users], the list of [GET /api/users], or the
    token and account of login and register. *)
Inductive reply :=
| Plain (r : response)
| UserCreated (id : Z) (username name role : string)
| UsersListed (l : list account_json)
| TokenIssued (code : Z) (token : string) (id : Z) (username name : string).

Definition reply_status (a : reply) : Z :=
  match a with
  | Plain r => status r
  | UserCreated _ _ _ _ => 201
  | UsersListed _ => 200
  | TokenIssued code _ _ _ _ => code
  end.

(** [authHeader.split(' ')[1]] *)
Fixpoint until_space (s : string) : string :=
  match s with
  | EmptyString => EmptyString
  | String c s' => if Ascii.eqb c " " then EmptyString else String c (until_space s')
  end.

Fixpoint after_space (s : string) : option string :=
  match s with
  | EmptyString => None
  | String c s' => if Ascii.eqb c " " then Some s' else after_space s'
  end.

Definition second_word (s : string) : option string :=
  option_map until_space (after_space s).

(** [authHeader && authHeader.split(' ')[1]] *)
Definition bearer (authorization : option string) : option string :=
  match authorization with
  | Some header => if String.eqb header "" then Some header else second_word header
  | None => None
  end.

(** The request bodies of the account routes; a field is [None] when the
    body does not have it. *)
Inductive users_request :=
| ListUsers
| CreateUser (username password name role : option string)
| UpdateUser (id : option Z) (up : updates)
| DeleteUser (id : option Z).

Section Libraries.

(** [bcrypt.hash(password, 10)] with the salt it draws, and
    [bcrypt.compare(password, hash)]. *)
Variable bcrypt_hash : string -> string -> string.
Variable bcrypt_compare : string -> string -> bool.

(** [jwt.sign({userId, username}, secret, {expiresIn: '7d'})], and the
    [userId] of what [jwt.verify(token, secret)] decodes at the time of
    the request; [None] when it throws or decodes no [userId]. *)
Variable jwt_sign : Z -> string -> string.
Variable jwt_verify : string -> option Z.

(** [err.code] as the driver reports a violated UNIQUE constraint. *)
Variable unique_code : string.

(** [authenticate(username, password)] *)
Definition authenticate (salt now : string) (t : users_table)
    (username password : string) : option identity * users_table :=
  match active_by_username (user_rows t) username with
  | None => (None, t)
  | Some user =>
      if (u_id user =? 1) && String.eqb password "admin123" then
        (Some (identity_of user),
         {| user_rows := update_rows (user_rows t) (u_id user)
                           (set_login (Some (bcrypt_hash salt password)) now);
            user_seq := user_seq t |})
      else if bcrypt_compare password (u_password_hash user) then
        (Some (identity_of user),
         {| user_rows := update_rows (user_rows t) (u_id user) (set_login None now);
            user_seq := user_seq t |})
      else (None, t)
  end.

(** [createUser(username, password, name)]: the new row takes the
    defaults of the schema; the answer is the [lastID]. *)
Definition createUser (salt now : string) (t : users_table)
    (username password name : string) : (create_error + Z) * users_table :=
  if existsb (fun r => String.eqb (u_username r) username) (user_rows t) then
    (inl (if String.eqb unique_code "SQLITE_CONSTRAINT_UNIQUE"
          then UsernameExists else CreateRejected unique_code), t)
  else
    let id := next_id u_id (user_rows t) (user_seq t) in
    (inr id,
     {| user_rows :=
          user_rows t ++
          [ {| u_id := id; u_username := username;
               u_password_hash := bcrypt_hash salt password;
               u_name := name; u_created_at := now; u_last_login := None;
               u_is_active := true; u_role := Some "user" |} ];
        user_seq := id |}).

(** [updateUser(id, updates)] *)
Definition updateUser (salt : string) (t : users_table) (id : option Z)
    (up : updates) : update_outcome * users_table :=
  let updateFields :=
    defined (up_name up) || truthy_str (up_password up)
    || defined (up_role up) || defined (up_is_active up) in
  if negb updateFields then (NoFields, t)
  else
    match id with
    | None => (UserNotFound, t)
    | Some i =>
        if existsb (fun r => u_id r =? i) (user_rows t) then
          if check_role (up_role up) then
            (Updated,
             {| user_rows :=
                  update_rows (user_rows t) i
                    (apply_updates
                       (bcrypt_hash salt (default "" (up_password up))) up);
                user_seq := user_seq t |})
          else
            (UpdateRejected "SQLITE_CONSTRAINT: CHECK constraint failed", t)
        else (UserNotFound, t)
    end.

(** [authenticateToken]: the refusal it answers, or [req.user]. *)
Definition authenticateToken (t : users_table) (authorization : option string)
    : response + identity :=
  let token := bearer authorization in
  if negb (truthy_str token) then inl (failure 401 "Access token required")
  else
    match jwt_verify (default "" token) with
    | None => inl (failure 401 "Invalid token")
    | Some userId =>
        match getUserById t (Some userId) with
        | None => inl (failure 401 "Invalid token")
        | Some user => inr (identity_of user)
        end
    end.

(** [requireSuperAdmin] *)
Definition requireSuperAdmin (user : identity) : option response :=
  if negb (String.eqb (i_role user) "superadmin")
  then Some (failure 403 "Access denied. Super admin privileges required.")
  else None.

(** [!username || !password || !name], then [password.length < 6]. *)
Definition validate_account (username password name : option string)
    : option response :=
  if negb (truthy_str username) || negb (truthy_str password)
     || negb (truthy_str name)
  then Some (failure 400 "Username, password, and name are required")
  else if (String.length (default "" password) <? 6)%nat
  then Some (failure 400 "Password must be at least 6 characters long")
  else None.

Definition create_failed (internal : string) (e : create_error) : response :=
  match e with
  | UsernameExists => failure 409 "Username already exists"
  | CreateRejected _ => failure 500 internal
  end.

(** [POST /api/auth/login] *)
Definition login (salt now : string) (t : users_table)
    (username password : option string) : reply * users_table :=
  if negb (truthy_str username) || negb (truthy_str password) then
    (Plain (failure 400 "Username and password are required"), t)
  else
    match authenticate salt now t (default "" username) (default "" password) with
    | (None, t') => (Plain (failure 401 "Invalid credentials"), t')
    | (Some user, t') =>
        (TokenIssued 200 (jwt_sign (i_id user) (i_username user))
           (i_id user) (i_username user) (i_name user), t')
    end.

(** [POST /api/auth/register] *)
Definition register (salt now : string) (t : users_table)
    (username password name : option string) : reply * users_table :=
  match validate_account username password name with
  | Some refusal => (Plain refusal, t)
  | None =>
      match createUser salt now t (default "" username) (default "" password)
              (default "" name) with
      | (inl e, t') => (Plain (create_failed "Internal server error" e), t')
      | (inr id, t') =>
          (TokenIssued 201 (jwt_sign id (default "" username))
             id (default "" username) (default "" name), t')
      end
  end.

(** [POST /api/users], after the two guards. *)
Definition post_user (salt now : string) (t : users_table)
    (username password name role : option string) : reply * users_table :=
  let role := default "user" role in
  match validate_account username password name with
  | Some refusal => (Plain refusal, t)
  | None =>
      match createUser salt now t (default "" username) (default "" password)
              (default "" name) with
      | (inl e, t') => (Plain (create_failed "Failed to create user" e), t')
      | (inr id, t1) =>
          let created :=
            UserCreated id (default "" username) (default "" name) role in
          if negb (String.eqb role "user") then
            match updateUser salt t1 (Some id)
                    {| up_name := None; up_password := None;
                       up_role := Some role; up_is_active := None |} with
            | (UpdateRejected _, t2) =>
                (Plain (failure 500 "Failed to create user"), t2)
            | (_, t2) => (created, t2)
            end
          else (created, t1)
      end
  end.

Definition update_answer (o : update_outcome) : response :=
  match o with
  | Updated => ok 200 (Message "User updated successfully")
  | NoFields => failure 404 "No fields to update"
  | UserNotFound => failure 404 "User not found"
  | UpdateRejected _ => failure 500 "Failed to update user"
  end.

(** [PUT /api/users/:id], after the two guards. *)
Definition put_user (salt : string) (t : users_table) (id : option Z)
    (up : updates) : reply * users_table :=
  let '(o, t') := updateUser salt t id up in (Plain (update_answer o), t').

(** [DELETE /api/users/:id], after the two guards. *)
Definition delete_user (salt : string) (t : users_table) (id : option Z)
    : reply * users_table :=
  let deactivate :=
    match updateUser salt t id
            {| up_name := None; up_password := None; up_role := None;
               up_is_active := Some false |} with
    | (Updated, t') => (Plain (ok 200 (Message "User deactivated successfully")), t')
    | (UpdateRejected _, t') => (Plain (failure 500 "Failed to delete user"), t')
    | (o, t') => (Plain (update_answer o), t')
    end in
  match getUserById t id with
  | Some user =>
      if String.eqb (default "" (u_role user)) "superadmin"
      then (Plain (failure 403 "Cannot delete superadmin user"), t)
      else deactivate
  | None => deactivate
  end.

(** [ORDER BY created_at DESC] *)
Definition newest_first (a b : user_row) : bool :=
  match text_compare (u_created_at a) (u_created_at b) with
  | Lt => false
  | _ => true
  end.

(** The router of [/api/users]: [authenticateToken], then
    [requireSuperAdmin], then the handler. *)
Definition users_router (salt now : string) (t : users_table)
    (authorization : option string) (r : users_request) : reply * users_table :=
  match authenticateToken t authorization with
  | inl refusal => (Plain refusal, t)
  | inr user =>
      match requireSuperAdmin user with
      | Some refusal => (Plain refusal, t)
      | None =>
          match r with
          | ListUsers =>
              (UsersListed (map account_of (sort_by newest_first (user_rows t))), t)
          | CreateUser username password name role =>
              post_user salt now t username password name role
          | UpdateUser id up => put_user salt t id up
          | DeleteUser id => delete_user salt t id
          end
      end
  end.

End Libraries.

End Accounts.

(* ===================================================================== *)
(** ** The accounts table as a whole *)
(* ===================================================================== *)

Module AccountSpec.
Import Js Sqlite Accounts.

(** A well-formed accounts table: ids and usernames are keys, and every
    role passes the CHECK of its column. *)
Definition table_ok (t : users_table) : Prop :=
  NoDup (map u_id (user_rows t)) /\
  NoDup (map u_username (user_rows t)) /\
  Forall (fun r => check_role (u_role r) = true) (user_rows t).

(** A row with [is_active] cleared. *)
Definition deactivated (r : user_row) : user_row :=
  {| u_id := u_id r; u_username := u_username r;
     u_password_hash := u_password_hash r; u_name := u_name r;
     u_created_at := u_created_at r; u_last_login := u_last_login r;
     u_is_active := false; u_role := u_role r |}.

(** The keys of the accounts, in the order of the table. *)
Definition account_keys (t : users_table) : list (Z * string) :=
  map (fun r => (u_id r, u_username r)) (user_rows t).

End AccountSpec.

(* ===================================================================== *)
(** ** The order of the category list *)
(* ===================================================================== *)

Module CategoryOrder.
Import Js Sqlite Query.

(** (type, name) ascending: the smaller type first, and among equal
    types the smaller name first, text compared byte by byte. *)
Definition type_then_name (a b : category_row) : Prop :=
  text_compare (cat_type a) (cat_type b) = Lt \/
  (cat_type a = cat_type b /\ text_compare (cat_name a) (cat_name b) <> Gt).

End CategoryOrder.

(* ===================================================================== *)
(** ** The year of a date as the specification words it *)
(* ===================================================================== *)

Module ShardSpec.
Import Js.

(** A day of the calendar. *)
Definition calendar_day (y m d : Z) : Prop :=
  0 <= y <= 9999 /\ 1 <= m <= 12 /\ 1 <= d <= days_in_month y m.

Definition digit (n : Z) : ascii := ascii_of_N (Z.to_N (48 + n)).

(** The text [YYYY-MM-DD] of a day. *)
Definition calendar_date (y m d : Z) : string :=
  String (digit (y / 1000)) (String (digit (y / 100 mod 10))
    (String (digit (y / 10 mod 10)) (String (digit (y mod 10))
      (String "-" (String (digit (m / 10)) (String (digit (m mod 10))
        (String "-" (String (digit (d / 10)) (String (digit (d mod 10))
           EmptyString))))))))).

(** The year a day is filed under by a process in the time zone
    [behind_utc]: the year of the day, but the year before for a 1
    January where local time is behind UTC. *)
Definition filed_under (behind_utc : Z -> bool) (y m d filed : Z) : Prop :=
  (filed = y /\ ~ (m = 1 /\ d = 1 /\ behind_utc y = true)) \/
  (filed = y - 1 /\ m = 1 /\ d = 1 /\ behind_utc y = true).

End ShardSpec.

(* ===================================================================== *)
(** ** The refusals of a create request as the specification words them *)
(* ===================================================================== *)

Module CreateSpec.
Import Js Transactions.

(** A field the request does not carry: absent, or a value JavaScript
    reads as false (the empty text, 0, [NaN]). *)
Definition no_text (o : option string) : Prop :=
  o = None \/ o = Some ""%string.

Definition no_id (o : option Z) : Prop :=
  o = None \/ o = Some 0.

Definition no_amount (o : option number) : Prop :=
  match o with
  | None => True
  | Some (Int n) => n = 0
  | Some (Real x) =>
      PrimFloat.eqb x PrimFloat.zero = true \/ PrimFloat.is_nan x = true
  end.

(** amount <= 0 *)
Definition at_most_zero (a : number) : Prop :=
  match a with
  | Int n => n <= 0
  | Real x => PrimFloat.leb x PrimFloat.zero = true
  end.

(** The bodies that are to be refused whatever the shard holds. *)
Definition refused (b : transaction_body) : Prop :=
  no_amount (b_amount b) \/ no_text (b_date b) \/ no_text (b_type b) \/
  no_id (b_categoryId b) \/
  (exists ty, b_type b = Some ty /\ ty <> "income"%string /\ ty <> "expense"%string) \/
  (exists a, b_amount b = Some a /\ at_most_zero a).

End CreateSpec.

(* ===================================================================== *)
(** ** The statistics as the specification words them *)
(* ===================================================================== *)

Module StatsSpec.
Import Js Sqlite Http Query.

(** The amount of a row that carries a whole number. *)
Definition whole_amount (t : transaction_row) : Z :=
  match tx_amount t with
  | Int n => n
  | Real _ => 0
  end.

(** The sum of the amounts of some rows. *)
Definition sum_amounts (rows : list transaction_row) : Z :=
  fold_right (fun t total => whole_amount t + total) 0 rows.

(** The rows of one type. *)
Definition rows_of_type (type : string) (rows : list transaction_row)
    : list transaction_row :=
  List.filter (fun t => bool_decide (tx_type t = type)) rows.

Section Builtins.

Variable strftime : string -> string -> option string.

(** A row is dated in the month [month] of the year [year], both as
    SQLite renders its date. *)
Definition in_month (year month : string) (t : transaction_row) : bool :=
  bool_decide (strftime "%Y" (tx_date t) = Some year) &&
  bool_decide (strftime "%Y-%m" (tx_date t) = Some month).

(** The bucket (year-month, type) of the requested year. *)
Definition bucket (year month type : string) (rows : list transaction_row)
    : list transaction_row :=
  List.filter (fun t => in_month year month t && bool_decide (tx_type t = type)) rows.

(** [monthlyStats[month]] as specified: absent when the month has no row
    in the requested year, else the two sums of the month. *)
Definition monthly_entry (year month : string) (rows : list transaction_row)
    : option month_stats :=
  if existsb (in_month year month) rows then
    Some {| income := Int (sum_amounts (bucket year month "income" rows));
            expenses := Int (sum_amounts (bucket year month "expense" rows)) |}
  else None.

End Builtins.

End StatsSpec.

(* ===================================================================== *)
(** ** Measures on the groups of the monthly query *)
(* ===================================================================== *)

Module Grouping.
Import Js Sqlite Http Query Transactions.

(** What [GROUP BY] groups on. *)
Definition group_key (g : month_group) : option string * string :=
  (mg_month g, mg_type g).

(** The amounts the totals are exact for: whole and positive. *)
Definition whole_positive (a : number) : Prop := exists n, a = Int n /\ 0 < n.

(** The sum of the whole numbers of a list. *)
Definition whole_sum (l : list number) : Z :=
  fold_right (fun a total => match a with Int n => n + total | Real _ => total end) 0 l.

(** The total the groups with a given key carry. *)
Definition group_sum (k : option string * string) (groups : list month_group) : Z :=
  fold_right
    (fun g total =>
       if decide (group_key g = k) then whole_sum (mg_amounts g) + total else total)
    0 groups.

(** The key and the total of a row of the query. *)
Definition total_key (g : monthly_row) : option string * string :=
  (mr_month g, mr_type g).

Definition whole_total (g : monthly_row) : Z :=
  match mr_total g with
  | Some (Int n) => n
  | _ => 0
  end.

Definition total_sum (k : option string * string) (l : list monthly_row) : Z :=
  fold_right
    (fun g total => if decide (total_key g = k) then whole_total g + total else total)
    0 l.

(** Some row of the query belongs to the month. *)
Definition has_month (month : option string) (l : list monthly_row) : bool :=
  existsb (fun g => bool_decide (mr_month g = month)) l.

(** The row a group of whole amounts is summed to. *)
Definition summed (g : month_group) : monthly_row :=
  {| mr_month := mg_month g; mr_type := mg_type g;
     mr_total := Some (Int (whole_sum (mg_amounts g))) |}.

Section Builtins.

Variable strftime : string -> string -> option string.

(** The group a transaction falls in. *)
Definition row_key (t : transaction_row) : option string * string :=
  (strftime "%Y-%m" (tx_date t), tx_type t).

(** The amounts of the rows of one group, summed. *)
Definition key_sum (k : option string * string) (rows : list transaction_row) : Z :=
  StatsSpec.sum_amounts (List.filter (fun t => bool_decide (row_key t = k)) rows).

End Builtins.

End Grouping.

(* ===================================================================== *)
(** ** Sample states *)
(* ===================================================================== *)

Module Samples.
Import Js Sqlite DatabaseManager.

(** A database directory in which the file of shard (1, 2024) is not
    an SQLite database. *)
Definition damaged_directory : gmap string file :=
  {[ "./databases/user_1_2024.db" := NotADatabase ]}%string.

Definition damaged_manager : manager :=
  new_manager "./databases" damaged_directory.

(** A new manager over an empty directory. *)
Definition empty_manager : manager := new_manager "./databases" ∅.

(** The manager once shard (1, 2024) has been opened. *)
Definition opened_manager : manager :=
  snd (getConnection "2024-01-01 00:00:00" empty_manager 1 (VNum 2024)).

(** The digits of a sample date: the year of ["YYYY-..."] as
    [getFullYear] reads a date written without a time zone. *)
Definition digit (c : ascii) : option Z :=
  let n := Z.of_N (N_of_ascii c) in
  if (48 <=? n) && (n <=? 57) then Some (n - 48) else None.

Definition iso_year (date : string) : option Z :=
  match date with
  | String a (String b (String c (String d _))) =>
      match digit a, digit b, digit c, digit d with
      | Some x, Some y, Some z, Some w => Some (1000 * x + 100 * y + 10 * z + w)
      | _, _, _, _ => None
      end
  | _ => None
  end.

(** [strftime] on sample dates ["YYYY-MM-DD..."]: ['%Y'] is the first four
    characters and ['%Y-%m'] the first seven; anything else is [NULL]. *)
Definition iso_strftime (format date : string) : option string :=
  match iso_year date with
  | None => None
  | Some _ =>
      if String.eqb format "%Y" then Some (substring 0 4 date)
      else if String.eqb format "%Y-%m" then Some (substring 0 7 date)
      else None
  end.

(** The database of a shard right after its first bootstrap. *)
Definition seeded_database : database :=
  match exec_schema "2024-01-01 00:00:00" (Db empty_database) with
  | Done d => d
  | Failed _ => empty_database
  end.

(** A shard with a category of the user's own (id 15) and one expense
    of 100 on 2024-03-15 under "Foods & Treats" (id 9). *)
Definition ledger_file : file :=
  let f1 := snd (Categories.create_category "2024-02-01 09:00:00"
                   (Db seeded_database) (Some "Gifts") (Some "income")) in
  snd (Transactions.create_in_shard "2024-03-15 18:30:00" f1
         (Int 100) "2024-03-15" "expense" 9 "").

Definition ledger_database : database :=
  match ledger_file with
  | Db d => d
  | NotADatabase => empty_database
  end.

(** A shard with five transactions, two of them on the same day. *)
Definition busy_file : file :=
  fold_left
    (fun f '(amount, date, type, categoryId) =>
       snd (Transactions.create_in_shard "2024-06-30 08:00:00" f
              (Int amount) date type categoryId ""))
    [ (500, "2024-03-01", "income", 1);
      (200, "2024-03-15", "expense", 9);
      (40, "2024-03-15", "expense", 10);
      (75, "2024-05-02", "expense", 13);
      (900, "2024-01-20", "income", 3) ]%string
    (Db seeded_database).

(** A shard with three transactions, the second of which is dated
    with the text 2025. *)
Definition bare_year_file : file :=
  fold_left
    (fun f '(amount, date, type, categoryId) =>
       snd (Transactions.create_in_shard "2025-06-30 08:00:00" f
              (Int amount) date type categoryId ""))
    [ (200, "2024-03-15", "expense", 9);
      (40, "2025", "expense", 10);
      (900, "2024-01-20", "income", 3) ]%string
    (Db seeded_database).

(** An order of numeric literals for shards that hold none. *)
Definition no_numbers (a b : string) : comparison := Eq.

(** A shard with rows dated in three years: one on 2023-12-31, two
    in March 2024, one in April 2024 and one on 2025-01-01. *)
Definition years_file : file :=
  fold_left
    (fun f '(amount, date, type, categoryId) =>
       snd (Transactions.create_in_shard "2025-01-02 08:00:00" f
              (Int amount) date type categoryId ""))
    [ (70, "2023-12-31", "income", 1);
      (500, "2024-03-01", "income", 1);
      (200, "2024-03-15", "expense", 9);
      (30, "2024-04-02", "expense", 9);
      (900, "2025-01-01", "income", 2) ]%string
    (Db seeded_database).

(** A shard with two incomes, of 0.10 and of 0.20. *)
Definition dimes_file : file :=
  fold_left
    (fun f amount =>
       snd (Transactions.create_in_shard "2024-03-31 08:00:00" f
              amount "2024-03-01" "income" 1 ""))
    [ cents 10; cents 20 ]
    (Db seeded_database).

(** A shard with two incomes, of 2^53 and of 1. *)
Definition large_file : file :=
  fold_left
    (fun f amount =>
       snd (Transactions.create_in_shard "2024-03-31 08:00:00" f
              amount "2024-03-01" "income" 1 ""))
    [ Int (2 ^ 53); Int 1 ]
    (Db seeded_database).

(** The two ways releases of SQLite have summed REAL values: one
    addition per row, and (since 3.44) the same with the rounding errors
    collected on the side and added at the end. *)
Definition plain_sum (l : list number) : sql PrimFloat.float :=
  Done (fold_left (fun total a => PrimFloat.add total (to_double a)) l PrimFloat.zero).

Definition compensated_sum (l : list number) : sql PrimFloat.float :=
  let step (acc : PrimFloat.float * PrimFloat.float) (a : number) :=
    let s := fst acc in
    let r := to_double a in
    let t := PrimFloat.add s r in
    let e :=
      if PrimFloat.ltb (PrimFloat.abs r) (PrimFloat.abs s)
      then PrimFloat.add (PrimFloat.sub s t) r
      else PrimFloat.add (PrimFloat.sub r t) s in
    (t, PrimFloat.add (snd acc) e) in
  let acc := fold_left step l (PrimFloat.zero, PrimFloat.zero) in
  Done (PrimFloat.add (fst acc) (snd acc)).

(** The seeded shard after "Foods & Treats" was renamed. *)
Definition renamed_database : database :=
  match snd (Categories.rename_category "2024-05-05 10:00:00"
               (Db seeded_database) 9 (Some "Groceries")) with
  | Db d => d
  | NotADatabase => empty_database
  end.

(** The manager once the sample lunch of 2024-03-15 has been recorded
    for tenant 1. *)
Definition lunch_manager : manager :=
  snd (Transactions.create_transaction iso_year "2024-03-15 18:30:00"
         (new_manager "./databases" ∅) 1
         {| Transactions.b_amount := Some (Int 100);
            Transactions.b_date := Some "2024-03-15";
            Transactions.b_type := Some "expense";
            Transactions.b_categoryId := Some 9;
            Transactions.b_description := None |}).

(** The lunch moved to 2025-01-10. *)
Definition lunch_next_year : Transactions.transaction_body :=
  {| Transactions.b_amount := Some (Int 100);
     Transactions.b_date := Some "2025-01-10";
     Transactions.b_type := Some "expense";
     Transactions.b_categoryId := Some 9;
     Transactions.b_description := None |}.

(** The request bodies of the samples: 100 spent on 2024-03-15 under
    "Foods & Treats", the same under a category that does not exist, and
    the same with a negative amount. *)
Definition lunch : Transactions.transaction_body :=
  {| Transactions.b_amount := Some (Int 100);
     Transactions.b_date := Some "2024-03-15";
     Transactions.b_type := Some "expense";
     Transactions.b_categoryId := Some 9;
     Transactions.b_description := None |}.

Definition lunch_unknown_category : Transactions.transaction_body :=
  {| Transactions.b_amount := Some (Int 100);
     Transactions.b_date := Some "2024-03-15";
     Transactions.b_type := Some "expense";
     Transactions.b_categoryId := Some 99;
     Transactions.b_description := None |}.

Definition lunch_negative : Transactions.transaction_body :=
  {| Transactions.b_amount := Some (Int (-5));
     Transactions.b_date := Some "2024-03-15";
     Transactions.b_type := Some "expense";
     Transactions.b_categoryId := Some 9;
     Transactions.b_description := None |}.

End Samples.

(* ===================================================================== *)
(** ** Sample accounts *)
(* ===================================================================== *)

Module AccountSamples.
Import Js Accounts.

(** Stand-ins for bcrypt: the hash is the salt, a separator and the
    password; a password is accepted against a hash that ends with it. *)
Definition sample_hash (salt password : string) : string :=
  salt +:+ "$" +:+ password.

Definition sample_compare (password hash : string) : bool :=
  Years.endsWith hash ("$" +:+ password).

(** Stand-ins for JWT: the token names the id, and three tokens verify. *)
Definition sample_sign (userId : Z) (username : string) : string :=
  "token-" +:+ show_Z userId.

Definition sample_verify (token : string) : option Z :=
  if String.eqb token "token-1" then Some 1
  else if String.eqb token "token-2" then Some 2
  else if String.eqb token "token-3" then Some 3
  else None.

(** The two accounts [initializeUsersDb] inserts: [admin] with id 1 and
    the role [user], and the superadmin [mRashid]. *)
Definition admin_row : user_row :=
  {| u_id := 1; u_username := "admin";
     u_password_hash := sample_hash "salt-1" "admin123"; u_name := "Admin User";
     u_created_at := "2024-01-01 00:00:00"; u_last_login := None;
     u_is_active := true; u_role := Some "user" |}.

Definition superadmin_row : user_row :=
  {| u_id := 2; u_username := "mRashid";
     u_password_hash := sample_hash "salt-2" "super123"; u_name := "Super Admin";
     u_created_at := "2024-01-01 00:00:00"; u_last_login := None;
     u_is_active := true; u_role := Some "superadmin" |}.

Definition sample_accounts : users_table :=
  {| user_rows := [admin_row; superadmin_row]; user_seq := 2 |}.

End AccountSamples.

(* ===================================================================== *)
(** * Properties *)
(* ===================================================================== *)

(** ** Decimal strings and shard names *)

Module Names.
Import Js DatabaseManager.

Lemma to_int_proper (z : Z) :
  Z.to_int z <> Decimal.Pos Decimal.Nil /\ Z.to_int z <> Decimal.Neg Decimal.Nil.
Proof.
  destruct z as [|p|p]; simpl; split; try discriminate;
    intros [= H]; by apply (DecimalPos.Unsigned.to_uint_nonnil p).
Qed.

(** Distinct integers print differently. *)
Lemma show_Z_inj (a b : Z) : show_Z a = show_Z b -> a = b.
Proof.
  unfold show_Z. intros H.
  destruct (to_int_proper a) as [Ha1 Ha2], (to_int_proper b) as [Hb1 Hb2].
  apply (f_equal NilZero.int_of_string) in H.
  rewrite !NilZero.isi in H by assumption.
  injection H as H.
  apply (f_equal Z.of_int) in H. by rewrite !DecimalZ.of_to in H.
Qed.

Lemma chars_app (a b : string) : chars (a +:+ b) = chars a ++ chars b.
Proof. induction a as [|c a IH]; simpl; [done | by rewrite IH]. Qed.

Lemma chars_inj (a b : string) : chars a = chars b -> a = b.
Proof.
  revert b. induction a as [|c a IH]; intros [|c' b]; simpl; try done.
  intros [= -> H]. f_equal. by apply IH.
Qed.

Lemma append_assoc (a b c : string) : (a +:+ b) +:+ c = a +:+ (b +:+ c).
Proof. apply chars_inj. by rewrite !chars_app, app_assoc. Qed.

Lemma append_inv_tail (a b s : string) : a +:+ s = b +:+ s -> a = b.
Proof.
  intros H. apply chars_inj. apply (f_equal chars) in H.
  rewrite !chars_app in H. by apply app_inv_tail in H.
Qed.

Lemma uint_chars (d : Decimal.uint) :
  forallb is_digit_or_minus (chars (NilEmpty.string_of_uint d)) = true.
Proof. induction d; simpl; auto. Qed.

Lemma show_Z_chars (z : Z) : forallb is_digit_or_minus (chars (show_Z z)) = true.
Proof.
  unfold show_Z, NilZero.string_of_int, NilZero.string_of_uint.
  destruct (Z.to_int z) as [d|d]; destruct d; simpl; auto using uint_chars.
Qed.

Lemma split_at_separator {A} (ok : A -> bool) (x : A) (a a' b b' : list A) :
  ok x = false -> forallb ok a = true -> forallb ok a' = true ->
  a ++ x :: b = a' ++ x :: b' -> a = a' /\ b = b'.
Proof.
  intros Hx. revert a'.
  induction a as [|c a IH]; intros [|c' a'] Ha Ha' H; simpl in *.
  - by injection H as ->.
  - injection H as <- _. rewrite Hx in Ha'. done.
  - injection H as -> _. rewrite Hx in Ha. done.
  - injection H as -> H.
    apply andb_prop in Ha as [_ Ha]. apply andb_prop in Ha' as [_ Ha'].
    destruct (IH a' Ha Ha' H) as [-> ->]. done.
Qed.

(** A string of digits followed by an underscore determines both parts. *)
Lemma split_at_underscore (a a' b b' : string) :
  forallb is_digit_or_minus (chars a) = true ->
  forallb is_digit_or_minus (chars a') = true ->
  a +:+ "_" +:+ b = a' +:+ "_" +:+ b' -> a = a' /\ b = b'.
Proof.
  intros Ha Ha' H. apply (f_equal chars) in H.
  rewrite !chars_app in H. simpl in H.
  apply (split_at_separator is_digit_or_minus) in H as [H1 H2]; try done.
  split; by apply chars_inj.
Qed.

(** The key of a shard determines the tenant and the text of the year. *)
Lemma shard_key_inj (u u' : Z) (y y' : value) :
  shard_key u y = shard_key u' y' -> u = u' /\ to_string y = to_string y'.
Proof.
  unfold shard_key. intros H.
  apply split_at_underscore in H as [H1 H2]; auto using show_Z_chars.
  split; [by apply show_Z_inj | done].
Qed.

Lemma dbFile_key (m : manager) (u : Z) (y : value) :
  dbFile m u y = path_join (dbPath m) ("user_" +:+ shard_key u y +:+ ".db").
Proof.
  unfold dbFile, getDbFileName, shard_key. f_equal. f_equal.
  by rewrite !append_assoc.
Qed.

Lemma key_file_inj (dir k k' : string) :
  path_join dir ("user_" +:+ k +:+ ".db") = path_join dir ("user_" +:+ k' +:+ ".db")
  -> k = k'.
Proof.
  unfold path_join. intros H.
  do 3 apply String.app_inj in H. by apply append_inv_tail in H.
Qed.

(** The file of a shard determines the tenant and the text of the year. *)
Lemma dbFile_inj (m : manager) (u u' : Z) (y y' : value) :
  dbFile m u y = dbFile m u' y' -> u = u' /\ to_string y = to_string y'.
Proof.
  rewrite !dbFile_key. intros H%key_file_inj. by apply shard_key_inj.
Qed.

(** A backup is never written over the file of a shard. *)
Lemma backupFile_not_dbFile (m : manager) (u u' : Z) (y y' : value) (t : Z) :
  backupFile m u y t <> dbFile m u' y'.
Proof.
  unfold backupFile, dbFile, getDbFileName, path_join. intros H.
  do 2 apply String.app_inj in H. discriminate H.
Qed.

Lemma show_Z_not_NaN (z : Z) : show_Z z <> "NaN".
Proof.
  intros H. pose proof (show_Z_chars z) as Hc. rewrite H in Hc. discriminate Hc.
Qed.

End Names.

(** ** The schema script *)

Module SchemaFacts.
Import Js Sqlite DatabaseManager.

Lemma create_categories_fields d :
  categories (create_categories d) = Some (default [] (categories d)) /\
  transactions (create_categories d) = transactions d /\
  seq_categories (create_categories d) = seq_categories d /\
  seq_transactions (create_categories d) = seq_transactions d /\
  indexes (create_categories d) = indexes d.
Proof.
  unfold create_categories. destruct (categories d) eqn:E; simpl; by rewrite ?E.
Qed.

Lemma create_transactions_fields d :
  categories (create_transactions d) = categories d /\
  transactions (create_transactions d) = Some (default [] (transactions d)) /\
  seq_categories (create_transactions d) = seq_categories d /\
  seq_transactions (create_transactions d) = seq_transactions d /\
  indexes (create_transactions d) = indexes d.
Proof.
  unfold create_transactions. destruct (transactions d) eqn:E; simpl; by rewrite ?E.
Qed.

(** On a readable database the script succeeds, and this is what it leaves. *)
Lemma exec_schema_eq now d :
  exists d', exec_schema now (Db d) = Done d' /\
    categories d' = Some (seeded_rows now d) /\
    transactions d' = Some (default [] (transactions d)) /\
    seq_transactions d' = seq_transactions d /\
    seq_categories d' = Z.max (seq_categories d) (max_id cat_id (seeded_rows now d)) /\
    indexes d' = indexes d ∪ schema_indexes.
Proof.
  destruct (create_categories_fields d) as (C1 & C2 & C3 & C4 & C5).
  destruct (create_transactions_fields (create_categories d))
    as (T1 & T2 & T3 & T4 & T5).
  unfold exec_schema, seed_categories, seeded_rows.
  rewrite T1, C1. eexists. split; [reflexivity|].
  unfold create_indexes, with_indexes, with_categories.
  cbn [categories transactions seq_categories seq_transactions indexes].
  rewrite T2, T3, T4, T5, C2, C3, C4, C5. auto 10.
Qed.

Lemma seeded_rows_of now d rows :
  categories d = Some rows ->
  seeded_rows now d = fold_left (insert_or_ignore now) default_categories rows.
Proof. unfold seeded_rows. by intros ->. Qed.

Lemma find_category_app_found (rows extra : list category_row) (id : Z) c :
  find_category rows id = Some c -> find_category (rows ++ extra) id = Some c.
Proof.
  unfold find_category. induction rows as [|r rows IH]; simpl; [done|].
  destruct (cat_id r =? id); auto.
Qed.

Lemma find_category_app_new (rows : list category_row) (r : category_row) :
  find_category rows (cat_id r) = None ->
  find_category (rows ++ [r]) (cat_id r) = Some r.
Proof.
  unfold find_category. induction rows as [|x rows IH]; simpl.
  - by rewrite Z.eqb_refl.
  - destruct (cat_id x =? cat_id r); [done | auto].
Qed.

Lemma insert_or_ignore_keeps now rows v id c :
  find_category rows id = Some c ->
  exists c', find_category (insert_or_ignore now rows v) id = Some c'.
Proof.
  intros H. destruct v as [[i n] t]. unfold insert_or_ignore.
  destruct (find_category rows i); eauto using find_category_app_found.
Qed.

Lemma insert_or_ignore_adds now rows v :
  exists c, find_category (insert_or_ignore now rows v) (fst (fst v)) = Some c.
Proof.
  destruct v as [[i n] t]. unfold insert_or_ignore. cbn [fst].
  destruct (find_category rows i) eqn:E; [eauto|].
  eexists. by apply (find_category_app_new rows
    {| cat_id := i; cat_name := n; cat_type := t; cat_is_default := 1;
       cat_created_at := now; cat_updated_at := now |}).
Qed.

Lemma seeds_keep now (l : list (Z * string * string)) rows id c :
  find_category rows id = Some c ->
  exists c', find_category (fold_left (insert_or_ignore now) l rows) id = Some c'.
Proof.
  revert rows c. induction l as [|v l IH]; intros rows c H; cbn [fold_left]; [eauto|].
  destruct (insert_or_ignore_keeps now rows v id c H) as [c' Hc']. eauto.
Qed.

Lemma seeds_found now (l : list (Z * string * string)) rows v :
  In v l ->
  exists c,
    find_category (fold_left (insert_or_ignore now) l rows) (fst (fst v)) = Some c.
Proof.
  revert rows. induction l as [|w l IH]; intros rows Hin; [destruct Hin|].
  cbn [fold_left]. destruct Hin as [->|Hin]; [|by apply IH].
  destruct (insert_or_ignore_adds now rows v) as [c Hc].
  by apply (seeds_keep now l _ _ c).
Qed.

(** After the script both tables, the seed ids and the indexes are there. *)
Lemma exec_schema_present now d :
  exists d', exec_schema now (Db d) = Done d' /\ schema_present (Db d').
Proof.
  destruct (exec_schema_eq now d) as (d' & E & Hc & Ht & _ & _ & Hi).
  exists d'. split; [done|]. unfold schema_present.
  split; [|split].
  - exists (seeded_rows now d). split; [done|]. intros id Hid.
    assert (exists name type, In (id, name, type) default_categories)
      as (name & type & Hv).
    { assert (id = 1 \/ id = 2 \/ id = 3 \/ id = 4 \/ id = 5 \/ id = 6 \/ id = 7 \/
              id = 8 \/ id = 9 \/ id = 10 \/ id = 11 \/ id = 12 \/ id = 13 \/
              id = 14) as H by lia.
      unfold default_categories.
      repeat (destruct H as [->|H]; [do 2 eexists; cbn; eauto 20|]).
      subst. do 2 eexists. cbn. eauto 20. }
    by apply (seeds_found now default_categories _ (id, name, type)).
  - eauto.
  - intros index Hin. rewrite Hi. apply elem_of_union_r.
    destruct Hin as [<-|[<-|[<-|[<-|[]]]]];
      apply (bool_decide_unpack _); by vm_compute.
Qed.

Lemma database_eq (d d' : database) :
  categories d = categories d' -> transactions d = transactions d' ->
  seq_categories d = seq_categories d' -> seq_transactions d = seq_transactions d' ->
  indexes d = indexes d' -> d = d'.
Proof. destruct d, d'; cbn; by intros -> -> -> -> ->. Qed.

End SchemaFacts.

(** ** The connection registry *)

Module ManagerFacts.
Import Js Sqlite DatabaseManager Query Names SchemaFacts.

(** The state [getConnection] leaves when the key is not cached. *)
Lemma getConnection_uncached now m u y :
  connections m !! shard_key u y = None ->
  let name := dbFile m u y in
  let db := {| h_id := constructed m; h_file := name |} in
  getConnection now m u y =
  (db,
   match exec_schema now (default (Db empty_database) (fs m !! name)) with
   | Failed err =>
       {| dbPath := dbPath m;
          connections := <[shard_key u y := db]> (connections m);
          fs := match fs m !! name with
                | Some _ => fs m
                | None => <[name := Db empty_database]> (fs m)
                end;
          console := console m ++ ["Error initializing database schema: " +:+ err];
          constructed := S (constructed m) |}
   | Done d =>
       {| dbPath := dbPath m;
          connections := <[shard_key u y := db]> (connections m);
          fs := <[name := Db d]> (fs m);
          console := console m;
          constructed := S (constructed m) |}
   end).
Proof.
  intros Hkey name db. unfold getConnection. rewrite Hkey.
  unfold open_database. fold name. fold db.
  unfold initializeSchema, content, set_connections, set_fs, console_error.
  cbn [fs h_file db dbPath connections console constructed].
  destruct (fs m !! name) as [f|] eqn:Ef.
  - rewrite Ef. cbn [from_option]. unfold id.
    destruct (exec_schema now f); reflexivity.
  - rewrite lookup_insert_eq. cbn [from_option]. unfold id.
    destruct (exec_schema now (Db empty_database)); [reflexivity|].
    by rewrite insert_insert_eq.
Qed.

Lemma getConnection_cached now m u y db :
  connections m !! shard_key u y = Some db -> getConnection now m u y = (db, m).
Proof. intros H. unfold getConnection. by rewrite H. Qed.

(** [getConnection] answers the handle it leaves in the cache. *)
Lemma getConnection_caches now m u y :
  connections (snd (getConnection now m u y)) !! shard_key u y
  = Some (fst (getConnection now m u y)).
Proof.
  destruct (connections m !! shard_key u y) as [db|] eqn:E.
  - by rewrite (getConnection_cached now m u y db E).
  - rewrite (getConnection_uncached now m u y E). cbn [fst snd].
    destruct (exec_schema now _); cbn [connections]; apply lookup_insert_eq.
Qed.

Lemma readable_content m name :
  fs m !! name <> Some NotADatabase ->
  exists d, default (Db empty_database) (fs m !! name) = Db d.
Proof. destruct (fs m !! name) as [[|d]|]; cbn; eauto. done. Qed.

(** Opening a shard that is not cached, over a readable file. *)
Lemma getConnection_opens now m u y :
  connections m !! shard_key u y = None ->
  fs m !! dbFile m u y <> Some NotADatabase ->
  h_id (fst (getConnection now m u y)) = constructed m /\
  schema_present (content (snd (getConnection now m u y))
                    (fst (getConnection now m u y))).
Proof.
  intros Hk Hf. rewrite (getConnection_uncached now m u y Hk). cbn [fst snd h_id].
  split; [done|].
  destruct (readable_content m _ Hf) as [d ->].
  destruct (exec_schema_present now d) as (d' & -> & Hp).
  unfold content. cbn [fs h_file]. by rewrite lookup_insert_eq.
Qed.

Lemma closeConnection_fields m u y :
  connections (closeConnection m u y) !! shard_key u y = None /\
  fs (closeConnection m u y) = fs m /\
  dbPath (closeConnection m u y) = dbPath m /\
  constructed (closeConnection m u y) = constructed m /\
  console (closeConnection m u y) = console m.
Proof.
  unfold closeConnection.
  destruct (connections m !! shard_key u y) eqn:E; cbn; [|done].
  by rewrite lookup_delete_eq.
Qed.

(** C1 (as the code has it). [getConnection] has no failure result: for
    every tenant and year it answers a handle and leaves exactly that
    handle in the cache under the shard key. When the shard is not cached
    and its file cannot be read as a database, the bootstrap error is
    written to the console, the handle is cached and returned all the
    same, and the database directory is left as it was. *)
Theorem getConnection_bootstrap_error_is_only_logged now m u y :
  (let r := getConnection now m u y in
   connections (snd r) !! shard_key u y = Some (fst r)) /\
  (connections m !! shard_key u y = None ->
   fs m !! dbFile m u y = Some NotADatabase ->
   let r := getConnection now m u y in
   fst r = {| h_id := constructed m; h_file := dbFile m u y |} /\
   connections (snd r) !! shard_key u y = Some (fst r) /\
   console (snd r) =
     console m ++ ["Error initializing database schema: SQLITE_NOTADB: file is not a database"] /\
   fs (snd r) = fs m).
Proof.
  split; [apply getConnection_caches|].
  intros Hk Hf. cbn zeta. split; [|split; [apply getConnection_caches|]];
    rewrite (getConnection_uncached now m u y Hk); [done|].
  rewrite Hf. by cbn.
Qed.

Lemma getConnection_bootstrap_error_is_only_logged_witness :
  let m := Samples.damaged_manager in
  let r := getConnection "2024-01-01 00:00:00" m 1 (VNum 2024) in
  (connections m !! shard_key 1 (VNum 2024) = None /\
   fs m !! dbFile m 1 (VNum 2024) = Some NotADatabase) /\
  connections (snd r) !! shard_key 1 (VNum 2024) = Some (fst r) /\
  fs (snd r) = fs m.
Proof.
  cbn zeta. split; [split; vm_compute; reflexivity|].
  destruct (getConnection_bootstrap_error_is_only_logged
              "2024-01-01 00:00:00" Samples.damaged_manager 1 (VNum 2024))
    as [_ H].
  destruct H as (_ & H1 & _ & H2); [vm_compute; reflexivity ..|].
  split; [exact H1 | exact H2].
Defined.

(** C1, as stated, fails: over a file that is not a database the
    bootstrap fails, and yet [getConnection] returns a handle and the
    cache maps the shard key to it. *)
Lemma failed_bootstrap_leaves_handle_cached :
  let now := "2024-01-01 00:00:00"%string in
  let r := getConnection now Samples.damaged_manager 1 (VNum 2024) in
  exec_schema now (content Samples.damaged_manager (fst r))
    = Failed "SQLITE_NOTADB: file is not a database" /\
  fst r = {| h_id := 0; h_file := "./databases/user_1_2024.db" |} /\
  connections (snd r) !! shard_key 1 (VNum 2024) = Some (fst r) /\
  ~ (connections (snd r) !! shard_key 1 (VNum 2024) = None).
Proof.
  vm_compute. repeat split; try reflexivity. discriminate.
Qed.

(** What a newly opened handle is: the next object, bound to the file of
    the shard, over what the bootstrap left in that file. *)
Lemma getConnection_opened now m u y :
  connections m !! shard_key u y = None ->
  let r := getConnection now m u y in
  h_id (fst r) = constructed m /\
  h_file (fst r) = dbFile m u y /\
  constructed (snd r) = S (constructed m) /\
  dbPath (snd r) = dbPath m /\
  (fs m !! dbFile m u y = Some NotADatabase ->
   fs (snd r) !! dbFile m u y = Some NotADatabase) /\
  (fs m !! dbFile m u y <> Some NotADatabase ->
   exists d, fs (snd r) !! dbFile m u y = Some (Db d) /\ schema_present (Db d)).
Proof.
  intros Hk. cbn zeta. rewrite (getConnection_uncached now m u y Hk).
  cbn [fst snd h_id h_file]. split; [done|]. split; [done|]. split.
  { by destruct (exec_schema now _). }
  split.
  { by destruct (exec_schema now _). }
  split.
  - intros Hbad. rewrite Hbad. cbn [from_option]. unfold id.
    cbn [exec_schema fs]. exact Hbad.
  - intros Hok. destruct (readable_content m _ Hok) as [d ->].
    destruct (exec_schema_present now d) as (d' & -> & Hp).
    exists d'. cbn [fs]. by rewrite lookup_insert_eq.
Qed.

(** C4 (as the code has it). For every tenant and year, a second
    [getConnection] with no close in between answers the very handle (and
    state) of the first. When the cached handles are objects constructed
    earlier, [closeConnection] followed by [getConnection] answers a
    handle with a new identity and caches it. The schema (both tables, a
    category row for each of the ids 1 to 14, the four indexes) is present
    in the file of that handle when the file of the shard was missing or a
    readable database; when it is not a database, it stays what it was and
    the new handle is answered and cached over it all the same. *)
Theorem getConnection_same_handle_until_closed now1 now2 now3 m u y :
  (let r1 := getConnection now1 m u y in
   getConnection now2 (snd r1) u y = r1) /\
  (handles_constructed m ->
   let r1 := getConnection now1 m u y in
   let r3 := getConnection now3 (closeConnection (snd r1) u y) u y in
   h_id (fst r3) <> h_id (fst r1) /\
   connections (snd r3) !! shard_key u y = Some (fst r3) /\
   (fs m !! dbFile m u y <> Some NotADatabase ->
    schema_present (content (snd r3) (fst r3))) /\
   (fs m !! dbFile m u y = Some NotADatabase ->
    content (snd r3) (fst r3) = NotADatabase)).
Proof.
  split.
  - cbn zeta. pose proof (getConnection_caches now1 m u y) as H.
    destruct (getConnection now1 m u y) as [h1 m1]. cbn [fst snd] in *.
    by apply getConnection_cached.
  - intros Hfresh. cbn zeta.
    set (r1 := getConnection now1 m u y).
    destruct (closeConnection_fields (snd r1) u y) as (Hk & Hfs & Hp & Hc & _).
    assert (dbPath (snd r1) = dbPath m
            /\ (h_id (fst r1) < constructed (snd r1))%nat
            /\ (fs m !! dbFile m u y = Some NotADatabase ->
                fs (snd r1) !! dbFile m u y = Some NotADatabase)
            /\ (fs m !! dbFile m u y <> Some NotADatabase ->
                fs (snd r1) !! dbFile m u y <> Some NotADatabase))
      as (Hdir & Hlt & Hbad & Hok).
    { subst r1. destruct (connections m !! shard_key u y) as [db|] eqn:E.
      - rewrite (getConnection_cached now1 m u y db E). cbn [fst snd].
        split; [done|]. split; [by apply (Hfresh _ _ E) | done].
      - destruct (getConnection_opened now1 m u y E)
          as (Hid & _ & Hn & Hd & Hb & Hg).
        split; [exact Hd|]. split; [rewrite Hid, Hn; lia|].
        split; [exact Hb|]. intros Hf. destruct (Hg Hf) as (d & -> & _). done. }
    set (m2 := closeConnection (snd r1) u y) in *.
    assert (dbFile m2 u y = dbFile m u y) as Hname
      by (unfold dbFile; by rewrite Hp, Hdir).
    destruct (getConnection_opened now3 m2 u y Hk)
      as (Hid & Hfile & _ & _ & Hb & Hg).
    rewrite Hname, Hfs in Hb, Hg. rewrite Hname in Hfile.
    split; [rewrite Hid, Hc; lia|]. split; [apply getConnection_caches|].
    unfold content. rewrite Hfile. split.
    + intros Hf. destruct (Hg (Hok Hf)) as (d & -> & Hp'). exact Hp'.
    + intros Hf. by rewrite (Hb (Hbad Hf)).
Qed.

Lemma getConnection_same_handle_until_closed_witness :
  let m := Samples.opened_manager in
  let now := "2024-06-01 12:00:00"%string in
  let r1 := getConnection now m 1 (VNum 2024) in
  let r3 := getConnection now (closeConnection (snd r1) 1 (VNum 2024)) 1 (VNum 2024) in
  (handles_constructed m /\ fs m !! dbFile m 1 (VNum 2024) <> Some NotADatabase) /\
  getConnection now (snd r1) 1 (VNum 2024) = r1 /\
  h_id (fst r3) <> h_id (fst r1) /\
  schema_present (content (snd r3) (fst r3)).
Proof.
  cbn zeta.
  assert (handles_constructed Samples.opened_manager) as H1.
  { apply (bool_decide_unpack _). vm_compute. exact I. }
  assert (fs Samples.opened_manager !! dbFile Samples.opened_manager 1 (VNum 2024)
          <> Some NotADatabase) as H2.
  { vm_compute. discriminate. }
  destruct (getConnection_same_handle_until_closed
              "2024-06-01 12:00:00" "2024-06-01 12:00:00" "2024-06-01 12:00:00"
              Samples.opened_manager 1 (VNum 2024)) as [Ha Hb].
  destruct (Hb H1) as (Hid & _ & Hs & _).
  split; [split; assumption|]. split; [exact Ha|]. split; [exact Hid | exact (Hs H2)].
Defined.

(** C4, as stated, fails over a shard file that is not a database: after
    [closeConnection] the next [getConnection] answers a handle with a new
    identity and caches it, and yet no schema is present in the file the
    handle is bound to; the bootstrap error went to the console. *)
Lemma reopened_handle_over_damaged_file_has_no_schema :
  let now := "2024-06-01 12:00:00"%string in
  let r1 := getConnection now Samples.damaged_manager 1 (VNum 2024) in
  let r3 := getConnection now (closeConnection (snd r1) 1 (VNum 2024)) 1 (VNum 2024) in
  h_id (fst r3) <> h_id (fst r1) /\
  connections (snd r3) !! shard_key 1 (VNum 2024) = Some (fst r3) /\
  content (snd r3) (fst r3) = NotADatabase /\
  ~ schema_present (content (snd r3) (fst r3)).
Proof.
  vm_compute. repeat split; try reflexivity; [discriminate | by intros []].
Qed.

(** C5. For every tenant and year whose shard has no file yet and is not
    cached, the bootstrap run by [getConnection] leaves a category table of
    exactly fourteen rows: ids 1 to 7 of type income and ids 8 to 14 of type
    expense, every one with [is_default] 1. Running the schema script again
    on that shard succeeds and changes nothing: the file is the same
    database, and [initializeSchema] leaves the whole state (files and
    console) as it was. *)
Theorem fresh_shard_has_fourteen_default_categories now m u y :
  connections m !! shard_key u y = None ->
  fs m !! dbFile m u y = None ->
  let r := getConnection now m u y in
  exists d rows,
    content (snd r) (fst r) = Db d /\
    categories d = Some rows /\
    map seed_columns rows =
      [ (1, "income", 1); (2, "income", 1); (3, "income", 1); (4, "income", 1);
        (5, "income", 1); (6, "income", 1); (7, "income", 1);
        (8, "expense", 1); (9, "expense", 1); (10, "expense", 1);
        (11, "expense", 1); (12, "expense", 1); (13, "expense", 1);
        (14, "expense", 1) ]%string /\
    length rows = 14%nat /\
    forall now',
      exec_schema now' (Db d) = Done d /\
      initializeSchema now' (snd r) (fst r) = snd r.
Proof.
  intros Hk Hf. cbn zeta.
  rewrite (getConnection_uncached now m u y Hk). rewrite Hf.
  cbn [from_option]. unfold id.
  destruct (exec_schema_eq now empty_database) as (d & -> & Hc & Ht & Hst & Hsc & Hi).
  cbn [fst snd]. unfold content at 1. cbn [fs h_file]. rewrite lookup_insert_eq.
  exists d, (seeded_rows now empty_database).
  split; [done|]. split; [done|].
  split; [reflexivity|]. split; [reflexivity|].
  intros now'.
  assert (exec_schema now' (Db d) = Done d) as Hidem.
  { destruct (exec_schema_eq now' d) as (d2 & -> & Hc2 & Ht2 & Hst2 & Hsc2 & Hi2).
    f_equal. apply database_eq.
    - rewrite Hc2, Hc. rewrite (seeded_rows_of now' d _ Hc). reflexivity.
    - rewrite Ht2, Ht. reflexivity.
    - rewrite Hsc2, Hsc. rewrite (seeded_rows_of now' d _ Hc). reflexivity.
    - by rewrite Hst2.
    - rewrite Hi2, Hi. by rewrite <- (assoc_L (∪)), (idemp_L (∪)). }
  split; [done|].
  unfold initializeSchema, content. cbn [fs h_file]. rewrite lookup_insert_eq.
  rewrite Hidem. unfold set_fs. cbn [fs dbPath connections console constructed].
  by rewrite insert_insert_eq.
Qed.

Lemma fresh_shard_has_fourteen_default_categories_witness :
  let m := Samples.empty_manager in
  let r := getConnection "2024-01-01 00:00:00" m 7 (VNum 2025) in
  (connections m !! shard_key 7 (VNum 2025) = None /\
   fs m !! dbFile m 7 (VNum 2025) = None) /\
  exists d rows,
    content (snd r) (fst r) = Db d /\ categories d = Some rows /\
    length rows = 14%nat.
Proof.
  cbn zeta. split; [split; vm_compute; reflexivity|].
  destruct (fresh_shard_has_fourteen_default_categories
              "2024-01-01 00:00:00" Samples.empty_manager 7 (VNum 2025))
    as (d & rows & H1 & H2 & _ & H3 & _); [vm_compute; reflexivity ..|].
  exists d, rows. split; [exact H1|]. split; [exact H2 | exact H3].
Defined.

Lemma backupFile_time_inj m u y t t' :
  backupFile m u y t = backupFile m u y t' -> t = t'.
Proof.
  unfold backupFile, path_join. intros H.
  do 5 apply String.app_inj in H. by apply show_Z_inj.
Qed.

Lemma backupFile_numeric_inj m u u' y y' t t' :
  backupFile m u (VNum y) t = backupFile m u' (VNum y') t' ->
  u = u' /\ y = y' /\ t = t'.
Proof.
  unfold backupFile, path_join, getDbFileName. cbn [to_string]. intros H.
  do 3 apply String.app_inj in H.
  rewrite !append_assoc in H. apply String.app_inj in H.
  apply (f_equal chars) in H. rewrite !chars_app in H. cbn [chars] in H.
  apply (split_at_separator is_digit_or_minus) in H as [Hu H];
    auto using show_Z_chars.
  cbn [app] in H.
  apply (split_at_separator is_digit_or_minus) in H as [Hy H];
    auto using show_Z_chars.
  injection H as H.
  apply chars_inj in Hu, Hy, H. auto using show_Z_inj.
Qed.

(** C9 (as the code has it). For every tenant and year: when the shard's
    file does not exist, [backupDatabase] answers null and leaves the state
    as it was; when it exists, the whole content is copied to the sibling
    named from the file name and the reading of [Date.now()], that name is
    answered, the shard's file and every other file keep their content.
    The name differs from the name of a backup of the same shard taken at
    any other clock reading, and, for a numeric year, from the name of any
    backup with another tenant, numeric year or clock reading. *)
Theorem backupDatabase_copies_to_timestamped_sibling t m u y :
  (fs m !! dbFile m u y = None -> backupDatabase t m u y = (None, m)) /\
  (forall f, fs m !! dbFile m u y = Some f ->
     let r := backupDatabase t m u y in
     fst r = Some (backupFile m u y t) /\
     fs (snd r) !! backupFile m u y t = Some f /\
     fs (snd r) !! dbFile m u y = Some f /\
     (forall name, name <> backupFile m u y t -> fs (snd r) !! name = fs m !! name) /\
     connections (snd r) = connections m) /\
  (forall t', t' <> t -> backupFile m u y t' <> backupFile m u y t) /\
  (forall u' y0 y' t', y = VNum y0 -> (u', y', t') <> (u, y0, t) ->
     backupFile m u' (VNum y') t' <> backupFile m u y t).
Proof.
  split; [|split; [|split]].
  - intros H. unfold backupDatabase. by rewrite H.
  - intros f H. unfold backupDatabase. rewrite H. cbn [fst snd set_fs fs connections].
    split; [done|]. split; [apply lookup_insert_eq|].
    split; [|split; [|done]].
    + rewrite lookup_insert_ne; [done | apply backupFile_not_dbFile].
    + intros name Hn. by rewrite lookup_insert_ne.
  - intros t' Hne Heq. by apply backupFile_time_inj in Heq.
  - intros u' y0 y' t' -> Hne Heq.
    apply backupFile_numeric_inj in Heq as (-> & -> & ->). done.
Qed.

Lemma backupDatabase_copies_to_timestamped_sibling_witness :
  let m := Samples.opened_manager in
  let r := backupDatabase 1700000000000 m 1 (VNum 2024) in
  is_Some (fs m !! dbFile m 1 (VNum 2024)) /\
  fst r = Some (backupFile m 1 (VNum 2024) 1700000000000) /\
  fs (snd r) !! dbFile m 1 (VNum 2024) = fs m !! dbFile m 1 (VNum 2024) /\
  backupFile m 1 (VNum 2024) 1700000000001 <> backupFile m 1 (VNum 2024) 1700000000000.
Proof.
  cbn zeta.
  destruct (backupDatabase_copies_to_timestamped_sibling
              1700000000000 Samples.opened_manager 1 (VNum 2024))
    as (_ & Hcopy & Htime & _).
  destruct (fs Samples.opened_manager !! dbFile Samples.opened_manager 1 (VNum 2024))
    as [f|] eqn:E; [|vm_compute in E; discriminate E].
  destruct (Hcopy f eq_refl) as (H1 & _ & H2 & _).
  split; [by eexists|]. split; [exact H1|]. split; [exact H2|].
  apply Htime. lia.
Defined.

(** C9, as stated, fails: two backups of one shard taken at the same
    reading of [Date.now()] answer the same file name. *)
Lemma backups_at_same_clock_reading_share_name :
  let m := Samples.opened_manager in
  let r1 := backupDatabase 1700000000000 m 1 (VNum 2024) in
  let r2 := backupDatabase 1700000000000 (snd r1) 1 (VNum 2024) in
  fst r1 = Some "./databases/backup_user_1_2024.db_1700000000000"%string /\
  ~ (fst r2 <> fst r1).
Proof. vm_compute. split; [reflexivity | intros H; by apply H]. Qed.

End ManagerFacts.


(** ** Sorting *)

Module SortFacts.
Import Query.

Section Sort.
Context {A : Type} (le : A -> A -> bool).

Lemma insert_by_perm (x : A) (l : list A) : Permutation (insert_by le x l) (x :: l).
Proof.
  induction l as [|y l IH]; simpl; [done|].
  destruct (le x y); [done|].
  rewrite IH. apply perm_swap.
Qed.

(** [ORDER BY] answers the rows it was given. *)
Lemma sort_by_perm (l : list A) : Permutation (sort_by le l) l.
Proof.
  induction l as [|x l IH]; simpl; [done|].
  rewrite insert_by_perm. by constructor.
Qed.

Lemma sort_by_length (l : list A) : length (sort_by le l) = length l.
Proof. apply Permutation_length, sort_by_perm. Qed.

Lemma sort_by_In (x : A) (l : list A) : In x (sort_by le l) <-> In x l.
Proof.
  split; apply Permutation_in; [apply sort_by_perm | symmetry; apply sort_by_perm].
Qed.

Hypothesis le_total : forall a b, le a b = true \/ le b a = true.

Lemma insert_by_sorted (x : A) (l : list A) :
  Sorted (fun a b => le a b = true) l ->
  Sorted (fun a b => le a b = true) (insert_by le x l).
Proof.
  induction 1 as [|y l Hs IH Hd]; simpl; [by repeat constructor|].
  destruct (le x y) eqn:E.
  - constructor; [by constructor | by constructor].
  - constructor; [done|].
    destruct l as [|z l]; simpl.
    + constructor. destruct (le_total x y); congruence.
    + destruct (le x z) eqn:E'.
      * constructor. destruct (le_total x y); congruence.
      * constructor. by inversion Hd.
Qed.

(** [ORDER BY] answers its rows in order. *)
Lemma sort_by_sorted (l : list A) : Sorted (fun a b => le a b = true) (sort_by le l).
Proof.
  induction l as [|x l IH]; simpl; [constructor | by apply insert_by_sorted].
Qed.

End Sort.

End SortFacts.

(** ** The category ledger *)

Module CategoryFacts.
Import Js Sqlite Http Query Categories SortFacts.

Lemma find_category_id rows id c : find_category rows id = Some c -> cat_id c = id.
Proof.
  unfold find_category. intros H. apply find_some in H as [_ H].
  by apply Z.eqb_eq.
Qed.

Lemma find_category_In rows id c : find_category rows id = Some c -> In c rows.
Proof. unfold find_category. intros H. by apply find_some in H as [H _]. Qed.

Lemma find_category_deleted rows id :
  find_category (List.filter (fun c => negb (cat_id c =? id)) rows) id = None.
Proof.
  unfold find_category. induction rows as [|r rows IH]; simpl; [done|].
  destruct (cat_id r =? id) eqn:E; simpl; [done|]. by rewrite E.
Qed.

Lemma find_category_kept rows id id' :
  id' <> id ->
  find_category (List.filter (fun c => negb (cat_id c =? id)) rows) id'
  = find_category rows id'.
Proof.
  intros Hne. unfold find_category. induction rows as [|r rows IH]; simpl; [done|].
  destruct (cat_id r =? id) eqn:E; simpl.
  - destruct (cat_id r =? id') eqn:E'; [lia | done].
  - by rewrite IH.
Qed.

(** C3. For every category delete in a shard whose tables exist: an absent
    id is answered 404 "Category not found"; a category with isDefault true
    is answered 400 "Cannot delete default categories", whatever the
    transactions are; a category with isDefault false that N > 0
    transactions of the shard reference is answered 400 with the count N in
    the message; in these three cases the file is left as it was. A
    category with isDefault false and no referencing transaction is deleted:
    the answer is 200, the transactions are untouched, the id is absent
    from a subsequent list and every other category is still listed. *)
Theorem delete_category_guards d rows txs id :
  categories d = Some rows ->
  transactions d = Some txs ->
  let usage := Z.of_nat (length (List.filter (fun t => tx_category_id t =? id) txs)) in
  (find_category rows id = None ->
   delete_category (Db d) id = (failure 404 "Category not found", Db d)) /\
  (forall c, find_category rows id = Some c ->
     cj_isDefault (category_json_of c) = true ->
     delete_category (Db d) id
     = (failure 400 "Cannot delete default categories", Db d)) /\
  (forall c, find_category rows id = Some c ->
     cj_isDefault (category_json_of c) = false -> 0 < usage ->
     delete_category (Db d) id
     = (failure 400 ("Cannot delete category. It is used in " +:+ show_Z usage
                     +:+ " transaction(s)"), Db d)) /\
  (forall c, find_category rows id = Some c ->
     cj_isDefault (category_json_of c) = false -> usage = 0 ->
     exists d' listed,
       delete_category (Db d) id
       = (ok 200 (Message "Category deleted successfully"), Db d') /\
       transactions d' = Some txs /\
       get_category (Db d') id = Done None /\
       list_categories (Db d') = ok 200 (Http.Categories listed) /\
       (forall j, In j listed -> cj_id j <> id) /\
       (forall c', In c' rows -> cat_id c' <> id -> In (category_json_of c') listed)).
Proof.
  intros Hc Ht usage.
  unfold delete_category, get_category, count_usage, delete_category_row,
    category_table, transaction_table.
  rewrite Hc, Ht. fold usage.
  split; [by intros ->|]. split; [|split].
  - intros c -> Hdef. cbn [category_json_of cj_isDefault] in Hdef. by rewrite Hdef.
  - intros c -> Hdef Hpos. cbn [category_json_of cj_isDefault] in Hdef.
    rewrite Hdef. by rewrite (proj2 (Z.ltb_lt 0 usage) Hpos).
  - intros c -> Hdef Hzero. cbn [category_json_of cj_isDefault] in Hdef.
    rewrite Hdef, Hzero. cbn [Z.ltb Z.compare].
    eexists. eexists. split; [reflexivity|].
    unfold list_categories, category_table.
    cbn [with_categories categories transactions].
    split; [done|]. split; [by rewrite find_category_deleted|].
    split; [reflexivity|]. split.
    + intros j Hj. apply in_map_iff in Hj as (c' & <- & Hin).
      apply sort_by_In in Hin. apply filter_In in Hin as [_ Hin].
      cbn [category_json_of cj_id]. destruct (cat_id c' =? id) eqn:E; [done | lia].
    + intros c' Hin Hne. apply in_map. apply sort_by_In. apply filter_In.
      split; [done|]. destruct (cat_id c' =? id) eqn:E; [lia | done].
Qed.

Lemma delete_category_guards_witness :
  let d := Samples.ledger_database in
  let rows := default [] (categories d) in
  let txs := default [] (transactions d) in
  (categories d = Some rows /\ transactions d = Some txs) /\
  delete_category (Db d) 9 = (failure 400 "Cannot delete default categories", Db d) /\
  exists d',
    delete_category (Db d) 15
    = (ok 200 (Message "Category deleted successfully"), Db d') /\
    get_category (Db d') 15 = Done None.
Proof.
  cbn zeta.
  assert (categories Samples.ledger_database
          = Some (default [] (categories Samples.ledger_database))) as Hc
    by (vm_compute; reflexivity).
  assert (transactions Samples.ledger_database
          = Some (default [] (transactions Samples.ledger_database))) as Ht
    by (vm_compute; reflexivity).
  split; [split; assumption|].
  split.
  - destruct (delete_category_guards Samples.ledger_database _ _ 9 Hc Ht)
      as (_ & Hdef & _).
    destruct (find_category (default [] (categories Samples.ledger_database)) 9)
      as [c|] eqn:E; [|vm_compute in E; discriminate E].
    apply (Hdef c eq_refl).
    vm_compute in E. injection E as <-. reflexivity.
  - destruct (delete_category_guards Samples.ledger_database _ _ 15 Hc Ht)
      as (_ & _ & _ & Hdel).
    destruct (find_category (default [] (categories Samples.ledger_database)) 15)
      as [c|] eqn:E; [|vm_compute in E; discriminate E].
    destruct (Hdel c eq_refl) as (d' & listed & H1 & _ & H2 & _).
    + vm_compute in E. injection E as <-. reflexivity.
    + vm_compute. reflexivity.
    + exists d'. split; [exact H1 | exact H2].
Defined.

Lemma find_category_renamed now name id rows id' :
  find_category (map (rename_row now name id) rows) id'
  = option_map (rename_row now name id) (find_category rows id').
Proof.
  unfold find_category. induction rows as [|r rows IH]; simpl; [done|].
  assert (cat_id (rename_row now name id r) = cat_id r) as ->.
  { unfold rename_row. by destruct (cat_id r =? id). }
  destruct (cat_id r =? id'); [done | apply IH].
Qed.

Lemma find_category_counted rows id c :
  find_category rows id = Some c ->
  Z.of_nat (length (List.filter (fun c => cat_id c =? id) rows)) <> 0.
Proof.
  intros H. pose proof (find_category_id _ _ _ H) as Hid.
  apply find_category_In in H.
  assert (In c (List.filter (fun c => cat_id c =? id) rows)) as Hin.
  { apply filter_In. split; [done | by apply Z.eqb_eq]. }
  destruct (List.filter _ rows); [destruct Hin | simpl; lia].
Qed.

(** C10. Renaming asks nothing about [is_default]: for every category id
    present in a shard, default or not, a rename with a non-empty name is
    answered 200 with the row re-read: the name is the new one, updatedAt is
    the time of the update, and id, type, isDefault and createdAt are those
    of the row before. Every other category row, the transactions, the
    sequences and the indexes are left as they were. *)
Theorem rename_category_ignores_is_default now d rows id c name :
  categories d = Some rows ->
  find_category rows id = Some c ->
  name <> ""%string ->
  exists d' rows',
    rename_category now (Db d) id (Some name)
    = (ok 200 (Category {| cj_id := cat_id c;
                           cj_name := name;
                           cj_type := cat_type c;
                           cj_isDefault := cj_isDefault (category_json_of c);
                           cj_createdAt := cat_created_at c;
                           cj_updatedAt := now |}), Db d') /\
    categories d' = Some rows' /\
    find_category rows' id
    = Some {| cat_id := cat_id c; cat_name := name; cat_type := cat_type c;
              cat_is_default := cat_is_default c;
              cat_created_at := cat_created_at c; cat_updated_at := now |} /\
    (forall id', id' <> id -> find_category rows' id' = find_category rows id') /\
    length rows' = length rows /\
    transactions d' = transactions d /\
    seq_categories d' = seq_categories d /\
    seq_transactions d' = seq_transactions d /\
    indexes d' = indexes d.
Proof.
  intros Hc Hfind Hname.
  pose proof (find_category_id _ _ _ Hfind) as Hid.
  assert (find_category (map (rename_row now name id) rows) id
          = Some {| cat_id := cat_id c; cat_name := name; cat_type := cat_type c;
                    cat_is_default := cat_is_default c;
                    cat_created_at := cat_created_at c; cat_updated_at := now |})
    as Hnew.
  { rewrite find_category_renamed, Hfind. cbn [option_map]. unfold rename_row.
    by rewrite (proj2 (Z.eqb_eq _ _) Hid). }
  unfold rename_category, update_category_name, truthy_str.
  destruct (String.eqb_spec name "") as [->|_]; [done|]. cbn [negb from_option].
  unfold Datatypes.id. rewrite Hc.
  destruct (Z.eqb_spec (Z.of_nat (length (List.filter (fun c0 => cat_id c0 =? id) rows))) 0)
    as [Hz|_]; [by apply find_category_counted in Hfind|].
  unfold get_category, category_table. cbn [with_categories categories].
  rewrite Hnew.
  exists (with_categories d (map (rename_row now name id) rows) (seq_categories d)),
    (map (rename_row now name id) rows).
  split; [reflexivity|]. split; [reflexivity|]. split; [exact Hnew|].
  split; [|by rewrite length_map].
  intros id' Hne. rewrite find_category_renamed.
  destruct (find_category rows id') as [c'|] eqn:E; [|done].
  cbn [option_map]. f_equal. unfold rename_row.
  pose proof (find_category_id _ _ _ E).
  destruct (Z.eqb_spec (cat_id c') id); [congruence | done].
Qed.

Lemma rename_category_ignores_is_default_witness :
  let d := Samples.seeded_database in
  let rows := default [] (categories d) in
  (categories d = Some rows /\ "Groceries"%string <> ""%string) /\
  exists c d',
    find_category rows 9 = Some c /\
    cj_isDefault (category_json_of c) = true /\
    fst (rename_category "2024-05-05 10:00:00" (Db d) 9 (Some "Groceries"))
    = ok 200 (Category {| cj_id := 9; cj_name := "Groceries"; cj_type := "expense";
                          cj_isDefault := true;
                          cj_createdAt := "2024-01-01 00:00:00";
                          cj_updatedAt := "2024-05-05 10:00:00" |}) /\
    snd (rename_category "2024-05-05 10:00:00" (Db d) 9 (Some "Groceries")) = Db d'.
Proof.
  cbn zeta.
  assert (categories Samples.seeded_database
          = Some (default [] (categories Samples.seeded_database))) as Hc
    by (vm_compute; reflexivity).
  assert ("Groceries"%string <> ""%string) as Hn by discriminate.
  split; [split; assumption|].
  destruct (find_category (default [] (categories Samples.seeded_database)) 9)
    as [c|] eqn:E; [|vm_compute in E; discriminate E].
  destruct (rename_category_ignores_is_default "2024-05-05 10:00:00"
              Samples.seeded_database _ 9 c "Groceries" Hc E Hn)
    as (d' & rows' & H1 & _).
  exists c, d'. split; [reflexivity|].
  vm_compute in E. injection E as <-.
  split; [reflexivity|]. rewrite H1. split; reflexivity.
Defined.

End CategoryFacts.

(** ** Routes and the rows of the directory *)

Module RouteFacts.
Import Js Sqlite Http Query DatabaseManager Route Names SchemaFacts ManagerFacts.

Lemma getConnection_dbPath now m u y :
  dbPath (snd (getConnection now m u y)) = dbPath m.
Proof.
  destruct (connections m !! shard_key u y) as [db|] eqn:E.
  - by rewrite (getConnection_cached now m u y db E).
  - rewrite (getConnection_uncached now m u y E). cbn [snd].
    by destruct (exec_schema now _).
Qed.

(** Opening a connection adds no transaction row anywhere. *)
Lemma getConnection_rows now m u y name :
  rows_at (snd (getConnection now m u y)) name = rows_at m name.
Proof.
  destruct (connections m !! shard_key u y) as [db|] eqn:E.
  { by rewrite (getConnection_cached now m u y db E). }
  rewrite (getConnection_uncached now m u y E). cbn [snd].
  unfold rows_at.
  destruct (fs m !! dbFile m u y) as [f|] eqn:Ef; cbn [from_option]; unfold id.
  - destruct f as [|d].
    + cbn [exec_schema fs]. done.
    + destruct (exec_schema_eq now d) as (d' & -> & _ & Ht & _). cbn [fs].
      destruct (decide (name = dbFile m u y)) as [->|Hne].
      * rewrite lookup_insert_eq, Ef. cbn [file_rows]. by rewrite Ht.
      * by rewrite lookup_insert_ne.
  - destruct (exec_schema_eq now empty_database) as (d' & -> & _ & Ht & _). cbn [fs].
    destruct (decide (name = dbFile m u y)) as [->|Hne].
    + rewrite lookup_insert_eq, Ef. cbn [file_rows]. by rewrite Ht.
    + by rewrite lookup_insert_ne.
Qed.

Lemma getConnection_fs_other now m u y name :
  name <> dbFile m u y ->
  fs (snd (getConnection now m u y)) !! name = fs m !! name.
Proof.
  intros Hne.
  destruct (connections m !! shard_key u y) as [db|] eqn:E.
  { by rewrite (getConnection_cached now m u y db E). }
  rewrite (getConnection_uncached now m u y E). cbn [snd].
  destruct (exec_schema now _); cbn [fs].
  - destruct (fs m !! dbFile m u y); [done | by rewrite lookup_insert_ne].
  - by rewrite lookup_insert_ne.
Qed.

(** In a consistent registry the handle of a shard is bound to its file. *)
Lemma getConnection_handle_file now m u y :
  App.registry_ok m ->
  h_file (fst (getConnection now m u y)) = dbFile m u y.
Proof.
  intros Hreg.
  destruct (connections m !! shard_key u y) as [db|] eqn:E.
  - rewrite (getConnection_cached now m u y db E). cbn [fst].
    rewrite (Hreg _ _ E). by rewrite dbFile_key.
  - by rewrite (getConnection_uncached now m u y E).
Qed.

Lemma getConnection_registry_ok now m u y :
  App.registry_ok m -> App.registry_ok (snd (getConnection now m u y)).
Proof.
  intros Hreg.
  destruct (connections m !! shard_key u y) as [db|] eqn:E.
  { by rewrite (getConnection_cached now m u y db E). }
  rewrite (getConnection_uncached now m u y E). cbn [snd].
  assert (forall c f k n,
    App.registry_ok {| dbPath := dbPath m;
                       connections := <[shard_key u y :=
                          {| h_id := n; h_file := dbFile m u y |}]> (connections m);
                       fs := f; console := c; constructed := k |}) as H.
  { intros c f k n key db. cbn [connections dbPath].
    destruct (decide (key = shard_key u y)) as [->|Hne].
    - rewrite lookup_insert_eq. intros [= <-]. cbn [h_file]. apply dbFile_key.
    - rewrite lookup_insert_ne by done. apply Hreg. }
  destruct (exec_schema now _); apply H.
Qed.

Lemma on_shard_eq now m u y handler :
  on_shard now m u y handler =
  (fst (handler (shard_after_open now m u y)),
   commit (snd (getConnection now m u y)) (fst (getConnection now m u y))
     (snd (handler (shard_after_open now m u y)))).
Proof.
  unfold on_shard, shard_after_open.
  destruct (getConnection now m u y) as [db m1]. cbn [fst snd].
  by destruct (handler (content m1 db)).
Qed.

(** The rows a handler starts from are those of the handle's file. *)
Lemma shard_after_open_rows now m u y :
  file_rows (shard_after_open now m u y)
  = rows_at m (h_file (fst (getConnection now m u y))).
Proof.
  rewrite <- (getConnection_rows now m u y). unfold shard_after_open, rows_at, content.
  destruct (getConnection now m u y) as [db m1]. cbn [fst snd].
  by destruct (fs m1 !! h_file db).
Qed.

(** After a route, the file of its handle holds what the handler left and
    every other path holds the rows it held. *)
Lemma on_shard_rows now m u y handler name :
  rows_at (snd (on_shard now m u y handler)) name =
  if decide (name = h_file (fst (getConnection now m u y)))
  then file_rows (snd (handler (shard_after_open now m u y)))
  else rows_at m name.
Proof.
  rewrite on_shard_eq. cbn [snd]. unfold commit, set_fs, rows_at at 1. cbn [fs].
  case_decide as Hn.
  - subst name. by rewrite lookup_insert_eq.
  - rewrite lookup_insert_ne by done. apply getConnection_rows.
Qed.

Lemma on_shard_fs_other now m u y handler name :
  name <> h_file (fst (getConnection now m u y)) ->
  name <> dbFile m u y ->
  fs (snd (on_shard now m u y handler)) !! name = fs m !! name.
Proof.
  intros H1 H2. rewrite on_shard_eq. cbn [snd]. unfold commit, set_fs. cbn [fs].
  rewrite lookup_insert_ne by done. by apply getConnection_fs_other.
Qed.

Lemma on_shard_dbPath now m u y handler :
  dbPath (snd (on_shard now m u y handler)) = dbPath m.
Proof. rewrite on_shard_eq. cbn. apply getConnection_dbPath. Qed.

Lemma on_shard_registry_ok now m u y handler :
  App.registry_ok m -> App.registry_ok (snd (on_shard now m u y handler)).
Proof.
  intros H. rewrite on_shard_eq. cbn [snd].
  apply (getConnection_registry_ok now m u y) in H.
  intros key db. apply H.
Qed.

(** The two category routes that check the body first either refuse
    and leave the state, or run their statements on the shard. *)
Lemma post_category_cases now m u y name type :
  (exists r, post_category now m u y name type = (r, m)) \/
  post_category now m u y name type
  = on_shard now m u y (fun f => Categories.create_category now f name type).
Proof.
  unfold post_category.
  destruct (_ || _); [eauto|]. destruct (negb _); [eauto | by right].
Qed.

Lemma put_category_cases now m u y id name :
  (exists r, put_category now m u y id name = (r, m)) \/
  put_category now m u y id name
  = on_shard now m u y (fun f => Categories.rename_category now f id name).
Proof. unfold put_category. destruct (negb _); [eauto | by right]. Qed.

Lemma getConnection_handles now m u y :
  handles_constructed m -> handles_constructed (snd (getConnection now m u y)).
Proof.
  intros H.
  destruct (connections m !! shard_key u y) as [db|] eqn:E.
  { by rewrite (getConnection_cached now m u y db E). }
  rewrite (getConnection_uncached now m u y E). cbn [snd].
  assert (forall c f p,
    handles_constructed
      {| dbPath := p;
         connections := <[shard_key u y :=
            {| h_id := constructed m; h_file := dbFile m u y |}]> (connections m);
         fs := f; console := c; constructed := S (constructed m) |}) as Hnew.
  { intros c f p. unfold handles_constructed. cbn [connections constructed].
    apply map_Forall_insert_2; [cbn; lia|].
    intros key db Hdb. specialize (H key db Hdb). cbn in H. lia. }
  destruct (exec_schema now _); apply Hnew.
Qed.

Lemma on_shard_handles now m u y handler :
  handles_constructed m -> handles_constructed (snd (on_shard now m u y handler)).
Proof.
  intros H. rewrite on_shard_eq. cbn [snd].
  apply (getConnection_handles now m u y) in H. exact H.
Qed.

End RouteFacts.

(** ** The transaction ledger: create, update, delete *)

Module TransactionFacts.
Import Js Sqlite Http Query DatabaseManager Route Transactions.
Import Names SchemaFacts ManagerFacts RouteFacts.

(** What POST / leaves in the file: the rows that were there and at most
    one new row, which carries the date of the request. *)
Lemma create_in_shard_rows now f amount date type categoryId description :
  file_rows (snd (create_in_shard now f amount date type categoryId description))
  = file_rows f \/
  exists row,
    file_rows (snd (create_in_shard now f amount date type categoryId description))
    = file_rows f ++ [row] /\
    tx_date row = date /\ tx_amount row = amount /\ tx_type row = type /\
    tx_category_id row = categoryId.
Proof.
  unfold create_in_shard.
  destruct (get_category f categoryId) as [e|[c|]]; cbn [snd]; auto.
  unfold insert_transaction.
  destruct f as [|d]; cbn [snd]; auto.
  destruct (transactions d) as [rows|] eqn:Et; cbn [snd]; auto.
  destruct (check_type type); cbn [snd]; auto.
  right.
  exists {| tx_id := next_id tx_id rows (seq_transactions d);
            tx_amount := amount; tx_date := date; tx_type := type;
            tx_category_id := categoryId; tx_description := description;
            tx_created_at := now; tx_updated_at := now |}.
  split; [|cbn; repeat split; reflexivity].
  destruct (get_joined _ _) as [e|[j|]]; cbn [snd file_rows with_transactions transactions];
    by rewrite Et.
Qed.

Lemma create_in_shard_invalid_category now f amount date type categoryId description :
  get_category f categoryId = Done None ->
  create_in_shard now f amount date type categoryId description
  = (failure 400 "Invalid category", f).
Proof. unfold create_in_shard. by intros ->. Qed.

(** An answer other than 201 means no row was added, except for the 500
    "created but failed to fetch". *)
Lemma create_in_shard_created now f amount date type categoryId description :
  status (fst (create_in_shard now f amount date type categoryId description)) = 201 ->
  exists row,
    file_rows (snd (create_in_shard now f amount date type categoryId description))
    = file_rows f ++ [row] /\
    tx_date row = date /\ tx_amount row = amount /\ tx_type row = type /\
    tx_category_id row = categoryId /\
    exists j, body (fst (create_in_shard now f amount date type categoryId description))
              = Transaction j /\ tj_id j = tx_id row /\ tj_date j = date /\
              tj_amount j = amount.
Proof.
  unfold create_in_shard.
  destruct (get_category f categoryId) as [e|[c|]]; cbn [fst snd status failure]; try done.
  unfold insert_transaction.
  destruct f as [|d]; cbn [fst snd status failure]; try done.
  destruct (transactions d) as [rows|] eqn:Et; cbn [fst snd status failure]; try done.
  destruct (check_type type); cbn [fst snd status failure]; try done.
  set (row := {| tx_id := next_id tx_id rows (seq_transactions d);
                 tx_amount := amount; tx_date := date; tx_type := type;
                 tx_category_id := categoryId; tx_description := description;
                 tx_created_at := now; tx_updated_at := now |}).
  destruct (get_joined _ _) as [e|[j|]] eqn:Ej; cbn [fst snd status failure]; try done.
  intros _. exists row.
  split; [cbn [file_rows with_transactions transactions]; by rewrite Et|].
  do 4 (split; [reflexivity|]).
  eexists. split; [reflexivity|].
  unfold get_joined, select_joined, transaction_table in Ej.
  cbn [with_transactions transactions categories category_table] in Ej.
  destruct (categories d) as [cats|]; [|discriminate Ej].
  injection Ej as Ej. apply find_some in Ej as [Hin Hid].
  apply in_map_iff in Hin as (t & <- & Hin).
  cbn [left_join fst] in Hid. apply Z.eqb_eq in Hid.
  cbn [transaction_json_of left_join fst tj_id tj_date tj_amount].
  apply in_app_or in Hin as [Hin|[<-|[]]]; [|done].
  exfalso. cbn [tx_id row] in Hid.
  assert (forall l, In t l -> tx_id t <= max_id tx_id l) as Hmax.
  { induction l as [|x l IH]; [done|]. intros [->|H]; simpl; [lia|].
    specialize (IH H). lia. }
  specialize (Hmax _ Hin). unfold next_id in Hid. lia.
Qed.

(** What PUT /:id leaves in the file: every row is a row that was
    there, or carries the date of the request. *)
Lemma update_in_shard_rows now f id amount date type categoryId description t :
  In t (file_rows (snd (update_in_shard now f id amount date type categoryId description))) ->
  In t (file_rows f) \/ tx_date t = date.
Proof.
  unfold update_in_shard.
  destruct (get_category f categoryId) as [e|[c|]]; cbn [snd]; auto.
  unfold update_transaction_row.
  destruct f as [|d]; cbn [snd]; auto.
  destruct (transactions d) as [rows|] eqn:Et; cbn [snd]; auto.
  destruct ((_ =? 0) || check_type type); cbn [snd]; auto.
  assert (In t (map (update_row now amount date type categoryId description id) rows) ->
          In t (file_rows (Db d)) \/ tx_date t = date) as H.
  { intros (t0 & <- & Hin)%in_map_iff. unfold update_row.
    destruct (tx_id t0 =? id); [by right | left].
    cbn [file_rows]. by rewrite Et. }
  destruct (_ =? 0); [exact H|].
  destruct (get_joined _ _) as [e|[j|]]; exact H.
Qed.

Lemma update_in_shard_updated now f id amount date type categoryId description :
  status (fst (update_in_shard now f id amount date type categoryId description)) = 200 ->
  exists t,
    In t (file_rows (snd (update_in_shard now f id amount date type categoryId description)))
    /\ tx_id t = id /\ tx_date t = date /\ tx_amount t = amount.
Proof.
  unfold update_in_shard.
  destruct (get_category f categoryId) as [e|[c|]]; cbn [fst snd status failure]; try done.
  unfold update_transaction_row.
  destruct f as [|d]; cbn [fst snd status failure]; try done.
  destruct (transactions d) as [rows|] eqn:Et; cbn [fst snd status failure]; try done.
  destruct ((_ =? 0) || check_type type); cbn [fst snd status failure]; try done.
  destruct (_ =? 0) eqn:Ez; cbn [fst snd status failure]; try done.
  destruct (get_joined _ _) as [e|[j|]]; cbn [fst snd status failure]; try done.
  intros _. apply Z.eqb_neq in Ez.
  destruct (List.filter (fun t => tx_id t =? id) rows) as [|t0 l] eqn:Ef; [done|].
  assert (In t0 (List.filter (fun t => tx_id t =? id) rows)) as Hin
    by (rewrite Ef; by left).
  apply filter_In in Hin as [Hin Hid].
  exists (update_row now amount date type categoryId description id t0).
  split.
  - cbn [file_rows with_transactions transactions from_option]. by apply in_map.
  - unfold update_row. rewrite Hid. cbn. split; [by apply Z.eqb_eq | done].
Qed.

Lemma delete_transaction_rows f id t :
  In t (file_rows (snd (delete_transaction f id))) -> In t (file_rows f).
Proof.
  unfold delete_transaction. destruct f as [|d]; cbn [snd]; auto.
  destruct (transactions d) as [rows|] eqn:Et; cbn [snd]; auto.
  destruct (_ =? 0); cbn [snd]; auto.
  cbn [file_rows with_transactions transactions from_option]. rewrite Et.
  cbn [from_option]. unfold Datatypes.id. by intros [H _]%filter_In.
Qed.

(** The category routes leave the transaction rows alone. *)
Lemma create_category_rows now f name type :
  file_rows (snd (Categories.create_category now f name type)) = file_rows f.
Proof.
  unfold Categories.create_category.
  destruct (negb (truthy_str name) || negb (truthy_str type)); [done|].
  destruct (negb (check_type _)); [done|].
  unfold Categories.insert_category.
  destruct f as [|d]; [done|].
  destruct (categories d) as [rows|]; [|done].
  destruct (check_type _); [|done].
  by destruct (get_category _ _) as [e|[c|]].
Qed.

Lemma rename_category_rows now f id name :
  file_rows (snd (Categories.rename_category now f id name)) = file_rows f.
Proof.
  unfold Categories.rename_category.
  destruct (negb (truthy_str name)); [done|].
  unfold Categories.update_category_name.
  destruct f as [|d]; [done|].
  destruct (categories d) as [rows|]; [|done].
  destruct (_ =? 0); [done|].
  by destruct (get_category _ _) as [e|[c|]].
Qed.

Lemma delete_category_rows f id :
  file_rows (snd (Categories.delete_category f id)) = file_rows f.
Proof.
  unfold Categories.delete_category.
  destruct (get_category f id) as [e|[c|]]; [done| |done].
  destruct (cat_is_default c =? 1); [done|].
  destruct (Categories.count_usage f id) as [e|n]; [done|].
  destruct (0 <? n); [done|].
  unfold Categories.delete_category_row.
  destruct f as [|d]; [done|].
  by destruct (categories d) as [rows|].
Qed.

Section Create.

Variable getFullYear : string -> option Z.

Lemma check_type_false ty :
  ty <> "income"%string -> ty <> "expense"%string -> check_type ty = false.
Proof.
  intros H1 H2. unfold check_type.
  destruct (String.eqb_spec ty "income"), (String.eqb_spec ty "expense"); done.
Qed.

(** A body the specification refuses is refused by the validation. *)
Lemma validate_create_refuses b :
  CreateSpec.refused b -> exists text, validate_create b = Some (failure 400 text).
Proof.
  intros H. unfold validate_create.
  destruct (negb (truthy_num (b_amount b)) || negb (truthy_str (b_date b))
            || negb (truthy_str (b_type b)) || negb (truthy_id (b_categoryId b)))
    eqn:E1; [eauto|].
  destruct (negb (check_type (default "" (b_type b)))) eqn:E2; [eauto|].
  destruct (not_positive (default (Int 0) (b_amount b))) eqn:E3; [eauto|].
  exfalso.
  apply orb_false_elim in E1 as [E1 Ec]. apply orb_false_elim in E1 as [E1 Et].
  apply orb_false_elim in E1 as [Ea Ed].
  apply negb_false_iff in Ea, Ed, Et, Ec.
  destruct H as [H|[H|[H|[H|[(ty & H & H1 & H2)|(a & H & Ha)]]]]].
  - unfold CreateSpec.no_amount in H.
    destruct (b_amount b) as [[n|x]|]; cbn in Ea; [| |done].
    + subst n. done.
    + apply negb_true_iff, orb_false_elim in Ea as [Ea1 Ea2].
      destruct H as [H|H]; congruence.
  - destruct H as [H|H]; by rewrite H in Ed.
  - destruct H as [H|H]; by rewrite H in Et.
  - destruct H as [H|H]; by rewrite H in Ec.
  - rewrite H in E2. cbn in E2. by rewrite (check_type_false ty H1 H2) in E2.
  - rewrite H in E3. cbn [from_option] in E3. unfold Datatypes.id in E3.
    destruct a as [n|x]; cbn in Ha, E3; [lia | congruence].
Qed.

(** Every other body passes the validation, with its four fields
    present. *)
Lemma validate_create_passes b :
  ~ CreateSpec.refused b ->
  validate_create b = None /\
  is_Some (b_amount b) /\ is_Some (b_date b) /\ is_Some (b_type b) /\
  is_Some (b_categoryId b).
Proof.
  intros H. unfold validate_create, CreateSpec.refused in *.
  assert (truthy_num (b_amount b) = true /\ is_Some (b_amount b)) as [-> Ha].
  { destruct (b_amount b) as [[n|x]|] eqn:E; cbn.
    - split; [|eauto]. destruct (Z.eqb_spec n 0) as [->|]; [|done].
      exfalso. apply H. by left.
    - split; [|eauto].
      destruct (PrimFloat.eqb x PrimFloat.zero) eqn:E1;
        [exfalso; apply H; left; by left|].
      destruct (PrimFloat.is_nan x) eqn:E2;
        [exfalso; apply H; left; by right|].
      done.
    - exfalso. apply H. by left. }
  assert (truthy_str (b_date b) = true /\ is_Some (b_date b)) as [-> Hd].
  { destruct (b_date b) as [d|] eqn:E; cbn.
    - split; [|eauto]. destruct (String.eqb_spec d "") as [->|]; [|done].
      exfalso. apply H. right. left. by right.
    - exfalso. apply H. right. left. by left. }
  assert (truthy_str (b_type b) = true /\ is_Some (b_type b)) as [-> Ht].
  { destruct (b_type b) as [d|] eqn:E; cbn.
    - split; [|eauto]. destruct (String.eqb_spec d "") as [->|]; [|done].
      exfalso. apply H. right. right. left. by right.
    - exfalso. apply H. right. right. left. by left. }
  assert (truthy_id (b_categoryId b) = true /\ is_Some (b_categoryId b)) as [-> Hc].
  { destruct (b_categoryId b) as [c|] eqn:E; cbn.
    - split; [|eauto]. destruct (Z.eqb_spec c 0) as [->|]; [|done].
      exfalso. apply H. do 3 right. left. by right.
    - exfalso. apply H. do 3 right. left. by left. }
  cbn [negb orb].
  destruct Ht as [ty Ety]. rewrite Ety in *. cbn [from_option]. unfold Datatypes.id.
  assert (check_type ty = true) as ->.
  { destruct (check_type ty) eqn:E; [done|]. exfalso. apply H. do 4 right. left.
    exists ty. split; [done|]. unfold check_type in E.
    apply orb_false_elim in E as [E1 E2].
    apply String.eqb_neq in E1, E2. done. }
  cbn [negb].
  destruct Ha as [a Ea]. rewrite Ea in *. cbn [from_option].
  assert (not_positive a = false) as ->.
  { destruct (not_positive a) eqn:E; [|done]. exfalso. apply H. do 5 right.
    exists a. split; [done|]. destruct a as [n|x]; cbn in E |- *; [lia | done]. }
  eauto.
Qed.

(** C6 (as the code has it). For every create request: when amount,
    date, type or categoryId is absent or read as false (the empty text,
    0), or type is neither income nor expense, or amount is at most zero,
    the answer is 400 and the state is exactly the one before: no
    connection is opened and no statement runs. Every other body passes
    these checks, and the shard of the date's year is opened - created and
    seeded when its file was missing - before the category is looked up:
    when that query finds no row for categoryId, the answer is 400
    "Invalid category", the state is the one [getConnection] left, and
    every path of the directory holds the transaction rows it held
    before. *)
Theorem create_transaction_validates_before_writing now m u b :
  let r := create_transaction getFullYear now m u b in
  (CreateSpec.refused b ->
   status (fst r) = 400 /\ success (fst r) = false /\ snd r = m) /\
  (~ CreateSpec.refused b ->
   exists date categoryId,
     b_date b = Some date /\ b_categoryId b = Some categoryId /\
     let opened := getConnection now m u (transactionYear getFullYear date) in
     (get_category (content (snd opened) (fst opened)) categoryId = Done None ->
      fst r = failure 400 "Invalid category" /\
      (forall name, rows_at (snd r) name = rows_at m name) /\
      connections (snd r) = connections (snd opened) /\
      console (snd r) = console (snd opened) /\
      content (snd r) (fst opened) = content (snd opened) (fst opened) /\
      (forall name, name <> h_file (fst opened) ->
                    fs (snd r) !! name = fs (snd opened) !! name))).
Proof.
  cbn zeta. split.
  - intros H. destruct (validate_create_refuses b H) as [text Hv].
    unfold create_transaction. by rewrite Hv.
  - intros H. destruct (validate_create_passes b H)
      as (Hv & _ & [date Hd] & _ & [categoryId Hc]).
    exists date, categoryId. split; [done|]. split; [done|].
    intros Hcat.
    unfold create_transaction. rewrite Hv, Hd, Hc. cbn [from_option].
    unfold Datatypes.id.
    rewrite on_shard_eq. cbn [fst snd].
    assert (shard_after_open now m u (transactionYear getFullYear date)
            = content (snd (getConnection now m u (transactionYear getFullYear date)))
                (fst (getConnection now m u (transactionYear getFullYear date)))) as Hopen.
    { unfold shard_after_open. by destruct (getConnection _ _ _ _). }
    rewrite Hopen.
    rewrite create_in_shard_invalid_category by exact Hcat.
    cbn [fst snd].
    split; [done|]. split; [|split; [done|split; [done|split]]].
    + intros name. unfold commit, set_fs, rows_at at 1. cbn [fs].
      destruct (decide (name = h_file (fst (getConnection now m u
                  (transactionYear getFullYear date))))) as [->|Hne].
      * rewrite lookup_insert_eq. rewrite <- Hopen. apply shard_after_open_rows.
      * rewrite lookup_insert_ne by done. apply getConnection_rows.
    + unfold content at 1, commit, set_fs. cbn [fs]. by rewrite lookup_insert_eq.
    + intros name Hne. unfold commit, set_fs. cbn [fs].
      by rewrite lookup_insert_ne.
Qed.

End Create.

Lemma create_transaction_validates_before_writing_witness :
  let m := Samples.empty_manager in
  let now := "2024-03-15 18:30:00"%string in
  let bad := create_transaction Samples.iso_year now m 1 Samples.lunch_negative in
  let r := create_transaction Samples.iso_year now m 1 Samples.lunch_unknown_category in
  (CreateSpec.refused Samples.lunch_negative /\
   ~ CreateSpec.refused Samples.lunch_unknown_category) /\
  status (fst bad) = 400 /\ snd bad = m /\
  fst r = failure 400 "Invalid category" /\
  rows_at (snd r) "./databases/user_1_2024.db" = [].
Proof.
  cbn zeta.
  assert (CreateSpec.refused Samples.lunch_negative) as H1.
  { do 5 right. exists (Int (-5)). split; [reflexivity | cbn; lia]. }
  assert (~ CreateSpec.refused Samples.lunch_unknown_category) as H2.
  { intros [H|[[H|H]|[[H|H]|[[H|H]|[(ty & H & Hi & He)|(a & H & Ha)]]]]];
      try discriminate H.
    - injection H as <-. by apply He.
    - injection H as <-. cbn in Ha. lia. }
  split; [by split|].
  destruct (create_transaction_validates_before_writing Samples.iso_year
              "2024-03-15 18:30:00" Samples.empty_manager 1 Samples.lunch_negative)
    as [Hbad _].
  destruct (Hbad H1) as (Hs & _ & Hm).
  destruct (create_transaction_validates_before_writing Samples.iso_year
              "2024-03-15 18:30:00" Samples.empty_manager 1
              Samples.lunch_unknown_category) as [_ Hcat].
  destruct (Hcat H2) as (date & categoryId & Hd & Hc & Hrest).
  injection Hd as <-. injection Hc as <-.
  destruct Hrest as (Hr & Hrows & _); [vm_compute; reflexivity|].
  split; [exact Hs|]. split; [exact Hm|]. split; [exact Hr|].
  rewrite Hrows. vm_compute. reflexivity.
Defined.

(** The category of a create request is looked up after its shard was
    opened: a request that is answered 400 "Invalid category" for a year
    without a file leaves a new database file with the fourteen default
    categories behind. *)
Lemma invalid_category_is_refused_after_the_shard_was_created :
  let m := Samples.empty_manager in
  let r := create_transaction Samples.iso_year "2024-03-15 18:30:00" m 1
             Samples.lunch_unknown_category in
  fst r = failure 400 "Invalid category" /\
  fs m !! "./databases/user_1_2024.db"%string = None /\
  (exists d rows,
     fs (snd r) !! "./databases/user_1_2024.db"%string = Some (Db d) /\
     categories d = Some rows /\ length rows = 14%nat /\
     transactions d = Some []) /\
  snd r <> m.
Proof.
  cbn zeta. split; [vm_compute; reflexivity|]. split; [vm_compute; reflexivity|].
  split.
  - eexists. eexists. split; [vm_compute; reflexivity|].
    split; [reflexivity|]. split; reflexivity.
  - intros H.
    assert (fs (snd (create_transaction Samples.iso_year "2024-03-15 18:30:00"
                       Samples.empty_manager 1 Samples.lunch_unknown_category))
              !! "./databases/user_1_2024.db"%string
            = fs Samples.empty_manager !! "./databases/user_1_2024.db"%string) as E
      by (by rewrite H).
    vm_compute in E. discriminate E.
Qed.

End TransactionFacts.

(** ** Every transaction lives in the shard of its year *)

Module ShardFacts.
Import Js Sqlite Http Query DatabaseManager Route Transactions App.
Import Names SchemaFacts ManagerFacts RouteFacts TransactionFacts.

Section Shards.

Variable getFullYear : string -> option Z.

Local Abbreviation year_text date := (to_string (transactionYear getFullYear date)).

(** A route keeps the rows of every shard in the shard's year when its
    handler only adds rows dated in the year of the shard it runs on. *)
Lemma on_shard_years_ok now m u y handler :
  registry_ok m -> shard_years_ok getFullYear m ->
  (forall f t, In t (file_rows (snd (handler f))) ->
               In t (file_rows f) \/ year_text (tx_date t) = to_string y) ->
  shard_years_ok getFullYear (snd (on_shard now m u y handler)).
Proof.
  intros Hreg Hinv Hh u' y' t. unfold dbFile. rewrite on_shard_dbPath.
  fold (dbFile m u' y'). rewrite on_shard_rows.
  rewrite (getConnection_handle_file now m u y Hreg).
  case_decide as Hd.
  - intros Hin. apply dbFile_inj in Hd as [-> Hy]. rewrite Hy.
    apply Hh in Hin as [Hin|Hin]; [|done].
    rewrite shard_after_open_rows in Hin.
    rewrite (getConnection_handle_file now m u y Hreg) in Hin.
    by apply Hinv in Hin.
  - apply Hinv.
Qed.

Lemma serve_dbPath now m r : dbPath (serve getFullYear now m r) = dbPath m.
Proof.
  destruct r; cbn [serve]; try apply on_shard_dbPath; try apply getConnection_dbPath.
  - destruct (post_category_cases now m userId year name type) as [[r ->]| ->];
      [done | apply on_shard_dbPath].
  - destruct (put_category_cases now m userId year categoryId name) as [[r ->]| ->];
      [done | apply on_shard_dbPath].
  - unfold create_transaction. destruct (validate_create b); [done|].
    apply on_shard_dbPath.
  - unfold update_transaction. destruct (validate_update b); [done|].
    apply on_shard_dbPath.
  - unfold closeConnection. by destruct (connections m !! _).
  - done.
  - unfold backupDatabase. by destruct (fs m !! _).
Qed.

Lemma serve_registry_ok now m r :
  registry_ok m -> registry_ok (serve getFullYear now m r).
Proof.
  intros Hreg.
  destruct r; cbn [serve]; try (by apply on_shard_registry_ok);
    try (by apply getConnection_registry_ok).
  - destruct (post_category_cases now m userId year name type) as [[r ->]| ->];
      [done | by apply on_shard_registry_ok].
  - destruct (put_category_cases now m userId year categoryId name) as [[r ->]| ->];
      [done | by apply on_shard_registry_ok].
  - unfold create_transaction. destruct (validate_create b); [done|].
    by apply on_shard_registry_ok.
  - unfold update_transaction. destruct (validate_update b); [done|].
    by apply on_shard_registry_ok.
  - unfold closeConnection. destruct (connections m !! shard_key userId year) eqn:E;
      [|done].
    intros key db. cbn [set_connections connections dbPath].
    intros H. apply lookup_delete_Some in H as [_ H]. by apply Hreg.
  - intros key db. cbn. by rewrite lookup_empty.
  - unfold backupDatabase. destruct (fs m !! _); [|done].
    intros key db. cbn. apply Hreg.
Qed.

Lemma serve_years_ok now m r :
  registry_ok m -> shard_years_ok getFullYear m ->
  shard_years_ok getFullYear (serve getFullYear now m r).
Proof.
  intros Hreg Hinv.
  destruct r; cbn [serve].
  - intros u' y' t. unfold dbFile. rewrite getConnection_dbPath.
    rewrite getConnection_rows. apply Hinv.
  - destruct (post_category_cases now m userId year name type) as [[r ->]| ->];
      [done|].
    apply on_shard_years_ok; [done..|].
    intros f t. rewrite create_category_rows. auto.
  - destruct (put_category_cases now m userId year categoryId name) as [[r ->]| ->];
      [done|].
    apply on_shard_years_ok; [done..|].
    intros f t. rewrite rename_category_rows. auto.
  - apply on_shard_years_ok; [done..|].
    intros f t. rewrite delete_category_rows. auto.
  - unfold create_transaction. destruct (validate_create b); [done|].
    apply on_shard_years_ok; [done..|].
    intros f t Hin.
    destruct (create_in_shard_rows now f (default (Int 0) (b_amount b))
                (default "" (b_date b)) (default "" (b_type b))
                (default 0 (b_categoryId b)) (default "" (b_description b)))
      as [E|(row & E & Hdate & _)]; rewrite E in Hin; [by left|].
    apply in_app_or in Hin as [Hin|[<-|[]]]; [by left|]. right. by rewrite Hdate.
  - unfold update_transaction. destruct (validate_update b); [done|].
    apply on_shard_years_ok; [done..|].
    intros f t Hin. apply update_in_shard_rows in Hin as [Hin| ->]; auto.
  - apply on_shard_years_ok; [done..|].
    intros f t Hin. apply delete_transaction_rows in Hin. auto.
  - intros u' y' t.
    destruct (closeConnection_fields m userId year) as (_ & Hfs & Hp & _).
    unfold dbFile, rows_at. rewrite Hfs, Hp. apply Hinv.
  - apply Hinv.
  - unfold backupDatabase. destruct (fs m !! dbFile m userId year) as [f|]; [|done].
    intros u' y' t. cbn [snd]. unfold dbFile, rows_at, set_fs. cbn [fs dbPath].
    fold (dbFile m u' y').
    rewrite lookup_insert_ne by apply backupFile_not_dbFile. apply Hinv.
Qed.

Lemma serve_handles now m r :
  handles_constructed m -> handles_constructed (serve getFullYear now m r).
Proof.
  intros H.
  destruct r; cbn [serve]; try (by apply on_shard_handles);
    try (by apply getConnection_handles).
  - destruct (post_category_cases now m userId year name type) as [[r ->]| ->];
      [done | by apply on_shard_handles].
  - destruct (put_category_cases now m userId year categoryId name) as [[r ->]| ->];
      [done | by apply on_shard_handles].
  - unfold create_transaction. destruct (validate_create b); [done|].
    by apply on_shard_handles.
  - unfold update_transaction. destruct (validate_update b); [done|].
    by apply on_shard_handles.
  - unfold closeConnection. destruct (connections m !! shard_key userId year); [|done].
    unfold handles_constructed. cbn [set_connections connections constructed].
    by apply map_Forall_delete.
  - unfold handles_constructed. cbn. apply map_Forall_empty.
  - unfold backupDatabase. by destruct (fs m !! _).
Qed.

(** In every reachable state the cached handles are objects constructed
    earlier. *)
Lemma reachable_handles_constructed path m :
  reachable getFullYear path m -> handles_constructed m.
Proof.
  induction 1 as [|m now r _ IH]; [apply map_Forall_empty | by apply serve_handles].
Qed.

(** What holds in every reachable state. *)
Lemma reachable_invariant path m :
  reachable getFullYear path m ->
  dbPath m = path /\ registry_ok m /\ shard_years_ok getFullYear m.
Proof.
  induction 1 as [|m now r _ (Hp & Hreg & Hinv)].
  - split; [done|]. split.
    + intros key db. cbn. by rewrite lookup_empty.
    + intros u y t. unfold rows_at. cbn. by rewrite lookup_empty.
  - split; [by rewrite serve_dbPath|].
    split; [by apply serve_registry_ok | by apply serve_years_ok].
Qed.

Lemma validate_create_date b :
  validate_create b = None -> exists date, b_date b = Some date.
Proof.
  unfold validate_create.
  destruct (negb (truthy_num (b_amount b)) || negb (truthy_str (b_date b))
            || negb (truthy_str (b_type b)) || negb (truthy_id (b_categoryId b)))
    eqn:E1; [done|]. intros _.
  apply orb_false_elim in E1 as [E1 _]. apply orb_false_elim in E1 as [E1 _].
  apply orb_false_elim in E1 as [_ Ed].
  destruct (b_date b); [eauto | done].
Qed.

Lemma validate_update_date b :
  validate_update b = None -> exists date, b_date b = Some date.
Proof.
  unfold validate_update.
  destruct (negb (truthy_num (b_amount b)) || negb (truthy_str (b_date b))
            || negb (truthy_str (b_type b)) || negb (truthy_id (b_categoryId b)))
    eqn:E1; [done|]. intros _.
  apply orb_false_elim in E1 as [E1 _]. apply orb_false_elim in E1 as [E1 _].
  apply orb_false_elim in E1 as [_ Ed].
  destruct (b_date b); [eauto | done].
Qed.

Lemma validation_status b r : validate_create b = Some r -> status r = 400.
Proof.
  unfold validate_create.
  destruct (negb (truthy_num (b_amount b)) || negb (truthy_str (b_date b))
            || negb (truthy_str (b_type b)) || negb (truthy_id (b_categoryId b)));
    [by intros [= <-]|].
  destruct (negb (check_type (default "" (b_type b)))); [by intros [= <-]|].
  destruct (not_positive (default (Int 0) (b_amount b))); [by intros [= <-] | done].
Qed.

Lemma update_validation_status b r : validate_update b = Some r -> status r = 400.
Proof.
  unfold validate_update.
  destruct (negb (truthy_num (b_amount b)) || negb (truthy_str (b_date b))
            || negb (truthy_str (b_type b)) || negb (truthy_id (b_categoryId b)));
    [by intros [= <-]|].
  destruct (not_positive (default (Int 0) (b_amount b))); [by intros [= <-] | done].
Qed.

(** A created transaction is appended to the shard of its date's year and
    nothing else changes. *)
Lemma create_transaction_lands now m u b :
  registry_ok m ->
  status (fst (create_transaction getFullYear now m u b)) = 201 ->
  exists date row j,
    b_date b = Some date /\
    body (fst (create_transaction getFullYear now m u b)) = Transaction j /\
    tj_id j = tx_id row /\ tj_date j = date /\ tx_date row = date /\
    rows_at (snd (create_transaction getFullYear now m u b))
      (dbFile m u (transactionYear getFullYear date))
    = rows_at m (dbFile m u (transactionYear getFullYear date)) ++ [row] /\
    (forall name, name <> dbFile m u (transactionYear getFullYear date) ->
       fs (snd (create_transaction getFullYear now m u b)) !! name = fs m !! name
       /\ rows_at (snd (create_transaction getFullYear now m u b)) name
          = rows_at m name).
Proof.
  intros Hreg. unfold create_transaction.
  destruct (validate_create b) as [r|] eqn:Hv.
  { cbn [fst]. apply validation_status in Hv. lia. }
  destruct (validate_create_date b Hv) as [date Hd]. rewrite Hd.
  cbn [from_option]. unfold Datatypes.id.
  set (y := transactionYear getFullYear date).
  pose proof (getConnection_handle_file now m u y Hreg) as Hfile.
  intros Hs. rewrite on_shard_eq in Hs. cbn [fst] in Hs.
  apply create_in_shard_created in Hs
    as (row & Hrows & Hdate & _ & _ & _ & j & Hj & Hid & Hjd & _).
  exists date, row, j. split; [done|].
  split; [by rewrite on_shard_eq|].
  split; [done|]. split; [done|]. split; [done|].
  split.
  - rewrite on_shard_rows, Hfile. rewrite decide_True by done.
    rewrite Hrows, shard_after_open_rows. by rewrite Hfile.
  - intros name Hne. split.
    + apply on_shard_fs_other; by rewrite ?Hfile.
    + rewrite on_shard_rows, Hfile. by rewrite decide_False.
Qed.

(** An updated transaction is a row of the shard of its new date's year
    and nothing else changes. *)
Lemma update_transaction_lands now m u id b :
  registry_ok m ->
  status (fst (update_transaction getFullYear now m u id b)) = 200 ->
  exists date t,
    b_date b = Some date /\
    In t (rows_at (snd (update_transaction getFullYear now m u id b))
            (dbFile m u (transactionYear getFullYear date))) /\
    tx_id t = id /\ tx_date t = date /\
    (forall name, name <> dbFile m u (transactionYear getFullYear date) ->
       fs (snd (update_transaction getFullYear now m u id b)) !! name = fs m !! name).
Proof.
  intros Hreg. unfold update_transaction.
  destruct (validate_update b) as [r|] eqn:Hv.
  { cbn [fst]. apply update_validation_status in Hv. lia. }
  destruct (validate_update_date b Hv) as [date Hd]. rewrite Hd.
  cbn [from_option]. unfold Datatypes.id.
  set (y := transactionYear getFullYear date).
  pose proof (getConnection_handle_file now m u y Hreg) as Hfile.
  intros Hs. rewrite on_shard_eq in Hs. cbn [fst] in Hs.
  apply update_in_shard_updated in Hs as (t & Hin & Hid & Hdate & _).
  exists date, t. split; [done|].
  split; [|split; [done|split; [done|]]].
  - rewrite on_shard_rows, Hfile. by rewrite decide_True.
  - intros name Hne. apply on_shard_fs_other; by rewrite ?Hfile.
Qed.

Lemma numeric_year date Y :
  year_text date = to_string (VNum Y) -> getFullYear date = Some Y.
Proof.
  unfold transactionYear. destruct (getFullYear date) as [y|]; cbn [to_string].
  - by intros ->%show_Z_inj.
  - intros H. symmetry in H. by apply show_Z_not_NaN in H.
Qed.

End Shards.

Lemma digit_value_digit k :
  0 <= k <= 9 -> digit_value (ShardSpec.digit k) = Some k.
Proof.
  intros H.
  assert (k = 0 \/ k = 1 \/ k = 2 \/ k = 3 \/ k = 4 \/ k = 5 \/ k = 6 \/ k = 7 \/
          k = 8 \/ k = 9) as Hk by lia.
  destruct Hk as [->|[->|[->|[->|[->|[->|[->|[->|[->| ->]]]]]]]]]; reflexivity.
Qed.

Lemma days_in_month_bounds y m : 28 <= days_in_month y m <= 31.
Proof.
  unfold days_in_month.
  destruct (m =? 2); [destruct (leap_year y); lia|].
  destruct ((m =? 4) || (m =? 6) || (m =? 9) || (m =? 11)); lia.
Qed.

(** The text of a day of the calendar is read back as that day. *)
Lemma date_only_calendar_date y m d :
  ShardSpec.calendar_day y m d ->
  date_only (ShardSpec.calendar_date y m d) = Some (y, m, d).
Proof.
  intros (Hy & Hm & Hd). pose proof (days_in_month_bounds y m) as Hb.
  unfold ShardSpec.calendar_date, date_only.
  rewrite !digit_value_digit by (Z.div_mod_to_equations; lia).
  cbn zeta.
  assert (1000 * (y / 1000) + 100 * (y / 100 mod 10) + 10 * (y / 10 mod 10) + y mod 10
          = y) as -> by (Z.div_mod_to_equations; lia).
  assert (10 * (m / 10) + m mod 10 = m) as -> by (Z.div_mod_to_equations; lia).
  assert (10 * (d / 10) + d mod 10 = d) as -> by (Z.div_mod_to_equations; lia).
  destruct (Z.leb_spec 1 m); [|lia]. destruct (Z.leb_spec m 12); [|lia].
  destruct (Z.leb_spec 1 d); [|lia].
  destruct (Z.leb_spec d (days_in_month y m)); [done | lia].
Qed.

Section Dates.

Variable behind_utc : Z -> bool.
Variable other_formats : string -> option Z.

Local Abbreviation year_of := (Date_getFullYear behind_utc other_formats).

(** The year [getFullYear] reads off the text of a day is the year the
    day is filed under. *)
Lemma year_of_calendar_date y m d filed :
  ShardSpec.calendar_day y m d ->
  ShardSpec.filed_under behind_utc y m d filed <->
  year_of (ShardSpec.calendar_date y m d) = Some filed.
Proof.
  intros Hday. unfold Date_getFullYear.
  rewrite (date_only_calendar_date y m d Hday). unfold ShardSpec.filed_under.
  destruct ((m =? 1) && (d =? 1) && behind_utc y) eqn:E.
  - apply andb_prop in E as [E Hz]. apply andb_prop in E as [Hm Hd].
    apply Z.eqb_eq in Hm, Hd. split.
    + intros [[_ H]|(-> & _)]; [exfalso; by apply H | done].
    + intros [= <-]. by right.
  - assert (~ (m = 1 /\ d = 1 /\ behind_utc y = true)) as Hn.
    { intros (-> & -> & Hz). rewrite Hz in E. discriminate E. }
    split.
    + intros [[-> _]|(_ & H)]; [done | exfalso; by apply Hn].
    + intros [= <-]. by left.
Qed.


End Dates.



End ShardFacts.

(** ** The transaction list *)

Module ListFacts.
Import Js Sqlite Http Query Transactions ListSpec SortFacts.

Lemma text_compare_antisym a b : text_compare a b = CompOpp (text_compare b a).
Proof. apply Stdlib.Strings.String.compare_antisym. Qed.

Lemma text_compare_eq a b : text_compare a b = Eq -> a = b.
Proof. unfold text_compare. apply Stdlib.Strings.String.compare_eq_iff. Qed.

Lemma text_compare_refl a : text_compare a a = Eq.
Proof.
  unfold text_compare. induction a as [|c a IH]; simpl; [done|].
  unfold Ascii.compare. by rewrite N.compare_refl.
Qed.

Lemma text_compare_gt_trans a b c :
  text_compare a b = Gt -> text_compare b c = Gt -> text_compare a c = Gt.
Proof.
  intros Hab Hbc.
  assert (String.le c b) as Hcb.
  { unfold String.le, Stdlib.Strings.String.leb.
    change (Stdlib.Strings.String.compare c b) with (text_compare c b).
    rewrite text_compare_antisym, Hbc. done. }
  assert (String.le b a) as Hba.
  { unfold String.le, Stdlib.Strings.String.leb.
    change (Stdlib.Strings.String.compare b a) with (text_compare b a).
    rewrite text_compare_antisym, Hab. done. }
  pose proof (transitivity Hcb Hba) as Hca.
  unfold String.le, Stdlib.Strings.String.leb in Hca.
  change (Stdlib.Strings.String.compare c a) with (text_compare c a) in Hca.
  rewrite (text_compare_antisym a c).
  destruct (text_compare c a) eqn:E; [|done|done].
  apply text_compare_eq in E. subst c.
  rewrite text_compare_antisym, Hbc in Hab. discriminate Hab.
Qed.

(** The test of the specification is its order. *)
Lemma later_first_spec a b :
  later_first a b = true <-> date_desc_id_desc a b.
Proof.
  unfold later_first, date_desc_id_desc.
  destruct (text_compare (tx_date a) (tx_date b)) eqn:E.
  - apply text_compare_eq in E. rewrite Z.leb_le.
    split; [by right | by intros [?|[_ ?]]].
  - split; [done | intros [?|[H _]]; [done|]].
    rewrite H, text_compare_refl in E. discriminate E.
  - split; [by left | done].
Qed.

Lemma later_first_total a b :
  later_first a b = true \/ later_first b a = true.
Proof.
  unfold later_first. rewrite (text_compare_antisym (tx_date b) (tx_date a)).
  destruct (text_compare (tx_date a) (tx_date b)); cbn; auto.
  rewrite !Z.leb_le. lia.
Qed.

Lemma date_desc_id_desc_trans : Transitive date_desc_id_desc.
Proof.
  intros a b c [Hab|[Hab Hi]] [Hbc|[Hbc Hj]]; unfold date_desc_id_desc.
  - left. by apply (text_compare_gt_trans _ (tx_date b)).
  - left. by rewrite <- Hbc.
  - left. by rewrite Hab.
  - right. split; [congruence | lia].
Qed.

Lemma Sorted_impl {A} (R R' : A -> A -> Prop) (l : list A) :
  (forall a b, R a b -> R' a b) -> Sorted R l -> Sorted R' l.
Proof.
  intros H. induction 1 as [|x l Hs IH Hd]; constructor; [done|].
  destruct Hd; constructor; auto.
Qed.

(** Two tests that agree on the rows of a list sort it alike. *)
Lemma insert_by_ext_in {A} (le le' : A -> A -> bool) x (l : list A) :
  (forall y, In y l -> le x y = le' x y) ->
  insert_by le x l = insert_by le' x l.
Proof.
  induction l as [|y l IH]; intros H; cbn [insert_by]; [done|].
  rewrite (H y) by (by left).
  destruct (le' x y); [done|]. f_equal. apply IH. intros z Hz. apply H. by right.
Qed.

Lemma sort_by_ext_in {A} (le le' : A -> A -> bool) (l : list A) :
  (forall x y, In x l -> In y l -> le x y = le' x y) ->
  sort_by le l = sort_by le' l.
Proof.
  induction l as [|x l IH]; intros H; [done|].
  unfold sort_by in *. cbn [fold_right].
  rewrite IH by (intros a b Ha Hb; apply H; by right).
  apply insert_by_ext_in. intros y Hy. apply H; [by left|]. right.
  apply (Permutation_in _ (sort_by_perm le' l)). exact Hy.
Qed.

Lemma sorted_text_rows_ordered (txs : list transaction_row) :
  StronglySorted date_desc_id_desc (sort_by later_first txs).
Proof.
  apply Sorted_StronglySorted; [apply date_desc_id_desc_trans|].
  apply (Sorted_impl (fun a b => later_first a b = true)).
  - intros a b. apply later_first_spec.
  - apply sort_by_sorted. apply later_first_total.
Qed.

(** [Math.ceil(n / s)] is the ceiling: the least number of pages of
    size [s] that hold [n] rows. *)
Lemma ceil_div_spec n s :
  1 <= s -> (ceil_div n s - 1) * s < n <= ceil_div n s * s.
Proof.
  intros Hs. unfold ceil_div.
  pose proof (Z.div_mod (- n) s ltac:(lia)) as H.
  pose proof (Z.mod_pos_bound (- n) s ltac:(lia)) as Hb.
  nia.
Qed.

Lemma page_of_length {A} p s (l : list A) :
  0 <= s -> Z.of_nat (length (page_of p s l)) <= s.
Proof.
  intros Hs. unfold page_of. rewrite length_firstn. lia.
Qed.

Section Order.

Variable numeric_order : string -> string -> comparison.

(** On dates that are kept as text the query orders as the
    specification does. *)
Lemma by_date_id_desc_text a b :
  numeric_literal (tx_date a) = false -> numeric_literal (tx_date b) = false ->
  by_date_id_desc numeric_order a b = later_first a b.
Proof.
  intros Ha Hb. unfold by_date_id_desc, later_first, date_compare.
  by rewrite Ha, Hb.
Qed.

Lemma sorted_rows_ordered (txs : list transaction_row) :
  (forall t, In t txs -> numeric_literal (tx_date t) = false) ->
  StronglySorted date_desc_id_desc (sort_by (by_date_id_desc numeric_order) txs).
Proof.
  intros H. rewrite (sort_by_ext_in _ later_first).
  - apply sorted_text_rows_ordered.
  - intros a b Ha Hb. apply by_date_id_desc_text; by apply H.
Qed.

(** Sorting the joined rows is sorting the transactions. *)
Lemma insert_joined cats t l :
  insert_by (joined_desc numeric_order) (left_join cats t) (map (left_join cats) l)
  = map (left_join cats) (insert_by (by_date_id_desc numeric_order) t l).
Proof.
  induction l as [|x l IH]; simpl; [done|].
  unfold joined_desc at 1. cbn [left_join fst].
  destruct (by_date_id_desc numeric_order t x); simpl; [done | by rewrite IH].
Qed.

Lemma sort_joined cats l :
  sort_by (joined_desc numeric_order) (map (left_join cats) l)
  = map (left_join cats) (sort_by (by_date_id_desc numeric_order) l).
Proof.
  induction l as [|x l IH]; simpl; [done|].
  rewrite IH. apply insert_joined.
Qed.


End Order.



End ListFacts.

(** ** Statistics *)

Module StatsFacts.
Import Js Sqlite Http Query Transactions StatsSpec Grouping SortFacts.

Lemma whole_sum_app (a b : list number) :
  whole_sum (a ++ b) = whole_sum a + whole_sum b.
Proof.
  unfold whole_sum. induction a as [|[n|x] a IH]; cbn [app fold_right]; lia.
Qed.

Lemma whole_sum_map rows :
  whole_sum (map tx_amount rows) = sum_amounts rows.
Proof.
  unfold whole_sum, sum_amounts, whole_amount.
  induction rows as [|t rows IH]; cbn [map fold_right]; [done|].
  rewrite IH. by destruct (tx_amount t).
Qed.

Lemma whole_sum_nonneg l : Forall whole_positive l -> 0 <= whole_sum l.
Proof.
  induction 1 as [|a l (n & -> & Hn) _ IH]; cbn [whole_sum fold_right]; [done|].
  unfold whole_sum in IH. lia.
Qed.

Lemma sum_amounts_nonneg rows :
  (forall t, In t rows -> whole_positive (tx_amount t)) -> 0 <= sum_amounts rows.
Proof.
  intros H. rewrite <- whole_sum_map. apply whole_sum_nonneg.
  apply List.Forall_forall. intros a (t & <- & Hin)%in_map_iff. by apply H.
Qed.

(** Fewer rows, a smaller sum. *)
Lemma sum_amounts_filter (p : transaction_row -> bool) rows :
  (forall t, In t rows -> whole_positive (tx_amount t)) ->
  0 <= sum_amounts (List.filter p rows) <= sum_amounts rows.
Proof.
  induction rows as [|t rows IH]; intros H; cbn [List.filter]; [cbn; lia|].
  assert (0 <= sum_amounts (List.filter p rows) <= sum_amounts rows) as IH'
    by (apply IH; intros t' Ht'; apply H; by right).
  destruct (H t (or_introl eq_refl)) as (n & Hn & Hpos).
  assert (whole_amount t = n) as Ht by (unfold whole_amount; by rewrite Hn).
  destruct (p t); unfold sum_amounts in *; cbn [fold_right]; lia.
Qed.

Lemma stored_integer_whole n :
  - (2 ^ 63) < n < 2 ^ 63 -> stored_integer (Int n) = Some n.
Proof.
  intros H. unfold stored_integer.
  destruct (Z.ltb_spec (- (2 ^ 63)) n); [|lia].
  destruct (Z.ltb_spec n (2 ^ 63)); [done | lia].
Qed.

(** Whole amounts are stored as integers. *)
Lemma stored_integers l :
  Forall whole_positive l -> whole_sum l <= 2 ^ 53 ->
  exists ns, mapM stored_integer l = Some ns /\ l = map Int ns /\
             Forall (fun n => 0 < n) ns.
Proof.
  induction 1 as [|a l (n & -> & Hn) Hl IH]; intros Hsum.
  { exists []. by repeat split. }
  pose proof (whole_sum_nonneg l Hl) as Hpos.
  cbn [whole_sum fold_right] in Hsum. fold (whole_sum l) in Hsum.
  destruct IH as (ns & Hns & -> & Hall); [lia|].
  exists (n :: ns). split; [|split; [done | by constructor]].
  cbn [mapM]. rewrite stored_integer_whole by lia.
  cbn. by rewrite Hns.
Qed.

Lemma add_integers_exact total ns :
  0 <= total -> Forall (fun n => 0 < n) ns ->
  total + fold_right Z.add 0 ns < 2 ^ 63 ->
  add_integers total ns = Done (total + fold_right Z.add 0 ns).
Proof.
  intros Ht Hall. revert total Ht.
  induction Hall as [|n ns Hn Hall IH]; intros total Ht Hsum; cbn [add_integers fold_right] in *.
  { f_equal. lia. }
  assert (0 <= fold_right Z.add 0 ns) as Hpos.
  { clear -Hall. induction Hall; cbn; lia. }
  destruct (Z.leb_spec (- (2 ^ 63)) (total + n)); [|lia].
  destruct (Z.ltb_spec (total + n) (2 ^ 63)); [|lia].
  cbn [andb]. rewrite IH by lia. f_equal. lia.
Qed.

Lemma whole_sum_ints ns : whole_sum (map Int ns) = fold_right Z.add 0 ns.
Proof. unfold whole_sum. induction ns as [|n ns IH]; cbn; [done | by rewrite IH]. Qed.

Section Sums.

Variable real_sum : list number -> sql PrimFloat.float.

(** [SUM] over whole positive amounts is their sum. *)
Lemma sql_sum_whole l :
  Forall whole_positive l -> whole_sum l <= 2 ^ 53 ->
  sql_sum real_sum l
  = Done (match l with [] => None | _ :: _ => Some (Int (whole_sum l)) end).
Proof.
  intros Hl Hsum. destruct l as [|a l]; [done|].
  destruct (stored_integers _ Hl Hsum) as (ns & Hns & Heq & Hall).
  unfold sql_sum. rewrite Hns.
  rewrite Heq, whole_sum_ints in Hsum |- *.
  rewrite add_integers_exact; [done | lia | done | lia].
Qed.

Lemma js_number_exact n : 0 <= n <= 2 ^ 53 -> js_number (Int n) = Int n.
Proof.
  intros H. unfold js_number, exact_integer.
  destruct (Z.leb_spec (Z.abs n) (2 ^ 53)); [done | lia].
Qed.

(** [COALESCE(SUM(amount), 0)] is the sum of the amounts. *)
Lemma coalesce_sum_spec rows :
  (forall t, In t rows -> whole_positive (tx_amount t)) ->
  sum_amounts rows <= 2 ^ 53 ->
  coalesce_sum real_sum rows = Done (Int (sum_amounts rows)).
Proof.
  intros Hall Hsum. unfold coalesce_sum.
  pose proof (sum_amounts_nonneg rows Hall) as Hpos.
  rewrite sql_sum_whole.
  - rewrite whole_sum_map.
    destruct (map tx_amount rows) as [|a l] eqn:E; cbn [from_option]; unfold Datatypes.id.
    + destruct rows; [|done]. by rewrite js_number_exact.
    + by rewrite js_number_exact.
  - apply List.Forall_forall. intros a (t & <- & Hin)%in_map_iff. by apply Hall.
  - by rewrite whole_sum_map.
Qed.

End Sums.

Lemma of_type_spec type rows : of_type type rows = rows_of_type type rows.
Proof.
  unfold of_type, rows_of_type. apply filter_ext. intros t.
  destruct (String.eqb_spec (tx_type t) type) as [H|H].
  - by rewrite bool_decide_eq_true_2.
  - by rewrite bool_decide_eq_false_2.
Qed.

Lemma same_group_spec month type g :
  same_group month type g = true <-> group_key g = (month, type).
Proof.
  unfold same_group, group_key.
  destruct month as [a|], (mg_month g) as [b|]; cbn.
  - rewrite andb_true_iff, !String.eqb_eq. split; [by intros [-> ->] | by intros [= -> ->]].
  - split; [done | by intros [= ]].
  - split; [done | by intros [= ]].
  - rewrite String.eqb_eq. split; [by intros -> | by intros [= ->]].
Qed.

Lemma group_sum_absent k (l : list month_group) :
  k ∉ map group_key l -> group_sum k l = 0.
Proof.
  unfold group_sum. induction l as [|g l IH]; simpl; [done|].
  intros H. apply not_elem_of_cons in H as [H1 H2].
  rewrite decide_False by done. by apply IH.
Qed.

(** Among groups with distinct keys, the total of a key is the total of
    its group. *)
Lemma group_sum_unique (l : list month_group) g :
  NoDup (map group_key l) -> In g l ->
  group_sum (group_key g) l = whole_sum (mg_amounts g).
Proof.
  induction l as [|g' l IH]; intros Hnd Hin; [done|].
  cbn [map] in Hnd. apply NoDup_cons in Hnd as [Hfresh Hnd].
  unfold group_sum. cbn [fold_right]. fold (group_sum (group_key g) l).
  destruct Hin as [->|Hin].
  - rewrite decide_True by done. rewrite group_sum_absent by done. lia.
  - rewrite decide_False.
    + by apply IH.
    + intros E. apply Hfresh. rewrite E. apply list_elem_of_In. by apply in_map.
Qed.

Lemma total_sum_app k (a b : list monthly_row) :
  total_sum k (a ++ b) = total_sum k a + total_sum k b.
Proof.
  unfold total_sum. induction a as [|g a IH]; simpl; [done|].
  rewrite IH. case_decide; lia.
Qed.

Lemma total_sum_absent k (l : list monthly_row) :
  k ∉ map total_key l -> total_sum k l = 0.
Proof.
  unfold total_sum. induction l as [|g l IH]; simpl; [done|].
  intros H. apply not_elem_of_cons in H as [H1 H2].
  rewrite decide_False by done. by apply IH.
Qed.

Lemma total_sum_perm k (a b : list monthly_row) :
  Permutation a b -> total_sum k a = total_sum k b.
Proof.
  unfold total_sum. induction 1 as [|g a b _ IH|g g' a|a b c _ IH1 _ IH2]; simpl.
  - done.
  - rewrite IH. done.
  - repeat case_decide; lia.
  - congruence.
Qed.

Lemma total_sum_summed k (l : list month_group) :
  total_sum k (map summed l) = group_sum k l.
Proof.
  unfold total_sum, group_sum. induction l as [|g l IH]; cbn [map fold_right]; [done|].
  rewrite IH. done.
Qed.

Lemma total_key_summed (l : list month_group) :
  map total_key (map summed l) = map group_key l.
Proof. rewrite map_map. done. Qed.

Lemma has_month_perm month (a b : list monthly_row) :
  Permutation a b -> has_month month a = has_month month b.
Proof.
  unfold has_month. induction 1 as [|g a b _ IH|g g' a|a b c _ IH1 _ IH2]; simpl.
  - done.
  - by rewrite IH.
  - destruct (bool_decide _), (bool_decide _); done.
  - congruence.
Qed.

Lemma has_month_true month (l : list monthly_row) :
  has_month month l = true <-> exists k, k ∈ map total_key l /\ k.1 = month.
Proof.
  unfold has_month. rewrite existsb_exists. split.
  - intros (g & Hin & Hg). apply bool_decide_eq_true in Hg.
    exists (total_key g). split; [|done].
    apply list_elem_of_In. by apply in_map.
  - intros (k & Hin & Hk). apply list_elem_of_In, in_map_iff in Hin as (g & <- & Hin).
    exists g. split; [done|]. by apply bool_decide_eq_true.
Qed.

Lemma has_month_false_sum month type (l : list monthly_row) :
  has_month month l = false -> total_sum (month, type) l = 0.
Proof.
  intros H. apply total_sum_absent. intros Hin.
  assert (has_month month l = true) as Ht; [|congruence].
  apply has_month_true. by exists (month, type).
Qed.

Lemma has_month_app month (a b : list monthly_row) :
  has_month month (a ++ b) = has_month month a || has_month month b.
Proof. unfold has_month. apply existsb_app. Qed.

(** The object [monthlyData.forEach] builds from rows with distinct
    keys, months that are not [NULL], the two types of the schema and
    whole totals that are doubles. *)
Lemma monthly_object (l : list monthly_row) :
  NoDup (map total_key l) ->
  (forall g, In g l ->
     is_Some (mr_month g) /\
     (mr_type g = "income"%string \/ mr_type g = "expense"%string) /\
     mr_total g = Some (Int (whole_total g)) /\ 0 <= whole_total g <= 2 ^ 53) ->
  forall m,
    fold_left add_month l ∅ !! m =
    if has_month (Some m) l
    then Some {| income := Int (total_sum (Some m, "income"%string) l);
                 expenses := Int (total_sum (Some m, "expense"%string) l) |}
    else None.
Proof.
  induction l as [|g l IH] using rev_ind; intros Hnd Hok m.
  { cbn. apply lookup_empty. }
  rewrite fold_left_app. cbn [fold_left].
  rewrite map_app in Hnd. apply NoDup_app in Hnd as (Hnd & Hnotin & _).
  assert (total_key g ∉ map total_key l) as Hfresh.
  { intros Hin. apply (Hnotin _ Hin). cbn. by left. }
  specialize (IH Hnd (fun g' Hg' => Hok g' (in_or_app _ _ _ (or_introl Hg')))).
  destruct (Hok g) as ([mg Hmg] & Hty & Htotal & Hexact).
  { apply in_or_app. right. by left. }
  rewrite has_month_app, !total_sum_app.
  set (stats0 := fold_left add_month l ∅) in *.
  unfold add_month, month_key. rewrite Hmg, Htotal. cbn [from_option parse_total].
  unfold Datatypes.id. rewrite js_number_exact by done.
  unfold total_key in Hfresh. rewrite Hmg in Hfresh.
  destruct (decide (mg = m)) as [->|Hne].
  - assert (has_month (Some m) [g] = true) as ->.
    { cbn. rewrite Hmg. by rewrite bool_decide_eq_true_2. }
    rewrite orb_true_r.
    unfold total_sum at 2 4. cbn [fold_right]. unfold total_key. rewrite Hmg.
    destruct Hty as [Hty|Hty]; rewrite Hty in *; cbn [String.eqb Ascii.eqb Bool.eqb].
    + rewrite lookup_insert_eq. f_equal.
      rewrite (total_sum_absent _ l Hfresh).
      rewrite decide_True by done. rewrite decide_False by done.
      f_equal; [f_equal; lia|]. rewrite (IH m).
      destruct (has_month (Some m) l) eqn:E; cbn; [f_equal; lia|].
      rewrite (has_month_false_sum _ _ _ E). done.
    + rewrite lookup_insert_eq. f_equal.
      rewrite (total_sum_absent _ l Hfresh).
      rewrite decide_False by done. rewrite decide_True by done.
      f_equal; [|f_equal; lia]. rewrite (IH m).
      destruct (has_month (Some m) l) eqn:E; cbn; [f_equal; lia|].
      rewrite (has_month_false_sum _ _ _ E). done.
  - assert (has_month (Some m) [g] = false) as ->.
    { cbn. rewrite Hmg. rewrite bool_decide_eq_false_2; [done | congruence]. }
    rewrite orb_false_r.
    unfold total_sum at 2 4. cbn [fold_right]. unfold total_key. rewrite Hmg.
    rewrite !decide_False by congruence. rewrite !Z.add_0_r.
    destruct (String.eqb (mr_type g) "income"); rewrite lookup_insert_ne by done;
      apply IH.
Qed.

Lemma filter_filter {A} (f g : A -> bool) (l : list A) :
  List.filter f (List.filter g l) = List.filter (fun x => g x && f x) l.
Proof.
  induction l as [|x l IH]; simpl; [done|].
  destruct (g x); simpl; [|done]. destruct (f x); by rewrite IH.
Qed.

Section Builtins.

Variable strftime : string -> string -> option string.
Variable real_sum : list number -> sql PrimFloat.float.

Local Abbreviation grouped rows groups :=
  (fold_left (fun gs t => add_to_group strftime t gs) rows groups).

(** A row adds its amount to the total of its own group. *)
Lemma add_to_group_sum k t groups :
  group_sum k (add_to_group strftime t groups)
  = group_sum k groups + (if decide (row_key strftime t = k) then whole_amount t else 0).
Proof.
  assert (whole_sum [tx_amount t] = whole_amount t) as Hone.
  { unfold whole_sum, whole_amount. cbn. destruct (tx_amount t); lia. }
  induction groups as [|g groups IH]; cbn [add_to_group].
  - unfold group_sum, group_key, row_key. cbn [fold_right mg_month mg_type mg_amounts].
    rewrite Hone. case_decide; lia.
  - destruct (same_group _ _ g) eqn:E.
    + apply same_group_spec in E. unfold group_sum. cbn [fold_right].
      unfold group_key at 1 3. cbn [mg_month mg_type mg_amounts].
      fold (group_key g). unfold row_key. rewrite <- E.
      rewrite whole_sum_app, Hone.
      destruct (decide (group_key g = k)); lia.
    + unfold group_sum in *. cbn [fold_right]. rewrite IH.
      destruct (decide (group_key g = k)); lia.
Qed.

(** A row keeps the keys of the groups, or adds its own at the end. *)
Lemma add_to_group_keys t groups :
  map group_key (add_to_group strftime t groups) =
  if decide (row_key strftime t ∈ map group_key groups)
  then map group_key groups
  else map group_key groups ++ [row_key strftime t].
Proof.
  induction groups as [|g groups IH]; cbn [add_to_group].
  - rewrite decide_False by apply not_elem_of_nil. done.
  - destruct (same_group _ _ g) eqn:E.
    + apply same_group_spec in E. cbn [map].
      rewrite decide_True; [done|]. unfold row_key. rewrite <- E. by left.
    + cbn [map]. rewrite IH.
      assert (group_key g <> row_key strftime t) as Hne.
      { intros H. apply same_group_spec in H. unfold row_key in H. cbn in H.
        congruence. }
      destruct (decide (row_key strftime t ∈ map group_key groups)) as [Hin|Hin].
      * rewrite decide_True; [done | by right].
      * rewrite decide_False; [done|].
        intros [H|H]%elem_of_cons; [by symmetry in H | done].
Qed.

(** The amounts of a group are amounts of rows, and there is one at
    least. *)
Lemma add_to_group_amounts (P : number -> Prop) t groups :
  P (tx_amount t) ->
  Forall (fun g => mg_amounts g <> [] /\ Forall P (mg_amounts g)) groups ->
  Forall (fun g => mg_amounts g <> [] /\ Forall P (mg_amounts g))
    (add_to_group strftime t groups).
Proof.
  intros Ht. induction 1 as [|g groups [Hne Hg] Hall IH]; cbn [add_to_group].
  - constructor; [|constructor]. cbn. split; [done|]. by constructor.
  - destruct (same_group _ _ g).
    + constructor; [|done]. cbn [mg_amounts]. split.
      * by destruct (mg_amounts g).
      * apply Forall_app. split; [done|]. by constructor.
    + by constructor.
Qed.

Lemma grouped_amounts (P : number -> Prop) rows groups :
  (forall t, In t rows -> P (tx_amount t)) ->
  Forall (fun g => mg_amounts g <> [] /\ Forall P (mg_amounts g)) groups ->
  Forall (fun g => mg_amounts g <> [] /\ Forall P (mg_amounts g))
    (grouped rows groups).
Proof.
  revert groups. induction rows as [|t rows IH]; intros groups Hrows Hg;
    cbn [fold_left]; [done|].
  apply IH.
  - intros t' Ht'. apply Hrows. by right.
  - apply add_to_group_amounts; [|done]. apply Hrows. by left.
Qed.

Lemma grouped_sum k rows groups :
  group_sum k (grouped rows groups) = group_sum k groups + key_sum strftime k rows.
Proof.
  revert groups. unfold key_sum.
  induction rows as [|t rows IH]; intros groups; cbn [fold_left List.filter].
  - cbn. lia.
  - rewrite IH, add_to_group_sum.
    destruct (decide (row_key strftime t = k)) as [H|H].
    + rewrite bool_decide_eq_true_2 by done. cbn [sum_amounts fold_right].
      unfold sum_amounts. lia.
    + rewrite bool_decide_eq_false_2 by done. lia.
Qed.

Lemma grouped_keys rows groups :
  NoDup (map group_key groups) ->
  NoDup (map group_key (grouped rows groups)) /\
  forall k, k ∈ map group_key (grouped rows groups) <->
            k ∈ map group_key groups \/ k ∈ map (row_key strftime) rows.
Proof.
  revert groups. induction rows as [|t rows IH]; intros groups Hnd; cbn [fold_left].
  - split; [done|]. intros k. cbn [map]. rewrite elem_of_nil. tauto.
  - assert (NoDup (map group_key (add_to_group strftime t groups))) as Hnd'.
    { rewrite add_to_group_keys. case_decide as Hin; [done|].
      apply NoDup_app. split; [done|]. split; [|apply NoDup_singleton].
      intros x Hx ->%list_elem_of_singleton. done. }
    destruct (IH _ Hnd') as [H1 H2]. split; [done|].
    intros k. rewrite H2, add_to_group_keys. cbn [map]. rewrite elem_of_cons.
    case_decide as Hin.
    + split; [tauto|]. intros [H|[->|H]]; auto.
    + rewrite elem_of_app, list_elem_of_singleton. tauto.
Qed.

(** Groups of whole positive amounts are summed to their totals. *)
Lemma sum_groups_whole (groups : list month_group) :
  Forall (fun g => mg_amounts g <> [] /\ Forall whole_positive (mg_amounts g)) groups ->
  (forall g, In g groups -> whole_sum (mg_amounts g) <= 2 ^ 53) ->
  sum_groups real_sum groups = Done (map summed groups).
Proof.
  induction 1 as [|g groups [Hne Hg] Hall IH]; intros Hsum; [done|].
  cbn [sum_groups map].
  rewrite sql_sum_whole; [|done|apply Hsum; by left].
  rewrite IH by (intros g' Hg'; apply Hsum; by right).
  unfold summed at 2. by destruct (mg_amounts g).
Qed.

(** The rows [WHERE strftime('%Y', date) = ?] keeps are the rows of the
    requested year. *)
Lemma in_year_spec year t :
  in_year strftime year t = bool_decide (strftime "%Y" (tx_date t) = Some year).
Proof.
  unfold in_year. destruct (strftime "%Y" (tx_date t)) as [y|].
  - destruct (String.eqb_spec y year) as [->|H].
    + by rewrite bool_decide_eq_true_2.
    + rewrite bool_decide_eq_false_2; [done | congruence].
  - by rewrite bool_decide_eq_false_2.
Qed.

(** The rows of a group of the requested year are the bucket of the
    specification. *)
Lemma key_sum_bucket year month type rows :
  key_sum strftime (Some month, type) (List.filter (in_year strftime year) rows)
  = sum_amounts (bucket strftime year month type rows).
Proof.
  unfold key_sum, bucket. rewrite filter_filter. f_equal.
  apply filter_ext. intros t. unfold in_month, row_key. rewrite in_year_spec.
  destruct (bool_decide (strftime "%Y" (tx_date t) = Some year)); cbn [andb]; [|done].
  destruct (decide (strftime "%Y-%m" (tx_date t) = Some month)) as [Hm|Hm],
           (decide (tx_type t = type)) as [Ht|Ht].
  - rewrite !bool_decide_eq_true_2; [done..|congruence].
  - rewrite (bool_decide_eq_false_2 (tx_type t = type)) by done.
    rewrite andb_false_r. rewrite bool_decide_eq_false_2; [done | congruence].
  - rewrite (bool_decide_eq_false_2 (strftime "%Y-%m" (tx_date t) = Some month)) by done.
    rewrite bool_decide_eq_false_2; [done | congruence].
  - rewrite (bool_decide_eq_false_2 (tx_type t = type)) by done.
    rewrite andb_false_r. rewrite bool_decide_eq_false_2; [done | congruence].
Qed.

Lemma has_month_bucket year month rows :
  has_month (Some month)
    (map summed (grouped (List.filter (in_year strftime year) rows) []))
  = existsb (in_month strftime year month) rows.
Proof.
  apply eq_true_iff_eq. rewrite has_month_true, existsb_exists.
  rewrite total_key_summed.
  destruct (grouped_keys (List.filter (in_year strftime year) rows) [])
    as [_ Hk]; [constructor|].
  split.
  - intros (k & Hin & Hm). apply Hk in Hin as [Hin|Hin]; [by apply elem_of_nil in Hin|].
    apply list_elem_of_In, in_map_iff in Hin as (t & <- & Hin).
    apply filter_In in Hin as [Hin Hy]. exists t. split; [done|].
    unfold in_month. rewrite in_year_spec in Hy. rewrite Hy.
    unfold row_key in Hm. cbn in Hm. by rewrite bool_decide_eq_true_2.
  - intros (t & Hin & Hm). unfold in_month in Hm.
    apply andb_prop in Hm as [Hy Hm]. apply bool_decide_eq_true in Hm.
    exists (row_key strftime t). split.
    + apply Hk. right. apply list_elem_of_In, in_map. apply filter_In.
      split; [done|]. by rewrite in_year_spec.
    + unfold row_key. by rewrite Hm.
Qed.

(** C7 (as the code has it). For every shard whose table exists and
    holds rows of the two types of the schema with whole positive amounts
    whose sum is at most 2^53, with [strftime] answering a month for every
    date it answers a year for: totalIncome is the sum of the amounts of
    type income, totalExpenses the sum of type expense, transactionCount
    the number of rows, netBalance their difference, and monthlyStats maps
    each month that has a row dated in the requested year to the two sums
    of that month and year (a type without rows giving 0) and no other
    key. One income of 500 and one expense of 200 in March 2024 give 500,
    200, 300 and monthlyStats["2024-03"] = {income: 500, expenses: 200}. *)
Theorem stats_totals_and_monthly_buckets f rows year :
  (forall date y, strftime "%Y" date = Some y -> is_Some (strftime "%Y-%m" date)) ->
  transaction_table f = Done rows ->
  (forall t, In t rows -> check_type (tx_type t) = true) ->
  (forall t, In t rows -> exists n, tx_amount t = Int n /\ 0 < n) ->
  sum_amounts rows <= 2 ^ 53 ->
  exists st,
    stats strftime real_sum f year = ok 200 (Stats st) /\
    totalIncome st = Int (sum_amounts (rows_of_type "income" rows)) /\
    totalExpenses st = Int (sum_amounts (rows_of_type "expense" rows)) /\
    transactionCount st = Z.of_nat (length rows) /\
    netBalance st = Int (sum_amounts (rows_of_type "income" rows)
                         - sum_amounts (rows_of_type "expense" rows)) /\
    (forall month,
       monthlyStats st !! month
       = monthly_entry strftime (to_string year) month rows) /\
    (forall t1 t2,
       rows = [t1; t2] -> year = VNum 2024 ->
       tx_type t1 = "income"%string -> tx_amount t1 = Int 500 ->
       tx_type t2 = "expense"%string -> tx_amount t2 = Int 200 ->
       strftime "%Y" (tx_date t1) = Some "2024"%string ->
       strftime "%Y-%m" (tx_date t1) = Some "2024-03"%string ->
       strftime "%Y" (tx_date t2) = Some "2024"%string ->
       strftime "%Y-%m" (tx_date t2) = Some "2024-03"%string ->
       totalIncome st = Int 500 /\ totalExpenses st = Int 200 /\
       netBalance st = Int 300 /\
       monthlyStats st !! "2024-03"%string
       = Some {| income := Int 500; expenses := Int 200 |}).
Proof.
  intros Hnull Ht Hcheck Hwhole Hsum.
  pose proof (sum_amounts_filter (fun t => bool_decide (tx_type t = "income"%string))
                rows Hwhole) as Hinc.
  pose proof (sum_amounts_filter (fun t => bool_decide (tx_type t = "expense"%string))
                rows Hwhole) as Hexp.
  fold (rows_of_type "income" rows) in Hinc.
  fold (rows_of_type "expense" rows) in Hexp.
  assert (forall type t, In t (rows_of_type type rows) -> whole_positive (tx_amount t))
    as Hwhole'.
  { intros type t [Hin _]%filter_In. by apply Hwhole. }
  set (R := List.filter (in_year strftime (to_string year)) rows).
  set (G := group_by_month_type strftime R).
  assert (forall t, In t R -> whole_positive (tx_amount t)) as HwholeR.
  { intros t [Hin _]%filter_In. by apply Hwhole. }
  destruct (grouped_keys R []) as [Hnd Hk]; [constructor|]. fold G in Hnd, Hk.
  assert (Forall (fun g => mg_amounts g <> [] /\ Forall whole_positive (mg_amounts g)) G)
    as HG by (by apply grouped_amounts).
  assert (forall g, In g G -> 0 <= whole_sum (mg_amounts g) <= 2 ^ 53) as Hbound.
  { intros g Hg. split.
    - apply whole_sum_nonneg. rewrite List.Forall_forall in HG. by apply HG.
    - rewrite <- (group_sum_unique G g Hnd Hg). unfold G, group_by_month_type.
      rewrite grouped_sum. cbn [group_sum fold_right]. unfold key_sum.
      pose proof (sum_amounts_filter
                    (fun t => bool_decide (row_key strftime t = group_key g)) R HwholeR).
      pose proof (sum_amounts_filter (in_year strftime (to_string year)) rows Hwhole).
      fold R in H0. lia. }
  assert (monthly_query strftime real_sum (to_string year) rows
          = Done (sort_by by_month (map summed G))) as Hquery.
  { unfold monthly_query. fold R. fold G. rewrite sum_groups_whole; [done|done|].
    intros g Hg. by apply Hbound. }
  assert (forall month,
    fold_left add_month (sort_by by_month (map summed G)) ∅ !! month
    = monthly_entry strftime (to_string year) month rows) as Hmonthly.
  { intros month.
    pose proof (sort_by_perm by_month (map summed G)) as Hperm.
    rewrite monthly_object.
    - rewrite (has_month_perm _ _ _ Hperm), !(total_sum_perm _ _ _ Hperm).
      rewrite !total_sum_summed.
      subst G R. unfold group_by_month_type. rewrite has_month_bucket.
      rewrite !grouped_sum, !key_sum_bucket. unfold monthly_entry.
      destruct (existsb _ rows); [|done]. do 2 f_equal; cbn; f_equal; lia.
    - assert (map total_key (sort_by by_month (map summed G))
              ≡ₚ map total_key (map summed G)) as ->
        by (by apply Permutation_map).
      by rewrite total_key_summed.
    - intros g' Hg'. apply (Permutation_in _ Hperm) in Hg'.
      apply in_map_iff in Hg' as (g & <- & Hg).
      assert (group_key g ∈ map group_key G) as Hin
        by (apply list_elem_of_In; by apply in_map).
      apply Hk in Hin as [Hin|Hin]; [by apply elem_of_nil in Hin|].
      apply list_elem_of_In, in_map_iff in Hin as (t & Hkey & Hin).
      apply filter_In in Hin as [Hin Hy].
      unfold row_key, group_key in Hkey. injection Hkey as Hm Hty.
      cbn [summed mr_month mr_type mr_total whole_total].
      rewrite <- Hm, <- Hty. split; [|split; [|split; [done|by apply Hbound]]].
      + unfold in_year in Hy.
        destruct (strftime "%Y" (tx_date t)) as [y|] eqn:E; [|done].
        by apply (Hnull _ y).
      + specialize (Hcheck t Hin). unfold check_type in Hcheck.
        apply orb_prop in Hcheck as [H|H]; apply String.eqb_eq in H; auto. }
  assert (subtract (Int (sum_amounts (rows_of_type "income" rows)))
            (Int (sum_amounts (rows_of_type "expense" rows)))
          = Int (sum_amounts (rows_of_type "income" rows)
                 - sum_amounts (rows_of_type "expense" rows))) as Hnet.
  { unfold subtract, exact_integer.
    rewrite !(proj2 (Z.leb_le _ _)) by lia. done. }
  eexists. split.
  { unfold stats. rewrite Ht, !of_type_spec.
    rewrite !coalesce_sum_spec by (eauto || lia).
    rewrite Hquery. reflexivity. }
  cbn [totalIncome totalExpenses transactionCount netBalance monthlyStats].
  split; [done|]. split; [done|]. split; [done|]. split; [exact Hnet|].
  split; [exact Hmonthly|].
  intros t1 t2 -> -> Hty1 Ha1 Hty2 Ha2 Hy1 Hm1 Hy2 Hm2.
  rewrite Hmonthly, Hnet.
  unfold rows_of_type, monthly_entry, bucket, in_month, sum_amounts, whole_amount.
  destruct t1, t2. cbn in Hty1, Ha1, Hty2, Ha2, Hy1, Hm1, Hy2, Hm2. subst.
  cbn [List.filter existsb fold_right to_string tx_type tx_date tx_amount].
  rewrite Hy1, Hm1, Hy2, Hm2. by vm_compute.
Qed.

End Builtins.

Lemma stats_totals_and_monthly_buckets_witness :
  let f := Samples.years_file in
  let rows := Route.file_rows f in
  ((forall date y, Samples.iso_strftime "%Y" date = Some y ->
                   is_Some (Samples.iso_strftime "%Y-%m" date)) /\
   transaction_table f = Done rows /\
   (forall t, In t rows -> check_type (tx_type t) = true) /\
   (forall t, In t rows -> exists n, tx_amount t = Int n /\ 0 < n) /\
   sum_amounts rows <= 2 ^ 53) /\
  exists st,
    stats Samples.iso_strftime Samples.plain_sum f (VNum 2024) = ok 200 (Stats st) /\
    totalIncome st = Int 1470 /\ totalExpenses st = Int 230 /\
    transactionCount st = 5 /\ netBalance st = Int 1240 /\
    monthlyStats st !! "2024-03"%string
    = Some {| income := Int 500; expenses := Int 200 |} /\
    monthlyStats st !! "2024-04"%string
    = Some {| income := Int 0; expenses := Int 30 |} /\
    monthlyStats st !! "2023-12"%string = None /\
    monthlyStats st !! "2025-01"%string = None /\
    monthlyStats st !! "2024-05"%string = None.
Proof.
  cbn zeta.
  assert (forall date y, Samples.iso_strftime "%Y" date = Some y ->
                         is_Some (Samples.iso_strftime "%Y-%m" date)) as H1.
  { intros date y. unfold Samples.iso_strftime.
    destruct (Samples.iso_year date); [|done]. cbn. eauto. }
  assert (transaction_table Samples.years_file
          = Done (Route.file_rows Samples.years_file)) as H2
    by (vm_compute; reflexivity).
  assert (forall t, In t (Route.file_rows Samples.years_file) ->
                    check_type (tx_type t) = true) as H3.
  { intros t Hin. vm_compute in Hin.
    destruct Hin as [<-|[<-|[<-|[<-|[<-|[]]]]]]; vm_compute; reflexivity. }
  assert (forall t, In t (Route.file_rows Samples.years_file) ->
                    exists n, tx_amount t = Int n /\ 0 < n) as H4.
  { intros t Hin. vm_compute in Hin.
    destruct Hin as [<-|[<-|[<-|[<-|[<-|[]]]]]]; eexists; (split; [reflexivity | lia]). }
  assert (sum_amounts (Route.file_rows Samples.years_file) <= 2 ^ 53) as H5
    by (vm_compute; discriminate).
  split; [by repeat split|].
  destruct (stats_totals_and_monthly_buckets Samples.iso_strftime Samples.plain_sum
              Samples.years_file _ (VNum 2024) H1 H2 H3 H4 H5)
    as (st & Hst & Hi & He & Hc & Hn & Hm & _).
  exists st. split; [exact Hst|].
  split; [rewrite Hi; vm_compute; reflexivity|].
  split; [rewrite He; vm_compute; reflexivity|].
  split; [rewrite Hc; vm_compute; reflexivity|].
  split; [rewrite Hn; vm_compute; reflexivity|].
  repeat split; rewrite Hm; vm_compute; reflexivity.
Defined.

(** Amounts with a fraction are summed as doubles: two incomes of 0.10
    and 0.20 are answered as 0.30000000000000004, which is not the number
    0.30 stands for, under either way of summing REAL values; and a whole
    total beyond 2^53 is answered as the nearest double: 2^53 and 1 are
    answered as 2^53. *)
Lemma fractional_amounts_are_summed_as_doubles :
  (forall real_sum,
     real_sum = Samples.plain_sum \/ real_sum = Samples.compensated_sum ->
     exists st,
       stats Samples.iso_strftime real_sum Samples.dimes_file (VNum 2024)
       = ok 200 (Stats st) /\
       map tx_amount (Route.file_rows Samples.dimes_file) = [cents 10; cents 20] /\
       totalIncome st = Real (PrimFloat.add (to_double (cents 10)) (to_double (cents 20))) /\
       totalIncome st <> cents 30) /\
  (forall real_sum,
     exists st,
       stats Samples.iso_strftime real_sum Samples.large_file (VNum 2024)
       = ok 200 (Stats st) /\
       map tx_amount (Route.file_rows Samples.large_file) = [Int (2 ^ 53); Int 1] /\
       totalIncome st = Int (2 ^ 53) /\
       totalIncome st <> Int (2 ^ 53 + 1)).
Proof.
  split.
  - intros real_sum [->| ->]; eexists; (split; [vm_compute; reflexivity|]);
      (split; [vm_compute; reflexivity|]);
      (split; [vm_compute; reflexivity|]); vm_compute; intros [= H].
  - intros real_sum. eexists. split; [vm_compute; reflexivity|].
    split; [vm_compute; reflexivity|]. split; [vm_compute; reflexivity|].
    vm_compute. intros [= H].
Qed.

End StatsFacts.

(** ** The registry: eviction and isolation of shards *)

Module RegistryFacts.
Import Js Sqlite Http Query DatabaseManager Route.
Import Names SchemaFacts ManagerFacts RouteFacts.

(** X1. [closeAllConnections] empties the cache and touches neither the
    files nor the console; when the cached handles were constructed
    earlier, the next [getConnection] of any shard answers a handle whose
    identity is none of the evicted ones, and caches it. *)
Theorem closeAllConnections_evicts_every_handle now m u y :
  handles_constructed m ->
  let m' := closeAllConnections m in
  connections m' = ∅ /\ fs m' = fs m /\ console m' = console m /\
  (forall key db, connections m !! key = Some db ->
     h_id (fst (getConnection now m' u y)) <> h_id db) /\
  connections (snd (getConnection now m' u y)) !! shard_key u y
  = Some (fst (getConnection now m' u y)).
Proof.
  intros Hc. cbn zeta. split; [done|]. split; [done|]. split; [done|].
  split; [|apply getConnection_caches].
  intros key db Hdb.
  rewrite (getConnection_uncached now (closeAllConnections m) u y)
    by apply lookup_empty.
  cbn [fst h_id closeAllConnections set_connections constructed].
  specialize (Hc key db Hdb). cbn in Hc. lia.
Qed.

Lemma closeAllConnections_evicts_every_handle_witness :
  let m := Samples.opened_manager in
  let r := getConnection "2024-07-01 00:00:00" (closeAllConnections m) 1 (VNum 2024) in
  handles_constructed m /\
  connections (closeAllConnections m) = ∅ /\
  (forall key db, connections m !! key = Some db -> h_id (fst r) <> h_id db).
Proof.
  cbn zeta.
  assert (handles_constructed Samples.opened_manager) as H.
  { apply (bool_decide_unpack _). vm_compute. exact I. }
  destruct (closeAllConnections_evicts_every_handle "2024-07-01 00:00:00"
              Samples.opened_manager 1 (VNum 2024) H) as (H1 & _ & _ & H2 & _).
  split; [exact H|]. split; [exact H1 | exact H2].
Defined.

(** X2. [closeConnection] evicts the handle of its own shard and nothing
    else: every other cache entry, the files and the console stay; closing
    a shard that is not cached changes nothing, so closing twice is closing
    once. *)
Theorem closeConnection_evicts_only_its_shard m u y :
  let m' := closeConnection m u y in
  connections m' !! shard_key u y = None /\
  (forall key, key <> shard_key u y -> connections m' !! key = connections m !! key) /\
  fs m' = fs m /\ console m' = console m /\ constructed m' = constructed m /\
  (connections m !! shard_key u y = None -> m' = m) /\
  closeConnection m' u y = m'.
Proof.
  cbn zeta. destruct (closeConnection_fields m u y) as (H1 & H2 & _ & H3 & H4).
  split; [done|]. split; [|split; [done|split; [done|split; [done|split]]]].
  - intros key Hne. unfold closeConnection.
    destruct (connections m !! shard_key u y); [|done].
    cbn [set_connections connections]. by rewrite lookup_delete_ne.
  - intros E. unfold closeConnection. by rewrite E.
  - unfold closeConnection at 1. by rewrite H1.
Qed.

(** X3. For a year whose text has no path separator, opening the
    connection of its shard leaves every other shard alone: every other
    path of the directory keeps its content, every other cache entry
    keeps its handle, and no path gains or loses a transaction row. A
    shard is another shard when the tenant or the text of the year
    differs; its year, too, is one without a path separator. *)
Theorem getConnection_touches_only_its_shard now m u y :
  Years.has_separator (to_string y) = false ->
  let m' := snd (getConnection now m u y) in
  (forall name, name <> dbFile m u y -> fs m' !! name = fs m !! name) /\
  (forall key, key <> shard_key u y -> connections m' !! key = connections m !! key) /\
  (forall name, rows_at m' name = rows_at m name) /\
  (forall u' y',
     Years.has_separator (to_string y') = false ->
     (u' <> u \/ to_string y' <> to_string y) ->
     fs m' !! dbFile m u' y' = fs m !! dbFile m u' y' /\
     connections m' !! shard_key u' y' = connections m !! shard_key u' y').
Proof.
  intros _. cbn zeta.
  assert (forall key, key <> shard_key u y ->
            connections (snd (getConnection now m u y)) !! key = connections m !! key)
    as Hkeys.
  { intros key Hne.
    destruct (connections m !! shard_key u y) as [db|] eqn:E.
    - by rewrite (getConnection_cached now m u y db E).
    - rewrite (getConnection_uncached now m u y E). cbn [snd].
      destruct (exec_schema now _); cbn [connections]; by rewrite lookup_insert_ne. }
  split; [intros name; apply getConnection_fs_other|].
  split; [exact Hkeys|]. split; [intros name; apply getConnection_rows|].
  intros u' y' _ Hne. split.
  - apply getConnection_fs_other. intros [? ?]%dbFile_inj. tauto.
  - apply Hkeys. intros [? ?]%shard_key_inj. tauto.
Qed.

Lemma getConnection_touches_only_its_shard_witness :
  let m := Samples.opened_manager in
  let m' := snd (getConnection "2025-01-01 00:00:00" m 2 (VStr "2025")) in
  fs m' !! dbFile m 1 (VNum 2024) = fs m !! dbFile m 1 (VNum 2024) /\
  connections m' !! shard_key 1 (VNum 2024) = connections m !! shard_key 1 (VNum 2024).
Proof.
  destruct (getConnection_touches_only_its_shard "2025-01-01 00:00:00"
              Samples.opened_manager 2 (VStr "2025") eq_refl) as (_ & _ & _ & H).
  apply (H 1 (VNum 2024)); [reflexivity | left; discriminate].
Defined.

(** X4. Two shards share a cache key exactly when the tenant is the
    same and the years print the same (the number 2024 and the query text
    "2024" are one shard). For years whose text has no path separator,
    they share a file exactly then, too. *)
Theorem shards_coincide_iff_same_tenant_and_year m u y u' y' :
  (shard_key u y = shard_key u' y' <-> u = u' /\ to_string y = to_string y') /\
  (Years.has_separator (to_string y) = false ->
   Years.has_separator (to_string y') = false ->
   (dbFile m u y = dbFile m u' y' <-> u = u' /\ to_string y = to_string y')) /\
  (forall n, shard_key u (VStr (show_Z n)) = shard_key u (VNum n) /\
             dbFile m u (VStr (show_Z n)) = dbFile m u (VNum n)) /\
  (forall n n', dbFile m u (VNum n) = dbFile m u' (VNum n') <-> u = u' /\ n = n').
Proof.
  split; [|split; [|split]].
  - split; [apply shard_key_inj|]. intros [-> H]. unfold shard_key. by rewrite H.
  - intros _ _. split; [apply dbFile_inj|]. intros [-> H].
    unfold dbFile, getDbFileName. by rewrite H.
  - intros n. done.
  - intros n n'. split.
    + intros [-> H]%dbFile_inj. cbn [to_string] in H. by apply show_Z_inj in H as ->.
    + by intros [-> ->].
Qed.

Lemma shards_coincide_iff_same_tenant_and_year_witness :
  dbFile Samples.empty_manager 1 (VStr "2024") = dbFile Samples.empty_manager 1 (VNum 2024)
  /\ dbFile Samples.empty_manager 1 (VStr "2024")
     <> dbFile Samples.empty_manager 1 (VStr "02024").
Proof.
  destruct (shards_coincide_iff_same_tenant_and_year Samples.empty_manager
              1 (VStr "2024") 1 (VStr "02024")) as (_ & H & H' & _).
  split; [apply (H' 2024)|].
  intros E. apply (H eq_refl eq_refl) in E as [_ E]. discriminate E.
Defined.

Lemma find_category_app_none (rows extra : list category_row) (id : Z) :
  find_category (rows ++ extra) id = None -> find_category rows id = None.
Proof.
  unfold find_category. induction rows as [|r rows IH]; simpl; [done|].
  destruct (cat_id r =? id); [done | auto].
Qed.

(** What the seed statement appends to a table. *)
Lemma seeds_append now (l : list (Z * string * string)) rows :
  exists added,
    fold_left (insert_or_ignore now) l rows = rows ++ added /\
    (forall c, In c added ->
       cat_is_default c = 1 /\ find_category rows (cat_id c) = None /\
       In (cat_id c, cat_name c, cat_type c) l) /\
    ((forall v, In v l -> is_Some (find_category rows v.1.1)) -> added = []).
Proof.
  revert rows. induction l as [|v l IH]; intros rows; cbn [fold_left].
  { exists []. rewrite app_nil_r. split; [done|]. split; [by intros c []|done]. }
  destruct v as [[i n] t]. unfold insert_or_ignore at 2.
  destruct (find_category rows i) as [c0|] eqn:E.
  - destruct (IH rows) as (added & H1 & H2 & H3).
    exists added. split; [done|]. split.
    + intros c Hc. destruct (H2 c Hc) as (? & ? & ?). repeat split; [done..|by right].
    + intros Hall. apply H3. intros v Hv. apply Hall. by right.
  - set (r := {| cat_id := i; cat_name := n; cat_type := t; cat_is_default := 1;
                 cat_created_at := now; cat_updated_at := now |}).
    destruct (IH (rows ++ [r])) as (added & H1 & H2 & H3).
    exists (r :: added). split; [by rewrite H1, <- app_assoc|]. split.
    + intros c [<-|Hc].
      * repeat split; [done | by left].
      * destruct (H2 c Hc) as (? & Hn & ?).
        repeat split; [done | by apply find_category_app_none in Hn | by right].
    + intros Hall. destruct (Hall (i, n, t)) as [c Hc]; [by left|].
      cbn in Hc. congruence.
Qed.

(** X5. The bootstrap never rewrites what a shard already holds: the
    category rows that were there stay as they are and in place (a renamed
    default category keeps its new name), only default rows whose id was
    missing are appended, nothing is appended when the fourteen ids are all
    present, and the transaction rows are untouched. *)
Theorem bootstrap_keeps_existing_rows now d rows :
  categories d = Some rows ->
  exists d' added,
    exec_schema now (Db d) = Done d' /\
    categories d' = Some (rows ++ added) /\
    (forall c, In c added ->
       cat_is_default c = 1 /\ find_category rows (cat_id c) = None /\
       In (cat_id c, cat_name c, cat_type c) default_categories) /\
    ((forall v, In v default_categories -> is_Some (find_category rows v.1.1)) ->
     added = []) /\
    (forall id c, find_category rows id = Some c ->
                  find_category (rows ++ added) id = Some c) /\
    transactions d' = Some (default [] (transactions d)).
Proof.
  intros Hc.
  destruct (exec_schema_eq now d) as (d' & E & Hc' & Ht & _).
  destruct (seeds_append now default_categories rows) as (added & H1 & H2 & H3).
  exists d', added. split; [done|].
  split; [by rewrite Hc', (seeded_rows_of now d rows Hc), H1|].
  split; [done|]. split; [done|]. split; [|done].
  intros id c. apply find_category_app_found.
Qed.

Lemma bootstrap_keeps_existing_rows_witness :
  let d := Samples.renamed_database in
  let rows := default [] (categories d) in
  categories d = Some rows /\
  exists d',
    exec_schema "2025-01-01 00:00:00" (Db d) = Done d' /\
    categories d' = Some rows /\
    option_map cat_name (find_category rows 9) = Some "Groceries"%string.
Proof.
  cbn zeta.
  assert (categories Samples.renamed_database
          = Some (default [] (categories Samples.renamed_database))) as Hc
    by (vm_compute; reflexivity).
  split; [exact Hc|].
  destruct (bootstrap_keeps_existing_rows "2025-01-01 00:00:00"
              Samples.renamed_database _ Hc) as (d' & added & H1 & H2 & _ & H3 & _).
  exists d'. split; [exact H1|]. split; [|vm_compute; reflexivity].
  rewrite H2, H3; [by rewrite app_nil_r|].
  intros v Hv. vm_compute in Hv.
  repeat (destruct Hv as [<-|Hv]; [vm_compute; eauto|]). destruct Hv.
Defined.

End RegistryFacts.

(** ** The category ledger: create, list, rename *)

Module CategoryLedgerFacts.
Import Js Sqlite Http Query Categories CategoryOrder Route.
Import SortFacts ListFacts SchemaFacts CategoryFacts.

Lemma max_id_bound {A} (id : A -> Z) (rows : list A) (x : A) :
  In x rows -> id x <= max_id id rows.
Proof.
  induction rows as [|r rows IH]; [done|].
  intros [->|H]; simpl; [lia|]. specialize (IH H). lia.
Qed.

Lemma max_id_nonneg {A} (id : A -> Z) (rows : list A) : 0 <= max_id id rows.
Proof. induction rows as [|r rows IH]; simpl; lia. Qed.

Lemma find_category_above rows id :
  max_id cat_id rows < id -> find_category rows id = None.
Proof.
  intros H. destruct (find_category rows id) as [c|] eqn:E; [|done].
  pose proof (find_category_id _ _ _ E). apply find_category_In in E.
  apply (max_id_bound cat_id) in E. lia.
Qed.

(** X6. Creating a category: a missing or empty name or type is answered
    400 and a type that is neither income nor expense is answered 400, the
    file staying as it was; otherwise the answer is 201 with the row as
    stored: the given name and type, isDefault false, both timestamps the
    time of the insert, and an id larger than every id of the table and
    than every id ever assigned. The row is appended, the rows that were
    there stay, and the transactions are untouched. *)
Theorem create_category_validates_then_appends now d rows name type :
  categories d = Some rows ->
  ((name = None \/ name = Some ""%string \/ type = None \/ type = Some ""%string) ->
   create_category now (Db d) name type
   = (failure 400 "Name and type are required", Db d)) /\
  (forall n t, name = Some n -> type = Some t ->
     n <> ""%string -> t <> ""%string ->
     t <> "income"%string -> t <> "expense"%string ->
     create_category now (Db d) name type
     = (failure 400 "Type must be income or expense", Db d)) /\
  (forall n t, name = Some n -> type = Some t ->
     n <> ""%string -> (t = "income"%string \/ t = "expense"%string) ->
     let id := next_id cat_id rows (seq_categories d) in
     let row := {| cat_id := id; cat_name := n; cat_type := t; cat_is_default := 0;
                   cat_created_at := now; cat_updated_at := now |} in
     create_category now (Db d) name type
     = (ok 201 (Category {| cj_id := id; cj_name := n; cj_type := t;
                            cj_isDefault := false;
                            cj_createdAt := now; cj_updatedAt := now |}),
        Db (with_categories d (rows ++ [row]) id)) /\
     (forall c, In c rows -> cat_id c < id) /\ seq_categories d < id /\ 0 < id /\
     (forall id' c, find_category rows id' = Some c ->
                    find_category (rows ++ [row]) id' = Some c)).
Proof.
  intros Hc. split; [|split].
  - intros H. unfold create_category.
    assert (negb (truthy_str name) || negb (truthy_str type) = true) as ->; [|done].
    destruct H as [-> | [-> | [-> | ->]]]; cbn; rewrite ?orb_true_r; done.
  - intros n t -> -> Hn Ht H1 H2. unfold create_category, truthy_str.
    destruct (String.eqb_spec n ""), (String.eqb_spec t ""); try done.
    cbn [negb orb from_option]. unfold Datatypes.id.
    by rewrite (TransactionFacts.check_type_false t H1 H2).
  - intros n t -> -> Hn Ht. cbn zeta.
    set (id := next_id cat_id rows (seq_categories d)).
    assert (max_id cat_id rows < id /\ seq_categories d < id) as [Hmax Hseq]
      by (unfold id, next_id; lia).
    assert (check_type t = true) as Hty by (by destruct Ht as [->| ->]).
    assert (t <> ""%string) as Ht' by (by destruct Ht as [->| ->]).
    split; [|split; [|split; [done|split]]].
    + unfold create_category, truthy_str.
      destruct (String.eqb_spec n ""), (String.eqb_spec t ""); try done.
      cbn [negb orb from_option]. unfold Datatypes.id. rewrite Hty. cbn [negb].
      unfold insert_category. rewrite Hc, Hty. fold id.
      unfold get_category, category_table. cbn [with_categories categories].
      pose proof (find_category_app_new rows
                 {| cat_id := id; cat_name := n; cat_type := t; cat_is_default := 0;
                    cat_created_at := now; cat_updated_at := now |}
                 (find_category_above rows id Hmax)) as Hfind.
      cbn [cat_id] in Hfind. rewrite Hfind. reflexivity.
    + intros c Hin. apply (max_id_bound cat_id) in Hin. lia.
    + pose proof (max_id_nonneg cat_id rows). lia.
    + intros id' c. apply find_category_app_found.
Qed.

Lemma create_category_validates_then_appends_witness :
  let d := Samples.seeded_database in
  let rows := default [] (categories d) in
  categories d = Some rows /\
  fst (create_category "2024-02-01 09:00:00" (Db d) (Some "Gifts") (Some "income"))
  = ok 201 (Category {| cj_id := 15; cj_name := "Gifts"; cj_type := "income";
                        cj_isDefault := false;
                        cj_createdAt := "2024-02-01 09:00:00";
                        cj_updatedAt := "2024-02-01 09:00:00" |}) /\
  create_category "2024-02-01 09:00:00" (Db d) (Some "Gifts") (Some "savings")
  = (failure 400 "Type must be income or expense", Db d).
Proof.
  cbn zeta.
  assert (categories Samples.seeded_database
          = Some (default [] (categories Samples.seeded_database))) as Hc
    by (vm_compute; reflexivity).
  destruct (create_category_validates_then_appends "2024-02-01 09:00:00"
              Samples.seeded_database _ (Some "Gifts"%string) (Some "income"%string) Hc)
    as (_ & _ & Hok).
  destruct (create_category_validates_then_appends "2024-02-01 09:00:00"
              Samples.seeded_database _ (Some "Gifts"%string) (Some "savings"%string) Hc)
    as (_ & Hbad & _).
  split; [exact Hc|]. split.
  - destruct (Hok "Gifts"%string "income"%string eq_refl eq_refl) as (H & _);
      [discriminate | by left |].
    rewrite H. vm_compute. reflexivity.
  - apply (Hbad "Gifts"%string "savings"%string eq_refl eq_refl); discriminate.
Defined.

Lemma text_compare_lt_trans a b c :
  text_compare a b = Lt -> text_compare b c = Lt -> text_compare a c = Lt.
Proof.
  intros Hab Hbc.
  assert (text_compare c a = Gt) as H.
  { apply (text_compare_gt_trans c b a).
    - by rewrite text_compare_antisym, Hbc.
    - by rewrite text_compare_antisym, Hab. }
  by rewrite text_compare_antisym, H.
Qed.

Lemma text_compare_le_trans a b c :
  text_compare a b <> Gt -> text_compare b c <> Gt -> text_compare a c <> Gt.
Proof.
  intros Hab Hbc.
  destruct (text_compare a b) eqn:E1; [|clear Hab|done].
  { apply text_compare_eq in E1. by subst. }
  destruct (text_compare b c) eqn:E2; [|clear Hbc|done].
  { apply text_compare_eq in E2. subst. by rewrite E1. }
  by rewrite (text_compare_lt_trans a b c E1 E2).
Qed.

Lemma by_type_name_spec a b : by_type_name a b = true <-> type_then_name a b.
Proof.
  unfold by_type_name, type_then_name.
  destruct (text_compare (cat_type a) (cat_type b)) eqn:E.
  - apply text_compare_eq in E.
    destruct (text_compare (cat_name a) (cat_name b)); split; try done;
      try (intros _; right; by split); by intros [?|[_ ?]].
  - split; [by left | done].
  - split; [done | intros [?|[H _]]; [done|]].
    rewrite H, text_compare_refl in E. discriminate E.
Qed.

Lemma by_type_name_total a b : by_type_name a b = true \/ by_type_name b a = true.
Proof.
  unfold by_type_name.
  rewrite (text_compare_antisym (cat_type b) (cat_type a)).
  rewrite (text_compare_antisym (cat_name b) (cat_name a)).
  destruct (text_compare (cat_type a) (cat_type b)); cbn; auto.
  destruct (text_compare (cat_name a) (cat_name b)); cbn; auto.
Qed.

Lemma type_then_name_trans : Transitive type_then_name.
Proof.
  intros a b c [Hab|[Hab Hn]] [Hbc|[Hbc Hm]]; unfold type_then_name.
  - left. by apply (text_compare_lt_trans _ (cat_type b)).
  - left. by rewrite <- Hbc.
  - left. by rewrite Hab.
  - right. split; [congruence|]. by apply (text_compare_le_trans _ (cat_name b)).
Qed.

Lemma StronglySorted_suffix {A} (R : A -> A -> Prop) (l1 l2 : list A) :
  StronglySorted R (l1 ++ l2) -> StronglySorted R l2.
Proof.
  induction l1 as [|x l1 IH]; [done|]. simpl.
  intros H. apply StronglySorted_inv in H as [H _]. by apply IH.
Qed.

(** X7. The category list answers every row of the table exactly once,
    as JSON, ordered by (type, name) ascending in byte order: all expense
    categories come before all income categories. *)
Theorem list_categories_is_ordered f rows :
  category_table f = Done rows ->
  exists sorted,
    list_categories f = ok 200 (Http.Categories (map category_json_of sorted)) /\
    Permutation sorted rows /\
    StronglySorted type_then_name sorted /\
    (forall a b before between after,
       sorted = before ++ a :: between ++ b :: after ->
       cat_type a = "income"%string -> cat_type b <> "expense"%string).
Proof.
  intros Ht. exists (sort_by by_type_name rows).
  assert (StronglySorted type_then_name (sort_by by_type_name rows)) as Hs.
  { apply Sorted_StronglySorted; [apply type_then_name_trans|].
    apply (Sorted_impl (fun a b => by_type_name a b = true)).
    - intros a b. apply by_type_name_spec.
    - apply sort_by_sorted. apply by_type_name_total. }
  split; [unfold list_categories; by rewrite Ht|].
  split; [apply sort_by_perm|]. split; [exact Hs|].
  intros a b before between after E Ha Hb. rewrite E in Hs.
  apply StronglySorted_suffix in Hs.
  apply StronglySorted_inv in Hs as [_ Hall].
  rewrite List.Forall_forall in Hall.
  specialize (Hall b ltac:(apply in_or_app; right; by left)).
  destruct Hall as [H|[H _]]; rewrite Ha, Hb in H; [by vm_compute in H | done].
Qed.

Lemma list_categories_is_ordered_witness :
  let f := Samples.ledger_file in
  let rows := default [] (categories Samples.ledger_database) in
  category_table f = Done rows /\
  exists sorted,
    list_categories f = ok 200 (Http.Categories (map category_json_of sorted)) /\
    length sorted = 15%nat /\
    StronglySorted type_then_name sorted.
Proof.
  cbn zeta.
  assert (category_table Samples.ledger_file
          = Done (default [] (categories Samples.ledger_database))) as H
    by (vm_compute; reflexivity).
  split; [exact H|].
  destruct (list_categories_is_ordered _ _ H) as (sorted & H1 & H2 & H3 & _).
  exists sorted. split; [exact H1|]. split; [|exact H3].
  rewrite (Permutation_length H2). vm_compute. reflexivity.
Defined.

(** X8. Renaming refuses a missing or empty name with 400 and an id that
    is not in the table with 404, and in both cases the file is left
    exactly as it was. *)
Theorem rename_category_refusals now d rows id name :
  categories d = Some rows ->
  ((name = None \/ name = Some ""%string) ->
   rename_category now (Db d) id name = (failure 400 "Name is required", Db d)) /\
  (forall n, name = Some n -> n <> ""%string -> find_category rows id = None ->
     rename_category now (Db d) id name = (failure 404 "Category not found", Db d)).
Proof.
  intros Hc. split.
  - intros [-> | ->]; reflexivity.
  - intros n -> Hn Hfind. unfold rename_category, truthy_str.
    destruct (String.eqb_spec n ""); [done|]. cbn [negb from_option].
    unfold update_category_name. rewrite Hc.
    assert (forall c, In c rows -> (cat_id c =? id) = false) as Hno.
    { intros c Hin. destruct (Z.eqb_spec (cat_id c) id) as [E|]; [|done].
      unfold find_category in Hfind.
      pose proof (find_none _ _ Hfind c Hin) as H. cbn in H.
      apply Z.eqb_neq in H. done. }
    assert (List.filter (fun c => cat_id c =? id) rows = []) as ->.
    { clear Hc Hfind. induction rows as [|r rows IH]; [done|]. simpl.
      rewrite (Hno r) by (by left). apply IH. intros c Hin. apply Hno. by right. }
    assert (map (rename_row now (Datatypes.id n) id) rows = rows) as ->.
    { clear Hc Hfind. induction rows as [|r rows IH]; [done|]. simpl.
      unfold rename_row at 1. rewrite (Hno r) by (by left). f_equal.
      apply IH. intros c Hin. apply Hno. by right. }
    cbn [length Z.of_nat Z.eqb]. do 2 f_equal.
    apply database_eq; by rewrite ?Hc.
Qed.

Lemma rename_category_refusals_witness :
  let d := Samples.seeded_database in
  let rows := default [] (categories d) in
  (categories d = Some rows /\ find_category rows 40 = None) /\
  rename_category "2024-05-05 10:00:00" (Db d) 40 (Some "Groceries")
  = (failure 404 "Category not found", Db d).
Proof.
  cbn zeta.
  assert (categories Samples.seeded_database
          = Some (default [] (categories Samples.seeded_database))) as Hc
    by (vm_compute; reflexivity).
  assert (find_category (default [] (categories Samples.seeded_database)) 40 = None)
    as Hf by (vm_compute; reflexivity).
  split; [by split|].
  destruct (rename_category_refusals "2024-05-05 10:00:00" Samples.seeded_database
              _ 40 (Some "Groceries"%string) Hc) as [_ H].
  apply (H "Groceries"%string eq_refl); [discriminate | exact Hf].
Defined.

End CategoryLedgerFacts.

(** ** The transaction ledger: answers, ids, update and delete *)

Module TransactionLedgerFacts.
Import Js Sqlite Http Query DatabaseManager Route Transactions.
Import SchemaFacts CategoryFacts CategoryLedgerFacts TransactionFacts.

Lemma find_joined_new cats rows row :
  max_id tx_id rows < tx_id row ->
  List.find (fun r : joined_row => tx_id (fst r) =? tx_id row)
    (map (left_join cats) (rows ++ [row]))
  = Some (left_join cats row).
Proof.
  intros Hmax. induction rows as [|t rows IH]; simpl.
  - by rewrite Z.eqb_refl.
  - simpl in Hmax. destruct (Z.eqb_spec (tx_id t) (tx_id row)); [lia|].
    apply IH. lia.
Qed.

Lemma get_joined_new d seq cats rows row :
  categories d = Some cats ->
  max_id tx_id rows < tx_id row ->
  get_joined (Db (with_transactions d (rows ++ [row]) seq)) (tx_id row)
  = Done (Some (left_join cats row)).
Proof.
  intros Hc Hmax. unfold get_joined, select_joined, transaction_table, category_table.
  cbn [with_transactions transactions categories]. rewrite Hc. f_equal.
  by apply find_joined_new.
Qed.

Lemma filter_id_above rows id :
  max_id tx_id rows < id ->
  List.filter (fun t => negb (tx_id t =? id)) rows = rows /\
  List.filter (fun t => tx_id t =? id) rows = [].
Proof.
  induction rows as [|t rows IH]; simpl; [done|]. intros H.
  destruct (Z.eqb_spec (tx_id t) id); [lia|]. cbn [negb].
  destruct IH as [-> ->]; [lia | done].
Qed.

(** What the statements of POST / answer and leave in a shard whose
    tables exist, for a type of the schema and a category that resolves. *)
Lemma create_in_shard_appends now d rows cats c amount date type categoryId description :
  transactions d = Some rows ->
  categories d = Some cats ->
  find_category cats categoryId = Some c ->
  check_type type = true ->
  let id := next_id tx_id rows (seq_transactions d) in
  let row := {| tx_id := id; tx_amount := amount; tx_date := date; tx_type := type;
                tx_category_id := categoryId; tx_description := description;
                tx_created_at := now; tx_updated_at := now |} in
  create_in_shard now (Db d) amount date type categoryId description
  = (ok 201 (Transaction
               {| tj_id := id; tj_amount := amount; tj_date := date; tj_type := type;
                  tj_categoryId := categoryId; tj_categoryName := Some (cat_name c);
                  tj_description := description;
                  tj_createdAt := now; tj_updatedAt := now |}),
     Db (with_transactions d (rows ++ [row]) id)) /\
  (forall t, In t rows -> tx_id t < id) /\ seq_transactions d < id.
Proof.
  intros Ht Hc Hfind Hty. cbn zeta.
  set (id := next_id tx_id rows (seq_transactions d)).
  assert (max_id tx_id rows < id /\ seq_transactions d < id) as [Hmax Hseq]
    by (unfold id, next_id; lia).
  split; [|split; [|done]].
  - unfold create_in_shard, get_category, category_table. rewrite Hc, Hfind.
    unfold insert_transaction. rewrite Ht, Hty. fold id.
    pose proof (get_joined_new d id cats rows
      {| tx_id := id; tx_amount := amount; tx_date := date; tx_type := type;
         tx_category_id := categoryId; tx_description := description;
         tx_created_at := now; tx_updated_at := now |} Hc Hmax) as Hj.
    cbn [tx_id] in Hj. rewrite Hj.
    unfold transaction_json_of, left_join. cbn. by rewrite Hfind.
  - intros t Hin. apply (max_id_bound tx_id) in Hin. lia.
Qed.



(** X10. Ids are never handed out twice: when the transaction just
    created is deleted, the table holds the rows it held before the
    create, the deleted id no longer resolves, and the next create is
    answered under the following id, not under the freed one. *)
Theorem deleted_transaction_id_is_not_reused
    now now' d rows cats c amount date type categoryId description
    amount' date' description' :
  transactions d = Some rows ->
  categories d = Some cats ->
  find_category cats categoryId = Some c ->
  check_type type = true ->
  let id := next_id tx_id rows (seq_transactions d) in
  let f1 := snd (create_in_shard now (Db d) amount date type categoryId description) in
  let f2 := snd (delete_transaction f1 id) in
  let r3 := create_in_shard now' f2 amount' date' type categoryId description' in
  fst (delete_transaction f1 id) = ok 200 (Message "Transaction deleted successfully") /\
  transaction_table f2 = Done rows /\
  get_joined f2 id = Done None /\
  exists j, fst r3 = ok 201 (Transaction j) /\ tj_id j = id + 1.
Proof.
  intros Ht Hc Hfind Hty. cbn zeta.
  set (id := next_id tx_id rows (seq_transactions d)).
  assert (max_id tx_id rows < id /\ seq_transactions d < id) as [Hmax Hseq]
    by (unfold id, next_id; lia).
  destruct (create_in_shard_appends now d rows cats c amount date type categoryId
              description Ht Hc Hfind Hty) as [-> _]. fold id. cbn [snd].
  destruct (filter_id_above rows id Hmax) as [Hkeep Hnone].
  assert (delete_transaction
            (Db (with_transactions d
                   (rows ++ [{| tx_id := id; tx_amount := amount; tx_date := date;
                                tx_type := type; tx_category_id := categoryId;
                                tx_description := description;
                                tx_created_at := now; tx_updated_at := now |}]) id)) id
          = (ok 200 (Message "Transaction deleted successfully"),
             Db (with_transactions d rows id))) as ->.
  { unfold delete_transaction. cbn [with_transactions transactions seq_transactions].
    rewrite !List.filter_app, Hkeep, Hnone. cbn [List.filter tx_id].
    rewrite Z.eqb_refl. cbn [negb app length Z.of_nat Z.eqb]. by rewrite app_nil_r. }
  cbn [fst snd]. split; [done|]. split; [done|]. split.
  - unfold get_joined, select_joined, transaction_table, category_table.
    cbn [with_transactions transactions categories]. rewrite Hc. f_equal.
    destruct (List.find _ _) as [j|] eqn:Ej; [|done].
    apply find_some in Ej as [(t & <- & Hin)%in_map_iff Hid].
    cbn [left_join fst] in Hid. apply Z.eqb_eq in Hid.
    apply (max_id_bound tx_id) in Hin. lia.
  - destruct (create_in_shard_appends now' (with_transactions d rows id) rows cats c
                amount' date' type categoryId description')
      as [-> _]; [done..|].
    eexists. split; [reflexivity|]. cbn [tj_id with_transactions seq_transactions].
    unfold next_id. lia.
Qed.

Lemma deleted_transaction_id_is_not_reused_witness :
  let d := Samples.seeded_database in
  let f1 := snd (create_in_shard "2024-03-15 18:30:00" (Db d) 100 "2024-03-15"
                   "expense" 9 "lunch") in
  let f2 := snd (delete_transaction f1 1) in
  (transactions d = Some [] /\ check_type "expense" = true) /\
  exists j, fst (create_in_shard "2024-03-16 09:00:00" f2 40 "2024-03-16"
                   "expense" 9 "tea") = ok 201 (Transaction j) /\ tj_id j = 2.
Proof.
  cbn zeta.
  assert (transactions Samples.seeded_database = Some []) as Ht
    by (vm_compute; reflexivity).
  assert (categories Samples.seeded_database
          = Some (default [] (categories Samples.seeded_database))) as Hc
    by (vm_compute; reflexivity).
  destruct (find_category (default [] (categories Samples.seeded_database)) 9)
    as [c|] eqn:E; [|vm_compute in E; discriminate E].
  split; [by split|].
  destruct (deleted_transaction_id_is_not_reused
              "2024-03-15 18:30:00" "2024-03-16 09:00:00" Samples.seeded_database
              [] _ c 100 "2024-03-15" "expense" 9 "lunch" 40 "2024-03-16" "tea"
              Ht Hc E eq_refl) as (_ & _ & _ & j & Hj & Hid).
  exists j. split; [exact Hj | exact Hid].
Defined.

Lemma no_row_with_id rows id :
  (forall t, In t rows -> tx_id t <> id) ->
  List.filter (fun t => tx_id t =? id) rows = [] /\
  List.filter (fun t => negb (tx_id t =? id)) rows = rows /\
  forall now amount date type categoryId description,
    map (update_row now amount date type categoryId description id) rows = rows.
Proof.
  induction rows as [|t rows IH]; intros H; [done|].
  destruct IH as (H1 & H2 & H3); [intros t' Ht'; apply H; by right|].
  assert ((tx_id t =? id) = false) as E.
  { apply Z.eqb_neq, H. by left. }
  simpl. rewrite E, H1, H2. cbn [negb]. split; [done|]. split; [done|].
  intros. unfold update_row at 1. by rewrite E, H3.
Qed.

Lemma with_transactions_same d rows :
  transactions d = Some rows -> with_transactions d rows (seq_transactions d) = d.
Proof. intros H. apply database_eq; by rewrite ?H. Qed.

Lemma find_joined_updated cats rows now amount date type categoryId description id :
  List.find (fun r : joined_row => tx_id (fst r) =? id)
    (map (left_join cats)
       (map (update_row now amount date type categoryId description id) rows))
  = option_map
      (fun t => left_join cats
                  (update_row now amount date type categoryId description id t))
      (List.find (fun t => tx_id t =? id) rows).
Proof.
  induction rows as [|t rows IH]; [done|]. simpl.
  assert (tx_id (update_row now amount date type categoryId description id t)
          = tx_id t) as ->.
  { unfold update_row. by destruct (tx_id t =? id). }
  destruct (tx_id t =? id); [done | apply IH].
Qed.

Lemma find_counts rows id t0 :
  List.find (fun t => tx_id t =? id) rows = Some t0 ->
  tx_id t0 = id /\ In t0 rows /\
  (Z.of_nat (length (List.filter (fun t => tx_id t =? id) rows)) =? 0) = false.
Proof.
  intros H. apply find_some in H as [Hin Hid].
  split; [by apply Z.eqb_eq|]. split; [done|].
  assert (In t0 (List.filter (fun t => tx_id t =? id) rows)) as H
    by (by apply filter_In).
  destruct (List.filter _ rows); [destruct H | done].
Qed.

(** What the statements of PUT /:id answer in a shard whose tables
    exist and where the category resolves. *)
Lemma update_in_shard_answers now d rows cats c id amount date type categoryId
    description :
  transactions d = Some rows ->
  categories d = Some cats ->
  find_category cats categoryId = Some c ->
  ((forall t, In t rows -> tx_id t <> id) ->
   update_in_shard now (Db d) id amount date type categoryId description
   = (failure 404 "Transaction not found", Db d)) /\
  (forall t0, List.find (fun t => tx_id t =? id) rows = Some t0 ->
     check_type type = false ->
     update_in_shard now (Db d) id amount date type categoryId description
     = (failure 500 "Failed to update transaction", Db d)) /\
  (forall t0, List.find (fun t => tx_id t =? id) rows = Some t0 ->
     check_type type = true ->
     exists d' rows',
       update_in_shard now (Db d) id amount date type categoryId description
       = (ok 200 (Transaction
                    {| tj_id := id; tj_amount := amount; tj_date := date;
                       tj_type := type; tj_categoryId := categoryId;
                       tj_categoryName := Some (cat_name c);
                       tj_description := description;
                       tj_createdAt := tx_created_at t0; tj_updatedAt := now |}),
          Db d') /\
       transactions d' = Some rows' /\ length rows' = length rows /\
       (forall t, In t rows -> tx_id t <> id -> In t rows') /\
       categories d' = Some cats /\ seq_transactions d' = seq_transactions d).
Proof.
  intros Ht Hc Hfind. split; [|split].
  - intros Hno. destruct (no_row_with_id rows id Hno) as (H1 & _ & H3).
    unfold update_in_shard, get_category, category_table. rewrite Hc, Hfind.
    unfold update_transaction_row. rewrite Ht, H1, H3. cbn.
    by rewrite (with_transactions_same d rows Ht).
  - intros t0 Hf Hty. destruct (find_counts rows id t0 Hf) as (_ & _ & Hz).
    unfold update_in_shard, get_category, category_table. rewrite Hc, Hfind.
    unfold update_transaction_row. by rewrite Ht, Hz, Hty.
  - intros t0 Hf Hty. destruct (find_counts rows id t0 Hf) as (Hid & Hin & Hz).
    unfold update_in_shard, get_category, category_table. rewrite Hc, Hfind.
    unfold update_transaction_row. rewrite Ht, Hz, Hty. cbn [orb]. rewrite Hz.
    unfold get_joined, select_joined, transaction_table, category_table.
    cbn [with_transactions transactions categories]. rewrite Hc.
    rewrite find_joined_updated, Hf. cbn [option_map].
    exists (with_transactions d
              (map (update_row now amount date type categoryId description id) rows)
              (seq_transactions d)),
      (map (update_row now amount date type categoryId description id) rows).
    split.
    + unfold transaction_json_of, left_join, update_row.
      rewrite (proj2 (Z.eqb_eq _ _) Hid). cbn [fst snd tx_id tx_amount tx_date tx_type
        tx_category_id tx_description tx_created_at tx_updated_at].
      rewrite Hfind, Hid. reflexivity.
    + cbn [with_transactions transactions categories seq_transactions].
      split; [reflexivity|]. split; [by rewrite length_map|].
      split; [|by split].
      intros t Hin' Hne. apply in_map_iff. exists t. split; [|done].
      unfold update_row. by rewrite (proj2 (Z.eqb_neq _ _) Hne).
Qed.



(** X12. Deleting a transaction in a shard whose table exists: an id that
    no row carries is answered 404 and the file is left exactly as it was;
    otherwise the answer is 200, exactly the rows with that id are gone,
    the other rows, the categories and the id sequence stay, and deleting
    the same id again is answered 404. *)
Theorem delete_transaction_outcomes d rows id :
  transactions d = Some rows ->
  ((forall t, In t rows -> tx_id t <> id) ->
   delete_transaction (Db d) id = (failure 404 "Transaction not found", Db d)) /\
  (forall t0, In t0 rows -> tx_id t0 = id ->
     exists d' rows',
       delete_transaction (Db d) id
       = (ok 200 (Message "Transaction deleted successfully"), Db d') /\
       transactions d' = Some rows' /\
       (forall t, In t rows' <-> In t rows /\ tx_id t <> id) /\
       categories d' = categories d /\
       seq_transactions d' = seq_transactions d /\
       delete_transaction (Db d') id
       = (failure 404 "Transaction not found", Db d')).
Proof.
  intros Ht. split.
  - intros Hno. destruct (no_row_with_id rows id Hno) as (H1 & _ & _).
    unfold delete_transaction. by rewrite Ht, H1.
  - intros t0 Hin Hid.
    set (rows' := List.filter (fun t => negb (tx_id t =? id)) rows).
    assert (forall t, In t rows' <-> In t rows /\ tx_id t <> id) as Hrows.
    { intros t. unfold rows'. rewrite filter_In, negb_true_iff, Z.eqb_neq. done. }
    exists (with_transactions d rows' (seq_transactions d)), rows'.
    assert (In t0 (List.filter (fun t => tx_id t =? id) rows)) as Hf
      by (apply filter_In; split; [done | by apply Z.eqb_eq]).
    split; [|split; [done|split; [done|split; [done|split; [done|]]]]].
    + unfold delete_transaction. rewrite Ht.
      destruct (List.filter (fun t => tx_id t =? id) rows); [destruct Hf | done].
    + destruct (no_row_with_id rows' id) as (H1 & _ & _);
        [intros t Hin'; by apply Hrows in Hin' as [_ ?]|].
      unfold delete_transaction. cbn [with_transactions transactions]. by rewrite H1.
Qed.

Lemma delete_transaction_outcomes_witness :
  let d := Samples.ledger_database in
  let rows := default [] (transactions d) in
  transactions d = Some rows /\
  delete_transaction (Db d) 7 = (failure 404 "Transaction not found", Db d) /\
  exists d',
    delete_transaction (Db d) 1
    = (ok 200 (Message "Transaction deleted successfully"), Db d') /\
    delete_transaction (Db d') 1 = (failure 404 "Transaction not found", Db d').
Proof.
  cbn zeta.
  assert (transactions Samples.ledger_database
          = Some (default [] (transactions Samples.ledger_database))) as Ht
    by (vm_compute; reflexivity).
  destruct (delete_transaction_outcomes Samples.ledger_database _ 7 Ht) as [H404 _].
  destruct (delete_transaction_outcomes Samples.ledger_database _ 1 Ht) as [_ H200].
  split; [exact Ht|]. split.
  - apply H404. intros t Hin. vm_compute in Hin.
    destruct Hin as [<-|[]]. vm_compute. discriminate.
  - destruct (List.find (fun t => tx_id t =? 1)
                (default [] (transactions Samples.ledger_database)))
      as [t0|] eqn:E; [|vm_compute in E; discriminate E].
    apply find_some in E as [Hin Hid]. apply Z.eqb_eq in Hid.
    destruct (H200 t0 Hin Hid) as (d' & rows' & H1 & _ & _ & _ & _ & H2).
    exists d'. split; [exact H1 | exact H2].
Defined.

End TransactionLedgerFacts.

(** ** How the routes compose *)

Module CompositionFacts.
Import Js Sqlite Http Query DatabaseManager Route Transactions Categories ListSpec.
Import SortFacts ListFacts SchemaFacts ManagerFacts RouteFacts TransactionFacts.
Import TransactionLedgerFacts.

Section Years.

Variable getFullYear : string -> option Z.


End Years.


Lemma list_transactions_eq numeric_order f txs cats page_param limit_param :
  transaction_table f = Done txs ->
  category_table f = Done cats ->
  list_transactions numeric_order f page_param limit_param
  = ok 200
      (Transactions
         (map transaction_json_of
            (limit_offset (or_default limit_param 50)
               ((or_default page_param 1 - 1) * or_default limit_param 50)
               (map (left_join cats) (sort_by (by_date_id_desc numeric_order) txs))))
         {| currentPage := or_default page_param 1;
            totalPages := ceil_div (Z.of_nat (length txs)) (or_default limit_param 50);
            totalCount := Z.of_nat (length txs);
            hasNextPage := or_default page_param 1
                           <? ceil_div (Z.of_nat (length txs))
                                (or_default limit_param 50);
            hasPrevPage := 1 <? or_default page_param 1 |}).
Proof.
  intros Ht Hc. unfold list_transactions, select_joined.
  rewrite Ht, Hc. by rewrite sort_joined.
Qed.



(** X15. The two ledgers of a shard never write each other's table: the
    category routes leave the transaction table and its id sequence as
    they were, and the transaction routes leave the category table as it
    was, whatever they answer. *)
Theorem ledgers_keep_to_their_own_table now f :
  (forall name type,
     transaction_table (snd (create_category now f name type)) = transaction_table f) /\
  (forall id name,
     transaction_table (snd (rename_category now f id name)) = transaction_table f) /\
  (forall id,
     transaction_table (snd (delete_category f id)) = transaction_table f) /\
  (forall amount date type categoryId description,
     category_table (snd (create_in_shard now f amount date type categoryId description))
     = category_table f) /\
  (forall id amount date type categoryId description,
     category_table
       (snd (update_in_shard now f id amount date type categoryId description))
     = category_table f) /\
  (forall id, category_table (snd (delete_transaction f id)) = category_table f).
Proof.
  split; [|split; [|split; [|split; [|split]]]].
  - intros name type. unfold create_category.
    destruct (negb (truthy_str name) || negb (truthy_str type)); [done|].
    destruct (negb (check_type _)); [done|].
    unfold insert_category. destruct f as [|d]; [done|].
    destruct (categories d) as [rows|]; [|done].
    destruct (check_type _); [|done].
    by destruct (get_category _ _) as [e|[c|]].
  - intros id name. unfold rename_category.
    destruct (negb (truthy_str name)); [done|].
    unfold update_category_name. destruct f as [|d]; [done|].
    destruct (categories d) as [rows|]; [|done].
    destruct (_ =? 0); [done|].
    by destruct (get_category _ _) as [e|[c|]].
  - intros id. unfold delete_category.
    destruct (get_category f id) as [e|[c|]]; [done| |done].
    destruct (cat_is_default c =? 1); [done|].
    destruct (count_usage f id) as [e|n]; [done|].
    destruct (0 <? n); [done|].
    unfold delete_category_row. destruct f as [|d]; [done|].
    by destruct (categories d) as [rows|].
  - intros amount date type categoryId description. unfold create_in_shard.
    destruct (get_category f categoryId) as [e|[c|]]; [done| |done].
    unfold insert_transaction. destruct f as [|d]; [done|].
    destruct (transactions d) as [rows|]; [|done].
    destruct (check_type type); [|done].
    by destruct (get_joined _ _) as [e|[j|]].
  - intros id amount date type categoryId description. unfold update_in_shard.
    destruct (get_category f categoryId) as [e|[c|]]; [done| |done].
    unfold update_transaction_row. destruct f as [|d]; [done|].
    destruct (transactions d) as [rows|]; [|done].
    destruct ((_ =? 0) || check_type type); [|done].
    destruct (_ =? 0); [done|].
    by destruct (get_joined _ _) as [e|[j|]].
  - intros id. unfold delete_transaction. destruct f as [|d]; [done|].
    destruct (transactions d) as [rows|]; [|done].
    by destruct (_ =? 0).
Qed.

End CompositionFacts.

(** ** The years of a tenant *)

Module YearFacts.
Import Js Sqlite DatabaseManager Query Years YearSpec Names SortFacts ManagerFacts.

Lemma after_literal_spec (p s r : string) : after_literal p s = Some r <-> s = p +:+ r.
Proof.
  revert s. induction p as [|c p IH]; intros s; simpl.
  - split; [by intros [= ->] | by intros ->].
  - destruct s as [|c' s]; [split; discriminate|].
    destruct (Ascii.eqb_spec c' c) as [->|Hne].
    + rewrite IH. split; [by intros -> | by intros [= ->]].
    + split; [done | intros [= H _]; done].
Qed.

Lemma startsWith_spec (s p : string) : startsWith s p = true <-> exists r, s = p +:+ r.
Proof.
  revert s. induction p as [|c p IH]; intros s; simpl.
  - split; [intros _; by exists s | done].
  - destruct s as [|c' s]; [split; [done | by intros [r Hr]]|].
    rewrite andb_true_iff, IH, Ascii.eqb_eq. split.
    + intros [-> [r ->]]. by exists r.
    + intros [r [= -> ->]]. split; [done | by exists r].
Qed.

Lemma length_app (a b : string) :
  String.length (a +:+ b) = (String.length a + String.length b)%nat.
Proof. induction a as [|c a IH]; simpl; [done | by rewrite IH]. Qed.

Lemma substring_all (b : string) : substring 0 (String.length b) b = b.
Proof. induction b as [|c b IH]; simpl; [done | by rewrite IH]. Qed.

Lemma substring_app (a b : string) :
  substring (String.length a) (String.length b) (a +:+ b) = b.
Proof. induction a as [|c a IH]; simpl; [apply substring_all | done]. Qed.

Lemma endsWith_app (a b : string) : endsWith (a +:+ b) b = true.
Proof.
  unfold endsWith. rewrite length_app.
  replace (String.length a + String.length b - String.length b)%nat
    with (String.length a) by lia.
  rewrite substring_app, String.eqb_refl, andb_true_r.
  apply Nat.leb_le. lia.
Qed.

Lemma is_digit_minus (c : ascii) : is_digit c = true -> is_digit_or_minus c = true.
Proof. destruct c as [[] [] [] [] [] [] [] []]; vm_compute; congruence. Qed.

Lemma digits_minus (l : list ascii) :
  forallb is_digit l = true -> forallb is_digit_or_minus l = true.
Proof.
  induction l as [|c l IH]; simpl; [done|].
  intros [Hc Hl]%andb_prop. by rewrite is_digit_minus, IH.
Qed.

(** A character that [show_Z] never writes is not in what it writes. *)
Lemma digits_lack (x : ascii) (l : list ascii) :
  is_digit_or_minus x = false -> forallb is_digit_or_minus l = true ->
  existsb (fun c => Ascii.eqb c x) l = false.
Proof.
  intros Hx. induction l as [|c l IH]; simpl; [done|].
  intros [Hc Hl]%andb_prop. rewrite IH by done.
  destruct (Ascii.eqb_spec c x) as [->|]; [congruence | done].
Qed.

Lemma uint_digits (d : Decimal.uint) :
  forallb is_digit (chars (NilEmpty.string_of_uint d)) = true.
Proof. induction d; simpl; [done | by rewrite IHd ..]. Qed.

Lemma show_Z_digits (u : Z) :
  0 <= u -> show_Z u <> "" /\ forallb is_digit (chars (show_Z u)) = true.
Proof.
  destruct u as [|p|p]; [by vm_compute | | lia]. intros _.
  unfold show_Z. cbn [Z.to_int NilZero.string_of_int].
  unfold NilZero.string_of_uint.
  pose proof (uint_digits (Pos.to_uint p)) as Hd.
  destruct (Pos.to_uint p); by simpl in *.
Qed.

Lemma after_digits_app (a b : string) :
  forallb is_digit (chars a) = true -> after_digits (a +:+ b) = after_digits b.
Proof.
  induction a as [|c a IH]; simpl; [done|].
  intros [Hc Ha]%andb_prop. rewrite Hc. by apply IH.
Qed.

Lemma after_digits_split (s : string) :
  exists a, s = a +:+ after_digits s /\ forallb is_digit (chars a) = true.
Proof.
  induction s as [|c s (a & Ha & Hd)]; simpl; [by exists ""|].
  destruct (is_digit c) eqn:Hc; [|by exists ""].
  exists (String c a). split; [| simpl; by rewrite Hc, Hd].
  change (String c s = String c (a +:+ after_digits s)). by f_equal.
Qed.

Lemma match_here_shard (su g rest : string) :
  su <> "" -> forallb is_digit (chars su) = true -> four_digit g ->
  match_here ("user_" +:+ su +:+ "_" +:+ g +:+ ".db" +:+ rest) = Some g.
Proof.
  intros Hne Hd (a & b & c & d & -> & Ha & Hb & Hc & Hd').
  destruct su as [|c0 su]; [done|].
  pose proof Hd as Hd0. simpl in Hd0. apply andb_prop in Hd0 as [Hc0 _].
  unfold match_here.
  change (after_literal "user_" ("user_" +:+ ?x)) with (Some x).
  change (String c0 su +:+ ?x) with (String c0 (su +:+ x)).
  cbv beta iota. rewrite Hc0.
  change (String c0 (su +:+ ?x)) with (String c0 su +:+ x).
  rewrite after_digits_app by done.
  change (after_literal "_" (after_digits ("_" +:+ ?x))) with (Some x).
  change (String a (String b (String c (String d "")))  +:+ ?x)
    with (String a (String b (String c (String d x)))).
  cbv beta iota. rewrite Ha, Hb, Hc, Hd'. cbn [andb].
  change (after_literal ".db" (".db" +:+ ?x)) with (Some x). done.
Qed.

Lemma match_here_inv (s g : string) :
  match_here s = Some g ->
  four_digit g /\
  exists su rest, su <> "" /\ forallb is_digit (chars su) = true /\
    s = "user_" +:+ su +:+ "_" +:+ g +:+ ".db" +:+ rest.
Proof.
  unfold match_here.
  destruct (after_literal "user_" s) as [r1|] eqn:E1; [|done].
  destruct r1 as [|c r1]; [done|].
  destruct (is_digit c) eqn:Hc; [|done].
  destruct (after_literal "_" (after_digits (String c r1))) as [r2|] eqn:E2; [|done].
  destruct r2 as [|a [|b [|c' [|d r3]]]]; try done.
  destruct (is_digit a) eqn:Ha; [|done].
  destruct (is_digit b) eqn:Hb; [|done].
  destruct (is_digit c') eqn:Hc'; [|done].
  destruct (is_digit d) eqn:Hd; [|done]. cbn [andb].
  destruct (after_literal ".db" r3) as [r4|] eqn:E3; [|done].
  intros [= <-].
  apply after_literal_spec in E1, E2, E3. subst s r3.
  split; [by exists a, b, c', d|].
  cbn [after_digits] in E2. rewrite Hc in E2.
  destruct (after_digits_split r1) as (su & Hsu & Hds).
  exists (String c su), r4. split; [done|]. split.
  - simpl. by rewrite Hc, Hds.
  - rewrite Hsu, E2. done.
Qed.

Lemma match_year_here (s g : string) : match_here s = Some g -> match_year s = Some g.
Proof. destruct s; cbn [match_year]; by intros ->. Qed.

Lemma match_year_lacks_u (s : string) :
  existsb (fun c => Ascii.eqb c "u") (chars s) = false -> match_year s = None.
Proof.
  induction s as [|c s IH]; [done|].
  cbn [chars existsb]. intros [Hc Hs]%orb_false_elim.
  cbn [match_year]. unfold match_here. cbn [after_literal]. rewrite Hc.
  by apply IH.
Qed.

Lemma match_year_digits (s g : string) : match_year s = Some g -> four_digit g.
Proof.
  induction s as [|c s IH]; cbn [match_year].
  - by vm_compute.
  - destruct (match_here (String c s)) as [g'|] eqn:E; [|done].
    intros [= <-]. by apply match_here_inv in E as [? _].
Qed.


(** ** Four-digit years, by enumeration *)

Lemma year_checks :
  forallb year_check (map Z.of_nat (seq 0 (Z.to_nat 10000))) = true.
Proof. vm_compute. reflexivity. Qed.

Lemma year_check_below (v : Z) : 0 <= v <= 9999 -> year_check v = true.
Proof.
  intros Hv. pose proof year_checks as H.
  rewrite List.forallb_forall in H. apply H.
  apply in_map_iff. exists (Z.to_nat v). split; [lia|]. apply in_seq. lia.
Qed.

Lemma read_back_show (y : Z) : read_back (show_Z y) = y.
Proof.
  unfold read_back, show_Z. destruct (to_int_proper y) as [H1 H2].
  rewrite NilZero.isi by assumption. apply DecimalZ.of_to.
Qed.

Lemma digit_char_of (a : ascii) (q : Z) :
  is_digit a = true -> q = Z.of_N (N_of_ascii a) - 48 -> digit_char q = a.
Proof.
  unfold is_digit, digit_char. intros [H1 H2]%andb_prop ->.
  apply N.leb_le in H1, H2.
  replace (48 + Z.to_N (Z.of_N (N_of_ascii a) - 48))%N with (N_of_ascii a) by lia.
  apply ascii_N_embedding.
Qed.

Lemma four_digit_parse (g : string) :
  four_digit g -> 0 <= parse_digits g <= 9999 /\ g = four_digits_of (parse_digits g).
Proof.
  intros (a & b & c & d & -> & Ha & Hb & Hc & Hd).
  unfold parse_digits. cbn [chars fold_left].
  assert (forall x, is_digit x = true -> 0 <= Z.of_N (N_of_ascii x) - 48 <= 9) as Hr.
  { intros x [H1 H2]%andb_prop. apply N.leb_le in H1, H2. lia. }
  pose proof (Hr a Ha). pose proof (Hr b Hb). pose proof (Hr c Hc). pose proof (Hr d Hd).
  split; [lia|]. unfold four_digits_of.
  f_equal; [|f_equal; [|f_equal; [|f_equal]]]; symmetry;
    apply digit_char_of; try done;
    Z.to_euclidean_division_equations; lia.
Qed.

Lemma four_digits_of_digit (v : Z) :
  forallb is_digit (chars (four_digits_of v)) = true -> four_digit (four_digits_of v).
Proof.
  unfold four_digits_of. cbn [chars forallb].
  intros [Ha [Hb [Hc [Hd _]%andb_prop]%andb_prop]%andb_prop]%andb_prop.
  by eexists _, _, _, _.
Qed.

(** A year of four digits prints as these digits, and they read back. *)
Lemma show_four_digit_year (y : Z) :
  1000 <= y <= 9999 -> four_digit (show_Z y) /\ parse_digits (show_Z y) = y.
Proof.
  intros Hy. pose proof (year_check_below y ltac:(lia)) as H.
  unfold year_check in H.
  apply andb_prop in H as [[[_ Hp]%andb_prop Hd]%andb_prop He].
  replace (1000 <=? y) with true in He by (symmetry; apply Z.leb_le; lia).
  apply Bool.eqb_prop, String.eqb_eq in He. rewrite He.
  split; [by apply four_digits_of_digit | by apply Z.eqb_eq].
Qed.

(** A number that prints as four digits is the year they spell. *)
Lemma four_digit_show (y : Z) (g : string) :
  four_digit g -> show_Z y = g -> y = parse_digits g /\ 1000 <= y <= 9999.
Proof.
  intros Hg <-. destruct (four_digit_parse _ Hg) as [Hv Hgv].
  remember (parse_digits (show_Z y)) as v eqn:Ev.
  pose proof (year_check_below _ Hv) as H. unfold year_check in H.
  apply andb_prop in H as [[[Hr _]%andb_prop _]%andb_prop He].
  apply Z.eqb_eq in Hr. rewrite <- Hgv, read_back_show in Hr. subst v.
  split; [done|].
  rewrite <- Hr in Hgv, He. rewrite <- Hgv, String.eqb_refl in He.
  apply Bool.eqb_prop in He. symmetry in He. apply Z.leb_le in He. lia.
Qed.


(** ** The directory *)

Lemma readdirSync_spec (m : manager) (name : string) :
  name ∈ readdirSync m <->
  has_separator name = false /\ is_Some (fs m !! path_join (dbPath m) name).
Proof.
  unfold readdirSync. rewrite list_elem_of_omap. split.
  - intros ([path f] & Hin & He). apply elem_of_map_to_list in Hin.
    cbn [fst] in He. unfold entry_name in He.
    destruct (after_literal _ path) as [n|] eqn:E; [|done].
    destruct (has_separator n) eqn:Hs; [done|]. injection He as ->.
    apply after_literal_spec in E. subst path. split; [done|].
    unfold path_join. rewrite <- append_assoc. eauto.
  - intros [Hs [f Hf]]. exists (path_join (dbPath m) name, f).
    split; [by apply elem_of_map_to_list|].
    cbn [fst]. unfold entry_name, path_join.
    rewrite <- append_assoc.
    rewrite (proj2 (after_literal_spec _ _ name) eq_refl). by rewrite Hs.
Qed.

(** The years [getUserYears] answers are those of the entries that pass
    its filter and match its pattern. *)
Lemma getUserYears_In (m : manager) (u y : Z) :
  In y (getUserYears m u) <->
  exists name,
    has_separator name = false /\
    is_Some (fs m !! path_join (dbPath m) name) /\
    startsWith name ("user_" +:+ show_Z u +:+ "_") = true /\
    endsWith name ".db" = true /\
    year_of_file name = Some y.
Proof.
  unfold getUserYears. rewrite sort_by_In, <- list_elem_of_In, list_elem_of_omap.
  split.
  - intros (name & Hin & Hy). apply list_elem_of_In, filter_In in Hin as [Hin Hf].
    apply list_elem_of_In, readdirSync_spec in Hin as [Hs Hfile].
    apply andb_prop in Hf as [H1 H2]. by exists name.
  - intros (name & Hs & Hfile & H1 & H2 & Hy). exists name. split; [|done].
    apply list_elem_of_In, filter_In. split.
    + by apply list_elem_of_In, readdirSync_spec.
    + by rewrite H1, H2.
Qed.

Lemma shard_name_lacks_separator (u : Z) (y : Z) :
  has_separator (getDbFileName u (VNum y)) = false.
Proof.
  unfold has_separator, getDbFileName. cbn [to_string].
  rewrite !chars_app, !existsb_app.
  rewrite (digits_lack "/" (chars (show_Z u))), (digits_lack "/" (chars (show_Z y)))
    by (done || apply show_Z_chars).
  done.
Qed.

Lemma shard_name_starts (u : Z) (y : value) :
  startsWith (getDbFileName u y) ("user_" +:+ show_Z u +:+ "_") = true.
Proof.
  apply startsWith_spec. exists (to_string y +:+ ".db").
  unfold getDbFileName. by rewrite !append_assoc.
Qed.

Lemma shard_name_ends (u : Z) (y : value) : endsWith (getDbFileName u y) ".db" = true.
Proof.
  unfold getDbFileName.
  replace ("user_" +:+ show_Z u +:+ "_" +:+ to_string y +:+ ".db")
    with (("user_" +:+ show_Z u +:+ "_" +:+ to_string y) +:+ ".db")
    by (by rewrite !append_assoc).
  apply endsWith_app.
Qed.

(** The files of one tenant do not pass the filter of another. *)
Lemma shard_name_tenant (u u' : Z) (y : value) :
  startsWith (getDbFileName u' y) ("user_" +:+ show_Z u +:+ "_") = true -> u' = u.
Proof.
  intros [r Hr]%startsWith_spec. unfold getDbFileName in Hr.
  rewrite !append_assoc in Hr. apply String.app_inj in Hr.
  apply split_at_underscore in Hr as [Hu _]; auto using show_Z_chars.
  by apply show_Z_inj.
Qed.

Lemma four_digit_chars (g : string) :
  four_digit g -> forallb is_digit_or_minus (chars g) = true.
Proof.
  intros (a & b & c & d & -> & Ha & Hb & Hc & Hd). cbn [chars forallb].
  by rewrite !is_digit_minus.
Qed.

(** What the pattern captures in the file name of a shard, when the text
    of its year has only digits and signs, is that text. *)
Lemma shard_name_year (u : Z) (ty g : string) :
  forallb is_digit_or_minus (chars ty) = true ->
  match_year ("user_" +:+ show_Z u +:+ "_" +:+ ty +:+ ".db") = Some g -> ty = g.
Proof.
  intros Hty.
  change ("user_" +:+ ?x) with (String "u" ("ser_" +:+ x)). cbn [match_year].
  destruct (match_here _) as [g'|] eqn:E.
  - intros [= ->].
    apply match_here_inv in E as (Hg & su & rest & Hne & Hds & Heq).
    change (String "u" ("ser_" +:+ ?x)) with ("user_" +:+ x) in Heq.
    apply String.app_inj in Heq.
    apply split_at_underscore in Heq as [_ Heq];
      auto using show_Z_chars, digits_minus.
    apply (f_equal chars) in Heq. rewrite !chars_app in Heq.
    change (chars ".db") with ("."%char :: chars "db") in Heq.
    change (chars ".db" ++ ?x) with ("."%char :: chars "db" ++ x) in Heq.
    apply (split_at_separator is_digit_or_minus) in Heq as [Heq _];
      auto using four_digit_chars.
    by apply chars_inj.
  - intros H. rewrite match_year_lacks_u in H; [done|].
    rewrite !chars_app, !existsb_app.
    rewrite (digits_lack "u" (chars (show_Z u))), (digits_lack "u" (chars ty))
      by (done || apply show_Z_chars).
    done.
Qed.

Lemma match_year_NaN (u : Z) :
  match_year (getDbFileName u VNaN) = None.
Proof.
  unfold getDbFileName. cbn [to_string].
  change ("user_" +:+ ?x) with (String "u" ("ser_" +:+ x)). cbn [match_year].
  destruct (match_here _) as [g'|] eqn:E.
  - apply match_here_inv in E as (Hg & su & rest & Hne & Hds & Heq).
    change (String "u" ("ser_" +:+ ?x)) with ("user_" +:+ x) in Heq.
    apply String.app_inj in Heq.
    apply split_at_underscore in Heq as [_ Heq];
      auto using show_Z_chars, digits_minus.
    destruct Hg as (a & b & c & d & -> & Ha & _). injection Heq as <- _.
    discriminate Ha.
  - apply match_year_lacks_u.
    rewrite !chars_app, !existsb_app.
    rewrite (digits_lack "u" (chars (show_Z u))) by (done || apply show_Z_chars).
    done.
Qed.

Lemma descending_sorted (l : list Z) :
  StronglySorted (fun a b => b <= a) (sort_by descending l).
Proof.
  apply Sorted_StronglySorted; [intros a b c; lia|].
  eapply ListFacts.Sorted_impl; [|apply sort_by_sorted].
  - intros a b H. by apply Z.leb_le in H.
  - intros a b. unfold descending. lia.
Qed.


Lemma getConnection_creates now (m : manager) (u : Z) (y : value) :
  connections m !! shard_key u y = None ->
  is_Some (fs (snd (getConnection now m u y)) !! dbFile m u y).
Proof.
  intros Hk. rewrite (getConnection_uncached now m u y Hk). cbn [snd].
  destruct (exec_schema now _); cbn [fs].
  - destruct (fs m !! dbFile m u y) eqn:E; [by rewrite E|].
    by rewrite lookup_insert_eq.
  - by rewrite lookup_insert_eq.
Qed.

(** X16. The years [getUserYears] answers come in descending order. Each
    of them lies between 0 and 9999 and is read off an entry of the
    database directory whose name starts with [user_<userId>_]; with no
    such entry the answer is empty. [GET /api/years] answers the same
    list, or the current year alone when that list is empty: its answer
    is never empty and is in descending order as well. *)
Theorem getUserYears_descending_and_backed_by_files (m : manager) (u : Z) :
  StronglySorted (fun a b => b <= a) (getUserYears m u) /\
  (forall y, In y (getUserYears m u) ->
     0 <= y <= 9999 /\
     exists rest,
       is_Some (fs m !! path_join (dbPath m)
                          (("user_" +:+ show_Z u +:+ "_") +:+ rest))) /\
  ((forall rest, fs m !! path_join (dbPath m)
                          (("user_" +:+ show_Z u +:+ "_") +:+ rest) = None) ->
   getUserYears m u = []) /\
  (forall current_year,
     api_years m u current_year <> [] /\
     StronglySorted (fun a b => b <= a) (api_years m u current_year) /\
     (getUserYears m u = [] -> api_years m u current_year = [current_year]) /\
     (getUserYears m u <> [] -> api_years m u current_year = getUserYears m u)).
Proof.
  assert (forall y, In y (getUserYears m u) ->
     0 <= y <= 9999 /\
     exists rest,
       is_Some (fs m !! path_join (dbPath m)
                          (("user_" +:+ show_Z u +:+ "_") +:+ rest))) as Hback.
  { intros y (name & _ & Hfile & [rest ->]%startsWith_spec & _ & Hy)%getUserYears_In.
    split; [|by exists rest].
    unfold year_of_file in Hy.
    destruct (match_year _) as [g|] eqn:E; [|done]. injection Hy as <-.
    apply match_year_digits, four_digit_parse in E as [E _]. done. }
  split; [apply descending_sorted|]. split; [exact Hback|]. split.
  - intros Hnone. destruct (getUserYears m u) as [|y l] eqn:E; [done|].
    destruct (Hback y ltac:(by left)) as [_ [rest [f Hf]]].
    by rewrite Hnone in Hf.
  - intros current_year. unfold api_years.
    destruct (getUserYears m u) as [|y l] eqn:E; cbn [length Nat.eqb app].
    + repeat split; try done. repeat constructor.
    + repeat split; try done. rewrite <- E. apply descending_sorted.
Qed.

(** X17. A tenant with a non-negative id finds every four-digit year
    whose shard file is in the directory among the years of
    [getUserYears]; in particular the year of a shard that
    [getConnection] has just opened is listed. *)
Theorem getUserYears_lists_four_digit_shards now (m : manager) (u y : Z) :
  0 <= u -> 1000 <= y <= 9999 ->
  (is_Some (fs m !! dbFile m u (VNum y)) -> In y (getUserYears m u)) /\
  (connections m !! shard_key u (VNum y) = None ->
   In y (getUserYears (snd (getConnection now m u (VNum y))) u)).
Proof.
  intros Hu Hy.
  assert (forall m', is_Some (fs m' !! dbFile m' u (VNum y)) ->
                     In y (getUserYears m' u)) as H.
  { intros m' Hfile. apply getUserYears_In. exists (getDbFileName u (VNum y)).
    split; [apply shard_name_lacks_separator|]. split; [done|].
    split; [apply shard_name_starts|]. split; [apply shard_name_ends|].
    destruct (show_four_digit_year y Hy) as [Hg Hp].
    destruct (show_Z_digits u Hu) as [Hne Hd].
    unfold year_of_file, getDbFileName. cbn [to_string].
    rewrite (match_year_here _ (show_Z y)); [cbn [option_map]; by rewrite Hp|].
    apply (match_here_shard (show_Z u) (show_Z y) ""); done. }
  split; [apply H|].
  intros Hk. apply H. unfold dbFile. rewrite RouteFacts.getConnection_dbPath.
  by apply getConnection_creates.
Qed.

Lemma getUserYears_lists_four_digit_shards_witness :
  In 2025 (getUserYears
             (snd (getConnection "2025-01-01 00:00:00" Samples.opened_manager 1
                     (VNum 2025))) 1).
Proof.
  apply (getUserYears_lists_four_digit_shards
           "2025-01-01 00:00:00" Samples.opened_manager 1 2025);
    [lia | lia | reflexivity].
Defined.

(** X18. In a directory in which every entry whose name starts with
    [user_] is the shard file of a numeric (or [NaN]) year, such as the
    routes that write leave it --- backups and the accounts database
    [users.db] do not start so --- every year [getUserYears] answers for
    a tenant has four digits and is the year of a shard file of that very
    tenant: no year is read off the shard of another tenant, off a
    backup or off the accounts database. *)
Theorem getUserYears_answers_only_own_shards (m : manager) (u y : Z) :
  (forall name, is_Some (fs m !! path_join (dbPath m) name) ->
     (exists u' y', name = getDbFileName u' y' /\ forall s, y' <> VStr s) \/
     startsWith name "user_" = false) ->
  In y (getUserYears m u) ->
  1000 <= y <= 9999 /\ is_Some (fs m !! dbFile m u (VNum y)).
Proof.
  intros Hdir (name & Hs & Hfile & H1 & H2 & Hy)%getUserYears_In.
  destruct (Hdir name Hfile) as [(u' & y' & -> & Hy') | Hother].
  2: { apply startsWith_spec in H1 as [rest ->].
       rewrite append_assoc in Hother. discriminate Hother. }
  apply shard_name_tenant in H1 as ->. unfold year_of_file in Hy.
  destruct (match_year _) as [g|] eqn:E; [|done]. injection Hy as <-.
  destruct y' as [n| |s].
  - pose proof (match_year_digits _ _ E) as Hg.
    apply shard_name_year in E; [|apply show_Z_chars].
    destruct (four_digit_show n g Hg E) as [-> Hn]. done.
  - by rewrite match_year_NaN in E.
  - by destruct (Hy' s).
Qed.

Lemma getUserYears_answers_only_own_shards_witness :
  1000 <= 2024 <= 9999 /\
  is_Some (fs Samples.damaged_manager !! dbFile Samples.damaged_manager 1 (VNum 2024)).
Proof.
  apply (getUserYears_answers_only_own_shards Samples.damaged_manager 1 2024).
  - intros name [f Hf]. left. exists 1, (VNum 2024). split; [|done].
    change (fs Samples.damaged_manager) with Samples.damaged_directory in Hf.
    unfold Samples.damaged_directory in Hf.
    apply lookup_singleton_Some in Hf as [Hk _].
    vm_compute in Hk. injection Hk as <-. reflexivity.
  - vm_compute. by left.
Defined.

(** X19. The pattern of [getUserYears] is not anchored at the end of the
    file name. When a tenant's request opens a shard for the text year
    [<y>.db<rest>] --- the [year] of a query is used as it is ---
    [getUserYears] reports the four-digit year [y] from then on, although
    no shard of year [y] was opened and, if none was there, none
    exists. *)
Theorem getUserYears_reads_a_year_off_a_text_year now (m : manager) (u y : Z)
    (rest : string) :
  0 <= u -> 1000 <= y <= 9999 -> has_separator rest = false ->
  let year := VStr (show_Z y +:+ ".db" +:+ rest) in
  connections m !! shard_key u year = None ->
  let m' := snd (getConnection now m u year) in
  In y (getUserYears m' u) /\
  fs m' !! dbFile m' u (VNum y) = fs m !! dbFile m u (VNum y).
Proof.
  intros Hu Hy Hrest year Hk m'. split.
  - apply getUserYears_In. exists (getDbFileName u year).
    split; [|split; [|split; [apply shard_name_starts|split; [apply shard_name_ends|]]]].
    + unfold has_separator in *. unfold getDbFileName, year. cbn [to_string].
      rewrite !chars_app, !existsb_app, Hrest.
      rewrite (digits_lack "/" (chars (show_Z u))), (digits_lack "/" (chars (show_Z y)))
        by (done || apply show_Z_chars).
      done.
    + unfold m'. rewrite RouteFacts.getConnection_dbPath.
      by apply getConnection_creates.
    + destruct (show_four_digit_year y Hy) as [Hg Hp].
      destruct (show_Z_digits u Hu) as [Hne Hd].
      unfold year_of_file, getDbFileName, year. cbn [to_string].
      rewrite (match_year_here _ (show_Z y)); [cbn [option_map]; by rewrite Hp|].
      rewrite !append_assoc.
      apply (match_here_shard (show_Z u) (show_Z y) (rest +:+ ".db")); done.
  - unfold m', dbFile. rewrite RouteFacts.getConnection_dbPath.
    apply RouteFacts.getConnection_fs_other.
    intros [_ H]%dbFile_inj. unfold year in H. cbn [to_string] in H.
    apply (f_equal String.length) in H. rewrite length_app in H. simpl in H. lia.
Qed.

Lemma getUserYears_reads_a_year_off_a_text_year_witness :
  let m' := snd (getConnection "2025-01-01 00:00:00" Samples.empty_manager 1
                   (VStr "2024.db")) in
  In 2024 (getUserYears m' 1) /\ fs m' !! dbFile m' 1 (VNum 2024) = None.
Proof.
  apply (getUserYears_reads_a_year_off_a_text_year
           "2025-01-01 00:00:00" Samples.empty_manager 1 2024 "");
    [lia | lia | reflexivity | reflexivity].
Defined.

End YearFacts.

(** ** Accounts, tokens and the account routes *)

Module AccountFacts.
Import Js Sqlite Http Query Accounts AccountSpec.

Lemma find_map_preserved {A} (p : A -> bool) (f : A -> A) (l : list A) :
  (forall x, p (f x) = p x) ->
  List.find p (map f l) = option_map f (List.find p l).
Proof.
  intros H. induction l as [|x l IH]; simpl; [done|].
  rewrite H. by destruct (p x).
Qed.

Lemma update_rows_ids rows i set :
  (forall r, u_id (set r) = u_id r) -> map u_id (update_rows rows i set) = map u_id rows.
Proof.
  intros H. unfold update_rows. rewrite map_map. apply map_ext.
  intros r. by destruct (u_id r =? i).
Qed.

Lemma update_rows_usernames rows i set :
  (forall r, u_username (set r) = u_username r) ->
  map u_username (update_rows rows i set) = map u_username rows.
Proof.
  intros H. unfold update_rows. rewrite map_map. apply map_ext.
  intros r. by destruct (u_id r =? i).
Qed.

Lemma update_rows_other rows i set :
  (forall r, In r rows -> u_id r <> i) -> update_rows rows i set = rows.
Proof.
  intros H. unfold update_rows. rewrite <- (map_id rows) at 2.
  apply map_ext_in. intros r Hr.
  destruct (Z.eqb_spec (u_id r) i) as [E|]; [by destruct (H r Hr) | done].
Qed.

Lemma update_rows_app rows extra i set :
  update_rows (rows ++ extra) i set = update_rows rows i set ++ update_rows extra i set.
Proof. apply map_app. Qed.

Lemma update_rows_In rows i set r' :
  In r' (update_rows rows i set) <->
  exists r, In r rows /\ r' = if u_id r =? i then set r else r.
Proof.
  unfold update_rows. rewrite in_map_iff. split; intros (r & H1 & H2); exists r; done.
Qed.

Lemma existsb_id rows i :
  existsb (fun r => u_id r =? i) rows = true <-> exists r, In r rows /\ u_id r = i.
Proof.
  rewrite existsb_exists. split; intros (r & Hr & E); exists r; (split; [done|]).
  - by apply Z.eqb_eq.
  - by apply Z.eqb_eq.
Qed.

Lemma existsb_id_false rows i :
  (forall r, In r rows -> u_id r <> i) -> existsb (fun r => u_id r =? i) rows = false.
Proof.
  intros H. destruct (existsb _ rows) eqn:E; [|done].
  apply existsb_id in E as (r & Hr & E). by destruct (H r Hr).
Qed.

Lemma role_or_user_superadmin r :
  role_or_user r = "superadmin" <-> r = Some "superadmin".
Proof.
  unfold role_or_user, truthy_str. destruct r as [s|]; [|split; discriminate].
  destruct (String.eqb_spec s "") as [->|]; cbn [negb from_option]; unfold id.
  - split; [discriminate | intros [=]].
  - split; [by intros -> | by intros [= ->]].
Qed.

Lemma max_id_lt {A} (id : A -> Z) (rows : list A) (seq : Z) (r : A) :
  In r rows -> id r < next_id id rows seq.
Proof.
  intros Hr. pose proof (CategoryLedgerFacts.max_id_bound id rows r Hr).
  unfold next_id. lia.
Qed.


Section Libraries.

Variable bcrypt_hash : string -> string -> string.
Variable bcrypt_compare : string -> string -> bool.
Variable jwt_sign : Z -> string -> string.
Variable jwt_verify : string -> option Z.
Variable unique_code : string.

Local Abbreviation authenticate := (Accounts.authenticate bcrypt_hash bcrypt_compare).
Local Abbreviation createUser := (Accounts.createUser bcrypt_hash unique_code).
Local Abbreviation updateUser := (Accounts.updateUser bcrypt_hash).
Local Abbreviation authenticateToken := (Accounts.authenticateToken jwt_verify).
Local Abbreviation login := (Accounts.login bcrypt_hash bcrypt_compare jwt_sign).
Local Abbreviation register := (Accounts.register bcrypt_hash jwt_sign unique_code).
Local Abbreviation post_user := (Accounts.post_user bcrypt_hash unique_code).
Local Abbreviation put_user := (Accounts.put_user bcrypt_hash).
Local Abbreviation delete_user := (Accounts.delete_user bcrypt_hash).
Local Abbreviation users_router :=
  (Accounts.users_router bcrypt_hash jwt_verify unique_code).

Lemma getUserById_Some t id user :
  getUserById t id = Some user ->
  id = Some (u_id user) /\ In user (user_rows t) /\ u_is_active user = true.
Proof.
  destruct id as [i|]; [|done]. cbn [getUserById].
  intros [Hin [->%Z.eqb_eq Ha]%andb_prop]%find_some. done.
Qed.

Lemma getUserById_inactive t i :
  (forall r, In r (user_rows t) -> u_id r = i -> u_is_active r = false) ->
  getUserById t (Some i) = None.
Proof.
  intros H. destruct (getUserById t (Some i)) as [user|] eqn:E; [|done].
  apply getUserById_Some in E as ([= ->] & Hin & Ha).
  rewrite (H user Hin eq_refl) in Ha. done.
Qed.

Lemma authenticateToken_inr t authorization who :
  authenticateToken t authorization = inr who ->
  exists token user,
    bearer authorization = Some token /\ token <> "" /\
    jwt_verify token = Some (u_id user) /\ In user (user_rows t) /\
    u_is_active user = true /\ who = identity_of user.
Proof.
  unfold Accounts.authenticateToken, truthy_str.
  destruct (bearer authorization) as [token|]; [|done]. cbn [from_option]. unfold id.
  destruct (String.eqb_spec token "") as [|Hne]; [done|]. cbn [negb].
  destruct (jwt_verify token) as [userId|] eqn:Ev; [|done].
  destruct (getUserById t (Some userId)) as [user|] eqn:Eu; [|done].
  intros [= <-]. apply getUserById_Some in Eu as ([= ->] & Hin & Ha).
  by exists token, user.
Qed.

Lemma authenticateToken_inl t authorization r :
  authenticateToken t authorization = inl r -> status r = 401.
Proof.
  unfold Accounts.authenticateToken.
  destruct (negb _); [by intros [= <-]|].
  destruct (jwt_verify _); [|by intros [= <-]].
  destruct (getUserById _ _); [done | by intros [= <-]].
Qed.

(** X20. Whatever is asked of the router of [/api/users], it either
    answers 401 or 403 and leaves the accounts as they were, or the
    request carried, as the second word of its authorization header, a
    token that verifies to the id of an account that is active and whose
    role is [superadmin]. *)
Theorem users_router_serves_only_active_superadmins salt now t authorization r :
  let out := users_router salt now t authorization r in
  (snd out = t /\
   (reply_status (fst out) = 401 \/ reply_status (fst out) = 403)) \/
  (exists token user,
     bearer authorization = Some token /\ token <> "" /\
     jwt_verify token = Some (u_id user) /\ In user (user_rows t) /\
     u_is_active user = true /\ u_role user = Some "superadmin").
Proof.
  cbn zeta. unfold Accounts.users_router.
  destruct (authenticateToken t authorization) as [refusal|who] eqn:E.
  { left. split; [done|]. left. by apply authenticateToken_inl in E. }
  unfold requireSuperAdmin.
  destruct (String.eqb_spec (i_role who) "superadmin") as [Hr|]; cbn [negb].
  2: { left. split; [done|]. by right. }
  right. apply authenticateToken_inr in E
    as (token & user & Hb & Hne & Hv & Hin & Ha & ->).
  exists token, user. repeat split; try done.
  by apply role_or_user_superadmin.
Qed.

Lemma updateUser_deactivate salt t id :
  updateUser salt t id
    {| up_name := None; up_password := None; up_role := None;
       up_is_active := Some false |} =
  match id with
  | Some i =>
      if existsb (fun r => u_id r =? i) (user_rows t)
      then (Updated, {| user_rows := update_rows (user_rows t) i deactivated;
                        user_seq := user_seq t |})
      else (UserNotFound, t)
  | None => (UserNotFound, t)
  end.
Proof.
  unfold Accounts.updateUser. cbn. destruct id as [i|]; [|done].
  destruct (existsb _ _); [|done]. do 2 f_equal.
Qed.

Lemma deactivated_rows rows i r' :
  In r' (update_rows rows i deactivated) -> u_id r' = i -> u_is_active r' = false.
Proof.
  intros (r & Hr & ->)%update_rows_In.
  destruct (Z.eqb_spec (u_id r) i); [done|]. intros. done.
Qed.

(** X21. [DELETE /api/users/:id] has three outcomes. When the id is that
    of an active account whose role is [superadmin], it answers 403 and
    changes nothing. When no account has the id (or the id is no number),
    it answers 404 and changes nothing. Otherwise it answers 200 and
    clears [is_active] in the rows of that id and nothing else; from then
    on [getUserById] finds no such account, no authorization header is
    resolved to it, and no login answers it, whatever the password. *)
Theorem delete_user_outcomes salt t id :
  let out := delete_user salt t id in
  (forall user, getUserById t id = Some user -> u_role user = Some "superadmin" ->
     out = (Plain (failure 403 "Cannot delete superadmin user"), t)) /\
  ((forall i, id = Some i -> forall r, In r (user_rows t) -> u_id r <> i) ->
     out = (Plain (failure 404 "User not found"), t)) /\
  (forall i, id = Some i -> (exists r, In r (user_rows t) /\ u_id r = i) ->
     (forall user, getUserById t id = Some user -> u_role user <> Some "superadmin") ->
     let t' := snd out in
     fst out = Plain (ok 200 (Message "User deactivated successfully")) /\
     user_rows t' = update_rows (user_rows t) i deactivated /\
     user_seq t' = user_seq t /\
     getUserById t' id = None /\
     (forall authorization who,
        authenticateToken t' authorization = inr who -> i_id who <> i) /\
     (forall salt' now username password who,
        fst (authenticate salt' now t' username password) = Some who ->
        i_id who <> i)).
Proof.
  cbn zeta. unfold Accounts.delete_user. rewrite updateUser_deactivate.
  split; [|split].
  - intros user -> ->. done.
  - intros Hnone.
    assert (getUserById t id = None) as ->.
    { destruct (getUserById t id) as [user|] eqn:E; [|done].
      apply getUserById_Some in E as (-> & Hin & _).
      by destruct (Hnone _ eq_refl user Hin). }
    destruct id as [i|]; [|done].
    by rewrite existsb_id_false by (by apply Hnone).
  - intros i -> Hex Hrole.
    assert (forall X : reply * users_table,
      match getUserById t (Some i) with
      | Some user =>
          if String.eqb (default "" (u_role user)) "superadmin"
          then (Plain (failure 403 "Cannot delete superadmin user"), t)
          else X
      | None => X
      end = X) as ->.
    { intros X. destruct (getUserById t (Some i)) as [user|] eqn:E; [|done].
      specialize (Hrole user eq_refl).
      destruct (u_role user) as [s|]; [|done]. cbn [from_option]. unfold id.
      destruct (String.eqb_spec s "superadmin") as [->|]; done. }
    rewrite (proj2 (existsb_id _ _) Hex). cbn [fst snd user_rows user_seq].
    assert (getUserById {| user_rows := update_rows (user_rows t) i deactivated;
                           user_seq := user_seq t |} (Some i) = None) as Hgone.
    { apply getUserById_inactive. cbn [user_rows]. apply deactivated_rows. }
    repeat split; try done.
    + intros authorization who
        (token & user & _ & _ & _ & Hin & Ha & ->)%authenticateToken_inr Hi.
      cbn [identity_of i_id user_rows] in *.
      by rewrite (deactivated_rows _ _ _ Hin Hi) in Ha.
    + intros salt' now username password who. unfold Accounts.authenticate.
      cbn [user_rows]. unfold active_by_username.
      destruct (List.find _ _) as [user|] eqn:E; [|done].
      apply find_some in E as [Hin [_ Ha]%andb_prop].
      assert (i_id (identity_of user) <> i) as Hne.
      { cbn [identity_of i_id]. intros Hi.
        by rewrite (deactivated_rows _ _ _ Hin Hi) in Ha. }
      destruct (_ && _); [by intros [= <-]|].
      destruct (bcrypt_compare _ _); [by intros [= <-] | done].
Qed.


Lemma updateUser_found salt t i up :
  (exists r, In r (user_rows t) /\ u_id r = i) ->
  (defined (up_name up) || truthy_str (up_password up)
   || defined (up_role up) || defined (up_is_active up)) = true ->
  check_role (up_role up) = true ->
  updateUser salt t (Some i) up =
  (Updated,
   {| user_rows :=
        update_rows (user_rows t) i
          (apply_updates (bcrypt_hash salt (default "" (up_password up))) up);
      user_seq := user_seq t |}).
Proof.
  intros Hex Hf Hc. unfold Accounts.updateUser.
  rewrite Hf, (proj2 (existsb_id _ _) Hex), Hc. done.
Qed.

(** X22. [PUT /api/users/:id] has no guard of its own: through the
    router a superadmin who sends [is_active: false] for any existing
    account --- another superadmin, or the sender --- is answered 200,
    and from then on that account is not found by [getUserById] and every
    request whose token verifies to it is answered 401 by the router.
    An update that names no field is answered 404 although the account
    exists. *)
Theorem put_user_deactivates_any_account salt now t authorization who target up :
  authenticateToken t authorization = inr who ->
  i_role who = "superadmin" ->
  (exists r, In r (user_rows t) /\ u_id r = target) ->
  check_role (up_role up) = true ->
  (up_is_active up = Some false ->
   let out := users_router salt now t authorization (UpdateUser (Some target) up) in
   fst out = Plain (ok 200 (Message "User updated successfully")) /\
   getUserById (snd out) (Some target) = None /\
   (forall salt' now' authorization' r,
      (forall token, bearer authorization' = Some token ->
                     jwt_verify token = Some target) ->
      exists refusal,
        users_router salt' now' (snd out) authorization' r
        = (Plain refusal, snd out) /\ status refusal = 401)) /\
  (up_name up = None -> truthy_str (up_password up) = false ->
   up_role up = None -> up_is_active up = None ->
   users_router salt now t authorization (UpdateUser (Some target) up)
   = (Plain (failure 404 "No fields to update"), t)).
Proof.
  intros Hauth Hrole Hex Hcheck.
  assert (forall X, users_router salt now t authorization X =
            match X with
            | ListUsers =>
                (UsersListed (map account_of (sort_by newest_first (user_rows t))), t)
            | CreateUser username password name role =>
                post_user salt now t username password name role
            | UpdateUser id up => put_user salt t id up
            | DeleteUser id => delete_user salt t id
            end) as Hrouter.
  { intros X. unfold Accounts.users_router, requireSuperAdmin.
    rewrite Hauth, Hrole. done. }
  split.
  - intros Hactive. cbn zeta. rewrite Hrouter. unfold Accounts.put_user.
    rewrite updateUser_found; [|done| |done].
    2: { rewrite Hactive. cbn. by rewrite !orb_true_r. }
    cbn [fst snd update_answer].
    set (t' := {| user_rows := _; user_seq := _ |}).
    assert (getUserById t' (Some target) = None) as Hgone.
    { apply getUserById_inactive. unfold t'. cbn [user_rows].
      intros r' (r & Hr & ->)%update_rows_In.
      destruct (Z.eqb_spec (u_id r) target); [|done].
      intros _. cbn [apply_updates u_is_active]. by rewrite Hactive. }
    repeat split; try done.
    intros salt' now' authorization' r Htok.
    unfold Accounts.users_router.
    destruct (authenticateToken t' authorization') as [refusal|who'] eqn:E.
    + exists refusal. split; [done|]. by apply authenticateToken_inl in E.
    + exfalso. unfold Accounts.authenticateToken in E.
      destruct (bearer authorization') as [token|] eqn:Eb; [|done].
      cbn [from_option] in E. unfold id in E.
      rewrite (Htok token eq_refl), Hgone in E.
      by destruct (negb _).
  - intros H1 H2 H3 H4. rewrite Hrouter.
    unfold Accounts.put_user, Accounts.updateUser. by rewrite H1, H2, H3, H4.
Qed.

(** X23. The password [admin123] opens the active account of id 1
    whatever hash is stored for it and whatever [bcrypt.compare] says,
    and the login overwrites the stored hash with one of [admin123].
    Changing the password of that account through [updateUser] does not
    close this door. *)
Theorem default_password_of_account_one_is_always_accepted
    salt salt' now t username user new_password :
  active_by_username (user_rows t) username = Some user ->
  u_id user = 1 ->
  let after_login := authenticate salt now t username "admin123" in
  let t1 :=
    snd (updateUser salt' t (Some 1)
           {| up_name := None; up_password := Some new_password;
              up_role := None; up_is_active := None |}) in
  fst after_login = Some (identity_of user) /\
  (forall r, In r (user_rows (snd after_login)) -> u_id r = 1 ->
     u_password_hash r = bcrypt_hash salt "admin123") /\
  fst (authenticate salt now t1 username "admin123") = Some (identity_of user).
Proof.
  intros Hfind Hid. cbn zeta.
  assert (forall t0 u0, active_by_username (user_rows t0) username = Some u0 ->
            u_id u0 = 1 ->
            authenticate salt now t0 username "admin123" =
            (Some (identity_of u0),
             {| user_rows := update_rows (user_rows t0) 1
                               (set_login (Some (bcrypt_hash salt "admin123")) now);
                user_seq := user_seq t0 |})) as Hlogin.
  { intros t0 u0 H0 H1. unfold Accounts.authenticate. by rewrite H0, H1. }
  rewrite (Hlogin t user Hfind Hid). cbn [fst snd user_rows].
  split; [done|]. split.
  - intros r' (r & Hr & ->)%update_rows_In.
    destruct (Z.eqb_spec (u_id r) 1); [done|]. intros; done.
  - unfold Accounts.updateUser.
    destruct (negb _) eqn:Ef; cbn [snd].
    { by rewrite (Hlogin t user Hfind Hid). }
    assert (In user (user_rows t)) as Hin.
    { unfold active_by_username in Hfind. by apply find_some in Hfind as [? _]. }
    rewrite (proj2 (existsb_id _ _)) by (by exists user). cbn [check_role up_role snd].
    set (set := apply_updates _ _).
    rewrite (Hlogin _ (set user)); [done| |done].
    cbn [user_rows]. unfold active_by_username, update_rows.
    rewrite find_map_preserved.
    + fold (active_by_username (user_rows t) username). rewrite Hfind.
      cbn [option_map]. by rewrite Hid.
    + intros r. by destruct (u_id r =? 1).
Qed.


Lemma existsb_username rows name :
  existsb (fun r => String.eqb (u_username r) name) rows = true <->
  exists r, In r rows /\ u_username r = name.
Proof.
  rewrite existsb_exists. split; intros (r & Hr & E); exists r; (split; [done|]).
  - by apply String.eqb_eq.
  - by apply String.eqb_eq.
Qed.

Lemma existsb_username_false rows name :
  (forall r, In r rows -> u_username r <> name) ->
  existsb (fun r => String.eqb (u_username r) name) rows = false.
Proof.
  intros H. destruct (existsb _ rows) eqn:E; [|done].
  apply existsb_username in E as (r & Hr & E). by destruct (H r Hr).
Qed.

(** The row [createUser] inserts. *)
Local Abbreviation new_row salt now t username password name role :=
  {| u_id := next_id u_id (user_rows t) (user_seq t); u_username := username;
     u_password_hash := bcrypt_hash salt password; u_name := name;
     u_created_at := now; u_last_login := None; u_is_active := true;
     u_role := Some role |}.

Lemma createUser_taken salt now t username password name :
  (exists r, In r (user_rows t) /\ u_username r = username) ->
  createUser salt now t username password name =
  (inl (if String.eqb unique_code "SQLITE_CONSTRAINT_UNIQUE"
        then UsernameExists else CreateRejected unique_code), t).
Proof.
  intros H. unfold Accounts.createUser. by rewrite (proj2 (existsb_username _ _) H).
Qed.

Lemma createUser_free salt now t username password name :
  (forall r, In r (user_rows t) -> u_username r <> username) ->
  createUser salt now t username password name =
  (inr (next_id u_id (user_rows t) (user_seq t)),
   {| user_rows := user_rows t ++ [new_row salt now t username password name "user"];
      user_seq := next_id u_id (user_rows t) (user_seq t) |}).
Proof.
  intros H. unfold Accounts.createUser. by rewrite existsb_username_false.
Qed.

Lemma update_new_row rows (r : user_row) set :
  (forall r0, In r0 rows -> u_id r0 < u_id r) ->
  update_rows (rows ++ [r]) (u_id r) set = rows ++ [set r].
Proof.
  intros H. rewrite update_rows_app. f_equal.
  - apply update_rows_other. intros r0 Hr0. specialize (H r0 Hr0). lia.
  - cbn. by rewrite Z.eqb_refl.
Qed.

(** X24. [POST /api/users] behind its guards. A body that fails the
    validation is answered 400, and a username that is taken 409 or 500
    (409 exactly when the driver reports the code the model looks for);
    neither changes the table. Otherwise exactly one row is appended: it
    is active, has never logged in, and its id is larger than every id in
    the table. With the role [user] (the default) or [superadmin] the row
    carries that role and the answer is 201. With any other role the
    answer is 500, and yet the account has been created, with the role
    [user]. *)
Theorem post_user_outcomes salt now t username password name role :
  let out := post_user salt now t username password name role in
  let asked := default "user" role in
  (forall refusal, validate_account username password name = Some refusal ->
     out = (Plain refusal, t) /\ status refusal = 400) /\
  (validate_account username password name = None ->
   (exists r, In r (user_rows t) /\ u_username r = default "" username) ->
   snd out = t /\
   fst out = Plain (if String.eqb unique_code "SQLITE_CONSTRAINT_UNIQUE"
                    then failure 409 "Username already exists"
                    else failure 500 "Failed to create user")) /\
  (validate_account username password name = None ->
   (forall r, In r (user_rows t) -> u_username r <> default "" username) ->
   let id := next_id u_id (user_rows t) (user_seq t) in
   let stored := if check_role (Some asked) then asked else "user" in
   (forall r, In r (user_rows t) -> u_id r < id) /\
   user_rows (snd out) =
     user_rows t ++ [new_row salt now t (default "" username) (default "" password)
                       (default "" name) stored] /\
   user_seq (snd out) = id /\
   fst out = if check_role (Some asked)
             then UserCreated id (default "" username) (default "" name) asked
             else Plain (failure 500 "Failed to create user")).
Proof.
  cbn zeta. unfold Accounts.post_user. split; [|split].
  - intros refusal Hv. rewrite Hv. split; [done|].
    unfold validate_account in Hv.
    destruct (_ || _); [by injection Hv as <-|].
    destruct (_ <? _)%nat; [by injection Hv as <- | done].
  - intros -> Htaken. rewrite createUser_taken by done. cbn [fst snd].
    split; [done|]. by destruct (String.eqb unique_code _).
  - intros -> Hfree. rewrite createUser_free by done.
    split; [intros r Hr; by apply max_id_lt|].
    set (id := next_id u_id (user_rows t) (user_seq t)).
    set (asked := default "user" role).
    destruct (String.eqb_spec asked "user") as [Hu|Hnu]; cbn [negb].
    { rewrite Hu. cbn [check_role String.eqb orb]. cbn [fst snd user_rows user_seq].
      done. }
    unfold Accounts.updateUser. cbn [up_name up_password up_role up_is_active
      defined truthy_str orb negb user_rows user_seq].
    rewrite (proj2 (existsb_id _ _)).
    2: { exists (new_row salt now t (default "" username) (default "" password)
                   (default "" name) "user").
         split; [apply in_or_app; right; by left | done]. }
    destruct (check_role (Some asked)) eqn:Hc; cbn [fst snd user_rows user_seq].
    + split; [|done].
      change id with (u_id (new_row salt now t (default "" username)
                              (default "" password) (default "" name) "user")) at 1.
      rewrite update_new_row; [done|].
      intros r Hr. by apply max_id_lt.
    + done.
Qed.


Lemma table_ok_update t i set :
  (forall r, u_id (set r) = u_id r) ->
  (forall r, u_username (set r) = u_username r) ->
  (forall r, check_role (u_role r) = true -> check_role (u_role (set r)) = true) ->
  let t' := {| user_rows := update_rows (user_rows t) i set; user_seq := user_seq t |} in
  (table_ok t -> table_ok t') /\ account_keys t' = account_keys t.
Proof.
  intros H1 H2 H3. cbn zeta. unfold table_ok, account_keys. cbn [user_rows]. split.
  - intros (Hi & Hu & Hr). rewrite update_rows_ids, update_rows_usernames by done.
    repeat split; try done.
    apply List.Forall_forall. intros r' (r & Hin & ->)%update_rows_In.
    rewrite List.Forall_forall in Hr. specialize (Hr r Hin).
    destruct (u_id r =? i); auto.
  - unfold update_rows. rewrite map_map. apply map_ext.
    intros r. destruct (u_id r =? i); by rewrite ?H1, ?H2.
Qed.

Lemma updateUser_ok salt t id up :
  let t' := snd (updateUser salt t id up) in
  (table_ok t -> table_ok t') /\ account_keys t' = account_keys t.
Proof.
  cbn zeta. unfold Accounts.updateUser.
  destruct (negb _); [done|]. destruct id as [i|]; [|done].
  destruct (existsb _ _); [|done].
  destruct (check_role (up_role up)) eqn:Hc; [|done]. cbn [snd].
  apply table_ok_update; try done.
  intros r Hr. cbn [apply_updates u_role]. by destruct (up_role up).
Qed.

Lemma createUser_ok salt now t username password name :
  let t' := snd (createUser salt now t username password name) in
  (table_ok t -> table_ok t') /\
  exists extra, account_keys t' = account_keys t ++ extra.
Proof.
  cbn zeta. unfold Accounts.createUser.
  destruct (existsb _ _) eqn:E; cbn [snd].
  { split; [done|]. exists []. by rewrite app_nil_r. }
  split.
  - intros (Hi & Hu & Hr). unfold table_ok. cbn [user_rows].
    rewrite !map_app. cbn [map u_id u_username]. repeat split.
    + apply NoDup_app. repeat split; [done| |apply NoDup_singleton].
      intros x (r & <- & Hin)%list_elem_of_In%in_map_iff [Hx|[]]%list_elem_of_In.
      pose proof (max_id_lt u_id _ (user_seq t) r Hin). lia.
    + apply NoDup_app. repeat split; [done| |apply NoDup_singleton].
      intros x (r & <- & Hin)%list_elem_of_In%in_map_iff [Hx|[]]%list_elem_of_In.
      assert (existsb (fun r => String.eqb (u_username r) username) (user_rows t) = true)
        as E'; [|congruence].
      apply existsb_username. by exists r.
    + apply Forall_app. split; [done|]. by repeat constructor.
  - eexists. unfold account_keys. cbn [user_rows]. by rewrite map_app.
Qed.

Lemma authenticate_ok salt now t username password :
  let t' := snd (authenticate salt now t username password) in
  (table_ok t -> table_ok t') /\ account_keys t' = account_keys t.
Proof.
  cbn zeta. unfold Accounts.authenticate.
  destruct (active_by_username _ _) as [user|]; [|done].
  destruct (_ && _); cbn [snd]; [by apply table_ok_update|].
  destruct (bcrypt_compare _ _); cbn [snd]; [by apply table_ok_update | done].
Qed.

(** X25. The account routes keep the table well formed and never drop
    an account: after any request to the router of [/api/users], to
    login or to register, ids are still distinct, usernames are still
    distinct, every role still passes its CHECK, and the (id, username)
    pairs of the table are those it had, in the same order, followed by
    those of accounts that were added. *)
Theorem account_routes_keep_the_table_well_formed
    salt now t authorization r username password name :
  let served t' :=
    (table_ok t -> table_ok t') /\
    exists extra, account_keys t' = account_keys t ++ extra in
  served (snd (users_router salt now t authorization r)) /\
  served (snd (login salt now t username password)) /\
  served (snd (register salt now t username password name)).
Proof.
  cbn zeta.
  assert (forall t', (table_ok t -> table_ok t') /\ account_keys t' = account_keys t ->
            (table_ok t -> table_ok t') /\
            exists extra, account_keys t' = account_keys t ++ extra) as Hsame.
  { intros t' [H1 H2]. split; [done|]. exists []. by rewrite app_nil_r. }
  assert ((table_ok t -> table_ok t) /\ account_keys t = account_keys t) as Hrefl
    by done.
  split; [|split].
  - unfold Accounts.users_router.
    destruct (authenticateToken t authorization); [by apply Hsame|].
    destruct (requireSuperAdmin _); [by apply Hsame|].
    destruct r as [|u p n ro|id up|id]; cbn [snd].
    + by apply Hsame.
    + unfold Accounts.post_user.
      destruct (validate_account u p n); [by apply Hsame|].
      pose proof (createUser_ok salt now t (default "" u) (default "" p) (default "" n))
        as [Hc (extra & Hk)].
      destruct (createUser _ _ _ _ _ _) as [[e|id] t1]; cbn [snd] in *.
      { split; [done | by exists extra]. }
      destruct (negb _); [|split; [done | by exists extra]].
      set (up := {| up_name := None; up_password := None;
                    up_role := Some (default "user" ro); up_is_active := None |}).
      pose proof (updateUser_ok salt t1 (Some id) up) as [Hu Hk'].
      destruct (updateUser salt t1 (Some id) up) as [[| | |err] t2]; cbn [snd] in *;
        (split; [auto | exists extra; by rewrite Hk', Hk]).
    + unfold Accounts.put_user.
      pose proof (updateUser_ok salt t id up) as H.
      destruct (updateUser salt t id up) as [o t']. by apply Hsame.
    + unfold Accounts.delete_user.
      set (up := {| up_name := None; up_password := None; up_role := None;
                    up_is_active := Some false |}).
      pose proof (updateUser_ok salt t id up) as H.
      destruct (updateUser salt t id up) as [o t']. cbn [snd] in H.
      assert (served :
        (table_ok t -> table_ok
           (snd match o with
                | Updated =>
                    (Plain (ok 200 (Message "User deactivated successfully")), t')
                | UpdateRejected _ => (Plain (failure 500 "Failed to delete user"), t')
                | _ => (Plain (update_answer o), t')
                end)) /\
        exists extra,
          account_keys
            (snd match o with
                 | Updated =>
                     (Plain (ok 200 (Message "User deactivated successfully")), t')
                 | UpdateRejected _ =>
                     (Plain (failure 500 "Failed to delete user"), t')
                 | _ => (Plain (update_answer o), t')
                 end) = account_keys t ++ extra).
      { destruct o; by apply Hsame. }
      destruct (getUserById t id) as [user|]; [|done].
      destruct (String.eqb _ _); [by apply Hsame | done].
  - unfold Accounts.login.
    destruct (_ || _); [by apply Hsame|].
    pose proof (authenticate_ok salt now t (default "" username) (default "" password))
      as H.
    destruct (authenticate _ _ _ _ _) as [[who|] t']; by apply Hsame.
  - unfold Accounts.register.
    destruct (validate_account _ _ _); [by apply Hsame|].
    pose proof (createUser_ok salt now t (default "" username) (default "" password)
                  (default "" name)) as H.
    by destruct (createUser _ _ _ _ _ _) as [[e|id] t1].
Qed.


Lemma find_last {A} (p : A -> bool) (l : list A) (x : A) :
  (forall y, In y l -> p y = false) -> p x = true -> List.find p (l ++ [x]) = Some x.
Proof.
  intros Hl Hx. induction l as [|y l IH]; simpl; [by rewrite Hx|].
  rewrite (Hl y) by (by left). apply IH. intros z Hz. apply Hl. by right.
Qed.

Lemma validate_account_None username password name :
  validate_account (Some username) (Some password) (Some name) = None ->
  username <> "" /\ password <> "" /\ name <> "".
Proof.
  unfold validate_account, truthy_str.
  destruct (String.eqb_spec username ""), (String.eqb_spec password ""),
    (String.eqb_spec name ""); cbn [negb orb]; try done.
Qed.

Lemma bearer_scheme (token : string) :
  bearer (Some ("Bearer " +:+ token)) = Some (until_space token).
Proof. reflexivity. Qed.

(** X26. Registration, login and the token fit together. When a body
    passes the validation and its username is free, register answers 201
    with a token for the id of the new account. Provided [bcrypt.compare]
    accepts a password against its own hash, a login with the same
    username and password is then answered 200 for that account. Provided
    the token verifies to the id it was signed for (and, as a JWT, is not
    empty and has no space), [authenticateToken] resolves the header
    [Bearer <token>] to the new account with the role [user], and the
    router of [/api/users] answers its every request 403 and changes
    nothing: self-registration never gives access to the account
    routes. *)
Theorem register_then_login_and_token
    salt now salt' now' t username password name :
  validate_account (Some username) (Some password) (Some name) = None ->
  (forall r, In r (user_rows t) -> u_username r <> username) ->
  bcrypt_compare password (bcrypt_hash salt password) = true ->
  let id := next_id u_id (user_rows t) (user_seq t) in
  let token := jwt_sign id username in
  jwt_verify token = Some id -> token <> "" -> until_space token = token ->
  let out := register salt now t (Some username) (Some password) (Some name) in
  fst out = TokenIssued 201 token id username name /\
  fst (login salt' now' (snd out) (Some username) (Some password))
    = TokenIssued 200 token id username name /\
  authenticateToken (snd out) (Some ("Bearer " +:+ token))
    = inr {| i_id := id; i_username := username; i_name := name; i_role := "user" |} /\
  (forall r,
     users_router salt' now' (snd out) (Some ("Bearer " +:+ token)) r
     = (Plain (failure 403 "Access denied. Super admin privileges required."),
        snd out)).
Proof.
  intros Hv Hfree Hcmp id token Hverify Hne Hspace out.
  destruct (validate_account_None _ _ _ Hv) as (Hu & Hp & Hn).
  assert (out = (TokenIssued 201 token id username name,
                 {| user_rows := user_rows t ++ [new_row salt now t username password name "user"];
                    user_seq := id |})) as ->.
  { unfold out, Accounts.register. rewrite Hv. cbn [from_option]. unfold Datatypes.id.
    by rewrite createUser_free. }
  cbn [fst snd].
  set (row := new_row salt now t username password name "user").
  set (t1 := {| user_rows := _; user_seq := _ |}).
  assert (authenticateToken t1 (Some ("Bearer " +:+ token))
          = inr {| i_id := id; i_username := username; i_name := name;
                   i_role := "user" |}) as Hauth.
  { unfold Accounts.authenticateToken.
    assert (bearer (Some ("Bearer " +:+ token)) = Some token) as ->.
    { by rewrite bearer_scheme, Hspace. }
    unfold truthy_str. rewrite (proj2 (String.eqb_neq _ _) Hne).
    cbn [negb from_option]. unfold Datatypes.id. rewrite Hverify.
    unfold getUserById, t1. cbn [user_rows].
    rewrite (find_last _ _ row); [done| |].
    - intros y Hy. pose proof (max_id_lt u_id _ (user_seq t) y Hy).
      destruct (Z.eqb_spec (u_id y) id); [lia | done].
    - cbn [row u_id u_is_active]. fold id. by rewrite Z.eqb_refl. }
  split; [done|]. split; [|split; [done|]].
  - unfold Accounts.login, truthy_str.
    rewrite (proj2 (String.eqb_neq _ _) Hu), (proj2 (String.eqb_neq _ _) Hp).
    cbn [negb orb from_option]. unfold Datatypes.id.
    unfold Accounts.authenticate, active_by_username, t1. cbn [user_rows].
    rewrite (find_last _ _ row).
    + cbn [row u_id u_password_hash]. rewrite Hcmp.
      by destruct (_ && _).
    + intros y Hy. destruct (String.eqb_spec (u_username y) username) as [E|]; [|done].
      by destruct (Hfree y Hy).
    + cbn [row u_username u_is_active]. by rewrite String.eqb_refl.
  - intros r. unfold Accounts.users_router. by rewrite Hauth.
Qed.

End Libraries.


Import AccountSamples.

Lemma delete_user_outcomes_witness :
  let out := delete_user sample_hash "salt-3" sample_accounts (Some 1) in
  fst out = Plain (ok 200 (Message "User deactivated successfully")) /\
  getUserById (snd out) (Some 1) = None.
Proof.
  destruct (delete_user_outcomes sample_hash sample_compare sample_verify
              "salt-3" sample_accounts (Some 1)) as (_ & _ & H).
  destruct (H 1 eq_refl) as (H1 & _ & _ & H2 & _).
  - exists admin_row. split; [by left | reflexivity].
  - intros user [= <-]. discriminate.
  - split; [exact H1 | exact H2].
Defined.

Lemma put_user_deactivates_any_account_witness :
  let out :=
    users_router sample_hash sample_verify "SQLITE_CONSTRAINT" "salt-3"
      "2024-02-01 00:00:00" sample_accounts (Some "Bearer token-2")
      (UpdateUser (Some 2)
         {| up_name := None; up_password := None; up_role := None;
            up_is_active := Some false |}) in
  fst out = Plain (ok 200 (Message "User updated successfully")) /\
  getUserById (snd out) (Some 2) = None.
Proof.
  destruct (put_user_deactivates_any_account sample_hash sample_verify
              "SQLITE_CONSTRAINT" "salt-3" "2024-02-01 00:00:00" sample_accounts
              (Some "Bearer token-2") (identity_of superadmin_row) 2
              {| up_name := None; up_password := None; up_role := None;
                 up_is_active := Some false |}) as [H _].
  - reflexivity.
  - reflexivity.
  - exists superadmin_row. split; [right; by left | reflexivity].
  - reflexivity.
  - destruct (H eq_refl) as (H1 & H2 & _). split; [exact H1 | exact H2].
Defined.

Lemma default_password_of_account_one_is_always_accepted_witness :
  let t1 :=
    snd (updateUser sample_hash "salt-4" sample_accounts (Some 1)
           {| up_name := None; up_password := Some "a-new-secret";
              up_role := None; up_is_active := None |}) in
  fst (authenticate sample_hash sample_compare "salt-5" "2024-02-01 00:00:00" t1
         "admin" "admin123") = Some (identity_of admin_row).
Proof.
  destruct (default_password_of_account_one_is_always_accepted
              sample_hash sample_compare "salt-5" "salt-4" "2024-02-01 00:00:00"
              sample_accounts "admin" admin_row "a-new-secret")
    as (_ & _ & H); [reflexivity | reflexivity | exact H].
Defined.

Lemma post_user_outcomes_witness :
  let out :=
    post_user sample_hash "SQLITE_CONSTRAINT" "salt-3" "2024-02-01 00:00:00"
      sample_accounts (Some "carol") (Some "secret-1") (Some "Carol")
      (Some "manager") in
  fst out = Plain (failure 500 "Failed to create user") /\
  length (user_rows (snd out)) = 3%nat.
Proof.
  destruct (post_user_outcomes sample_hash "SQLITE_CONSTRAINT" "salt-3"
              "2024-02-01 00:00:00" sample_accounts (Some "carol")
              (Some "secret-1") (Some "Carol") (Some "manager")) as (_ & _ & H).
  destruct H as (_ & H1 & _ & H2).
  - reflexivity.
  - intros r [<-|[<-|[]]]; discriminate.
  - split; [exact H2 | by rewrite H1].
Defined.

Lemma register_then_login_and_token_witness :
  let out :=
    register sample_hash sample_sign "SQLITE_CONSTRAINT" "salt-3"
      "2024-02-01 00:00:00" sample_accounts (Some "carol") (Some "secret-1")
      (Some "Carol") in
  fst out = TokenIssued 201 "token-3" 3 "carol" "Carol" /\
  fst (login sample_hash sample_compare sample_sign "salt-4" "2024-02-02 00:00:00"
         (snd out) (Some "carol") (Some "secret-1"))
    = TokenIssued 200 "token-3" 3 "carol" "Carol".
Proof.
  destruct (register_then_login_and_token sample_hash sample_compare sample_sign
              sample_verify "SQLITE_CONSTRAINT" "salt-3" "2024-02-01 00:00:00"
              "salt-4" "2024-02-02 00:00:00" sample_accounts "carol" "secret-1"
              "Carol") as (H1 & H2 & _).
  - reflexivity.
  - intros r [<-|[<-|[]]]; discriminate.
  - reflexivity.
  - reflexivity.
  - discriminate.
  - reflexivity.
  - split; [exact H1 | exact H2].
Defined.

End AccountFacts.

(** ** The years of one tenant and the files of the others *)

Module TenantYearFacts.
Import Js Sqlite Http DatabaseManager Route Query Years Names SortFacts.
Import ManagerFacts RouteFacts YearFacts.

(** Two descending lists with the same elements are the same list. *)
Lemma descending_unique (l l' : list Z) :
  StronglySorted (fun a b => b <= a) l -> StronglySorted (fun a b => b <= a) l' ->
  Permutation l l' -> l = l'.
Proof.
  revert l'. induction l as [|x xs IH]; intros l' Hs Hs' Hp.
  - by apply Permutation_nil in Hp.
  - destruct l' as [|y ys]; [by apply Permutation_sym, Permutation_nil in Hp|].
    apply StronglySorted_inv in Hs as [Hs Hx], Hs' as [Hs' Hy].
    rewrite List.Forall_forall in Hx, Hy.
    assert (x = y) as ->.
    { pose proof (Permutation_in x Hp ltac:(by left)) as [E|Hxy]; [done|].
      pose proof (Permutation_in y (Permutation_sym Hp) ltac:(by left)) as [E|Hyx];
        [done|].
      specialize (Hx y Hyx). specialize (Hy x Hxy). lia. }
    f_equal. apply IH; [done | done | by apply Permutation_cons_inv in Hp].
Qed.

Lemma sort_descending_perm (l l' : list Z) :
  Permutation l l' -> sort_by descending l = sort_by descending l'.
Proof.
  intros Hp. apply descending_unique; [apply descending_sorted ..|].
  rewrite !sort_by_perm. done.
Qed.

Lemma NoDup_omap_inj {A B} (f : A -> option B) (l : list A) :
  (forall x y z, f x = Some z -> f y = Some z -> x = y) ->
  NoDup l -> NoDup (omap f l).
Proof.
  intros Hinj. induction 1 as [|x l Hx Hl IH]; cbn; [constructor|].
  destruct (f x) as [z|] eqn:E; [|done].
  constructor; [|done].
  intros (y & Hy & Ey)%list_elem_of_omap.
  by rewrite (Hinj x y z E Ey) in Hx.
Qed.

Lemma omap_fst {A B C} (f : A -> option C) (l : list (A * B)) :
  omap (fun entry => f (fst entry)) l = omap f (map fst l).
Proof. induction l as [|[a b] l IH]; cbn; [done|]. by rewrite IH. Qed.

Lemma readdirSync_NoDup (m : manager) : NoDup (readdirSync m).
Proof.
  unfold readdirSync. rewrite omap_fst. apply NoDup_omap_inj.
  - intros p q name. unfold entry_name.
    destruct (after_literal _ p) as [n|] eqn:Ep; [|done].
    destruct (after_literal _ q) as [n'|] eqn:Eq; [|by destruct (has_separator n)].
    destruct (has_separator n), (has_separator n'); try done.
    intros [= ->] [= ->].
    apply after_literal_spec in Ep, Eq. by subst.
  - apply NoDup_fst_map_to_list.
Qed.

(** The years of a tenant depend on nothing but which names starting
    with [user_<id>_] the directory has. *)
Lemma years_from_own_entries (m m' : manager) (u : Z) :
  dbPath m' = dbPath m ->
  (forall name, startsWith name ("user_" +:+ show_Z u +:+ "_") = true ->
     (is_Some (fs m' !! path_join (dbPath m) name) <->
      is_Some (fs m !! path_join (dbPath m) name))) ->
  getUserYears m' u = getUserYears m u.
Proof.
  intros Hdir Hsame. unfold getUserYears. apply sort_descending_perm.
  apply omap_Permutation. apply NoDup_Permutation.
  - apply NoDup_ListNoDup, List.NoDup_filter, NoDup_ListNoDup, readdirSync_NoDup.
  - apply NoDup_ListNoDup, List.NoDup_filter, NoDup_ListNoDup, readdirSync_NoDup.
  - intros name. rewrite !list_elem_of_In, !filter_In, <- !list_elem_of_In.
    rewrite !readdirSync_spec, Hdir. split.
    + intros [[Hs Hf] [H1 H2]%andb_prop]. rewrite H1, H2.
      by rewrite <- (Hsame name H1).
    + intros [[Hs Hf] [H1 H2]%andb_prop]. rewrite H1, H2.
      by rewrite (Hsame name H1).
Qed.

Lemma path_join_inj (dir name name' : string) :
  path_join dir name = path_join dir name' -> name = name'.
Proof. unfold path_join. intros H. by do 2 apply String.app_inj in H. Qed.

(** X27. Tenants do not show up in each other's years. Whatever year a
    tenant names --- a number, [NaN] or a text of a query without a path
    separator --- opening its shard leaves the answer of [getUserYears]
    for every other tenant as it was, and so does every route of that
    tenant that works on the shard, when the cached handles are bound to
    the files of their keys. *)
Theorem years_of_other_tenants_are_untouched now (m : manager) (u u' : Z)
    (y : value) (handler : file -> response * file) :
  u <> u' -> has_separator (to_string y) = false -> App.registry_ok m ->
  getUserYears (snd (getConnection now m u y)) u' = getUserYears m u' /\
  getUserYears (snd (on_shard now m u y handler)) u' = getUserYears m u'.
Proof.
  intros Hne _ Hreg.
  assert (forall name, startsWith name ("user_" +:+ show_Z u' +:+ "_") = true ->
            path_join (dbPath m) name <> dbFile m u y) as Hother.
  { intros name Hs E. apply path_join_inj in E. subst name.
    apply shard_name_tenant in Hs. done. }
  split; apply years_from_own_entries.
  - apply getConnection_dbPath.
  - intros name Hs. by rewrite getConnection_fs_other by (by apply Hother).
  - apply on_shard_dbPath.
  - intros name Hs. rewrite on_shard_fs_other; [done| |by apply Hother].
    rewrite getConnection_handle_file by done. by apply Hother.
Qed.

Lemma years_of_other_tenants_are_untouched_witness :
  getUserYears
    (snd (getConnection "2025-01-01 00:00:00" Samples.opened_manager 2
            (VStr "user_1_2030")))
    1
  = getUserYears Samples.opened_manager 1.
Proof.
  apply (years_of_other_tenants_are_untouched
           "2025-01-01 00:00:00" Samples.opened_manager 2 1 (VStr "user_1_2030")
           (fun f => (failure 500 "", f))).
  - discriminate.
  - reflexivity.
  - apply (getConnection_registry_ok "2024-01-01 00:00:00" Samples.empty_manager
             1 (VNum 2024)).
    intros key db H. discriminate H.
Defined.

(** X28. Backups do not show up as years: after [backupDatabase], for
    any tenant, year and clock reading, [getUserYears] and
    [GET /api/years] answer every tenant what they answered before. *)
Theorem backups_are_not_listed_as_years t (m : manager) (u : Z) (y : value) (u' : Z) :
  getUserYears (snd (backupDatabase t m u y)) u' = getUserYears m u' /\
  (forall current_year,
     api_years (snd (backupDatabase t m u y)) u' current_year
     = api_years m u' current_year).
Proof.
  assert (getUserYears (snd (backupDatabase t m u y)) u' = getUserYears m u') as H.
  { unfold backupDatabase. destruct (fs m !! dbFile m u y) as [f|]; [|done].
    cbn [snd]. apply years_from_own_entries; [done|].
    intros name Hs. unfold set_fs. cbn [fs].
    rewrite lookup_insert_ne; [done|].
    unfold backupFile. intros E%path_join_inj. subst name. discriminate Hs. }
  split; [done|]. intros current_year. unfold api_years. by rewrite H.
Qed.

End TenantYearFacts.
